(** * SeedParser: the download and transcode task queues

    A shallow embedding of the task orchestration code of the Go backend
    (the [App] methods that read and rewrite [download_progress.json] and
    [transcode_progress.json]), with the properties of its queue
    discipline, its recovery pass, its cancel and query operations and its
    progress and size parsers.

    Conventions of the embedding:
    - a progress file is a [file]: absent, unreadable, not parseable as a
      JSON list, or a list of task records;
    - every operation is a state-passing function over a [fs], which holds
      the file, whether [os.WriteFile] succeeds, and the log of the
      snapshots written so far;
    - [float64] is Rocq's primitive binary64 float;
    - what the operating system decides (whether a child process can be
      launched, its pid, the clock) is an argument of the operation. *)

From Stdlib Require Import ZArith String Ascii List Bool Lia Floats Uint63.
From stdpp Require Import base option list gmap strings.

Set Warnings "-inexact-float,-register-all".
Open Scope string_scope.
Open Scope list_scope.

(** ** Numbers *)

(** [float64(n)] for an [int64] (or [int]) [n]: the nearest float. *)
Definition float_of_Z (z : Z) : float :=
  if (0 <=? z)%Z then PrimFloat.of_uint63 (Uint63.of_Z z)
  else if (z =? - 2 ^ 63)%Z then (-9223372036854775808)%float
  else PrimFloat.opp (PrimFloat.of_uint63 (Uint63.of_Z (- z))).

(** [int64(f)] and [int(f)] on amd64, the platform the program is built
    for (it runs [torrent.exe], [ffmpeg.exe] and [taskkill]): the float
    truncated toward zero when that fits in 64 bits; for a NaN, an
    infinity and a value out of range the conversion instruction gives
    -2^63. *)
Definition int_of_float (f : float) : Z :=
  match Prim2SF f with
  | S754_finite s m e =>
      let a := if (0 <=? e)%Z then (Z.pos m * 2 ^ e)%Z else (Z.pos m / 2 ^ (- e))%Z in
      let v := if s then (- a)%Z else a in
      if (- 2 ^ 63 <=? v)%Z && (v <? 2 ^ 63)%Z then v else (- 2 ^ 63)%Z
  | S754_zero _ => 0%Z
  | _ => (- 2 ^ 63)%Z
  end.

Definition fgt (x y : float) : bool := PrimFloat.ltb y x.
Definition flt (x y : float) : bool := PrimFloat.ltb x y.
Definition fge (x y : float) : bool := PrimFloat.leb y x.

(** ** JSON values, as [encoding/json] decodes them into [interface{}] *)

Inductive jval : Type :=
| JNull
| JBool (b : bool)
| JNum (x : float)
| JStr (s : string)
| JArr (xs : list jval)
| JObj (kvs : list (string * jval)).

(** ** The progress files *)

Inductive file (A : Type) : Type :=
| Missing
| Unreadable
| Corrupt
| Stored (l : list A).
Arguments Missing {A}.
Arguments Unreadable {A}.
Arguments Corrupt {A}.
Arguments Stored {A} l.

Inductive error : Type :=
| ErrRead
| ErrParse
| ErrWrite
| ErrNotFound (id : string)
| ErrBusy
| ErrPrepare
| ErrLaunch
| ErrSize (s : string)
| ErrNumber (s : string)
| ErrPanic.

Record fs (A : Type) : Type := mkFs {
  content : file A;
  writable : bool;
  written : list (list A)
}.
Arguments mkFs {A} content writable written.
Arguments content {A} f.
Arguments writable {A} f.
Arguments written {A} f.

(** A file system with an empty write log. *)
Definition onDisk {A} (c : file A) (w : bool) : fs A := mkFs c w [].

Definition M (A R : Type) : Type := fs A -> R * fs A.

Definition ret {A R} (r : R) : M A R := fun s => (r, s).

Definition bind {A R S} (m : M A R) (k : R -> M A S) : M A S :=
  fun s => let (r, s') := m s in k r s'.

Notation "'let*' x ':=' m 'in' k" := (bind m (fun x => k))
  (at level 10, x name, m at level 100, k at level 200).

(** [os.ReadFile] followed by [json.Unmarshal]. *)
Inductive loaded (A : Type) : Type :=
| ReadFailed (notExist : bool)
| ParseFailed
| Loaded (l : list A).
Arguments ReadFailed {A} notExist.
Arguments ParseFailed {A}.
Arguments Loaded {A} l.

Definition readStore {A} : M A (loaded A) :=
  fun s =>
    (match content s with
     | Missing => ReadFailed true
     | Unreadable => ReadFailed false
     | Corrupt => ParseFailed
     | Stored l => Loaded l
     end, s).

(** [json.MarshalIndent] followed by [os.WriteFile]; the result is
    [true] when the file was replaced. *)
Definition writeStore {A} (l : list A) : M A bool :=
  fun s =>
    if writable s
    then (true, mkFs (Stored l) true (written s ++ [l]))
    else (false, s).

(** The first record that satisfies [P], with its index: what a loop
    [for i, t := range tasks { if P(t) { ...; break } }] stops at. *)
Definition firstMatch {A} (P : A -> bool) (l : list A) : option (nat * A) :=
  list_find (fun x => P x = true) l.

(** The loop
    [for i, t := range tasks { if P(t) { tasks[i] = f(t); break } }]. *)
Definition updateFirst {A} (P : A -> bool) (f : A -> A) (l : list A) : list A :=
  match firstMatch P l with
  | Some (i, x) => <[i := f x]> l
  | None => l
  end.

(** At most one record of the list satisfies [P]: any two positions that
    do are the same position. *)
Definition atMostOne {A} (P : A -> bool) (l : list A) : Prop :=
  forall i j x y, l !! i = Some x -> l !! j = Some y ->
    P x = true -> P y = true -> i = j.

Definition atMostOneStored {A} (P : A -> bool) (c : file A) : Prop :=
  match c with
  | Stored l => atMostOne P l
  | _ => True
  end.

(** ** The download queue ([download_progress.json]) *)

Module Download.

(** A download task is a [map[string]interface{}]. *)
Abbreviation task := (gmap string jval).

Inductive reply : Type :=
| Success (taskId : string)
| Failure (e : error).

(** [s, ok := t[key].(string); ok && s == v], which is also what
    [t[key] == v] computes for a string [v]. *)
Definition fieldIs (key : string) (t : task) (v : string) : bool :=
  match t !! key with
  | Some (JStr s) => String.eqb s v
  | _ => false
  end.

Definition statusIs : task -> string -> bool := fieldIs "status".
Definition idIs : task -> string -> bool := fieldIs "taskId".

Definition downloading (t : task) : bool := statusIs t "downloading".
Definition waiting (t : task) : bool := statusIs t "waiting".
Definition terminal (t : task) : bool :=
  statusIs t "completed" || statusIs t "failed" || statusIs t "cancelled".

(** [t[key].(string)], which panics when the value is not a string. *)
Definition mustString (key : string) (t : task) : option string :=
  match t !! key with
  | Some (JStr s) => Some s
  | _ => None
  end.

(** *** startDownload *)

Definition markDownloading (pid : Z) (t : task) : task :=
  <["pid" := JNum (float_of_Z pid)]> (<["status" := JStr "downloading"]> t).

(** [launch] is the pid of the child when the tool was found and
    [downloadCmd.Start] succeeded. *)
Definition startDownload (taskId : string) (launch : option Z) : M task (option error) :=
  match launch with
  | None => ret (Some ErrLaunch)
  | Some pid =>
      let* r := readStore in
      match r with
      | ReadFailed _ => ret (Some ErrRead)
      | ParseFailed => ret (Some ErrParse)
      | Loaded progressList =>
          let* ok := writeStore (updateFirst (fun p => idIs p taskId) (markDownloading pid) progressList) in
          ret (if ok then None else Some ErrWrite)
      end
  end.

(** *** DownloadTorrentFiles, from the point where the task is built *)

Definition outputDir : string := "./downloads".

Definition initialProgress (taskId magnetLink fileName now : string)
    (selectedFiles : list string) : task :=
  list_to_map
    [ ("taskId", JStr taskId);
      ("magnetLink", JStr magnetLink);
      ("status", JStr "waiting");
      ("totalSize", JNum 0);
      ("downloaded", JNum 0);
      ("selectedFiles", JArr (map JStr selectedFiles));
      ("fileName", JStr fileName);
      ("startTime", JStr now);
      ("outputDir", JStr outputDir);
      ("speed", JNum 0);
      ("percentage", JNum 0) ].

(** [prepared] is the magnet link when decoding the request, writing the
    temporary torrent, running the metainfo tool and creating the output
    directory all succeeded. *)
Definition DownloadTorrentFiles (prepared : option string)
    (taskId fileName now : string) (selectedFiles : list string)
    (launch : option Z) : M task reply :=
  match prepared with
  | None => ret (Failure ErrPrepare)
  | Some magnetLink =>
      let* r := readStore in
      let progressList := match r with Loaded l => l | _ => [] end in
      let hasDownloadingTask := existsb downloading progressList in
      let* ok := writeStore
        (progressList ++ [initialProgress taskId magnetLink fileName now selectedFiles]) in
      if ok then
        if hasDownloadingTask then ret (Success taskId)
        else
          let* e := startDownload taskId launch in
          ret (match e with Some err => Failure err | None => Success taskId end)
      else ret (Failure ErrWrite)
  end.

(** *** startNextWaitingTask

    The Go function returns nothing; the model returns what it logs. *)
Definition startNextWaitingTask (launch : option Z) : M task (option error) :=
  let* r := readStore in
  match r with
  | ReadFailed _ => ret (Some ErrRead)
  | ParseFailed => ret (Some ErrParse)
  | Loaded progressList =>
      if existsb downloading progressList then ret None
      else
        match find waiting progressList with
        | Some nextTask =>
            match mustString "taskId" nextTask, mustString "magnetLink" nextTask,
                  mustString "outputDir" nextTask with
            | Some taskId, Some _, Some _ => startDownload taskId launch
            | _, _, _ => ret (Some ErrPanic)
            end
        | None => ret None
        end
  end.

(** startNextWaitingTask in its two parts. The function holds no lock
    and reads the file twice: once in its scan, and once more inside
    startDownload, after the child process has been launched. [decision]
    is what the scan leaves the function with: the task to start, or the
    return. *)
Inductive decision : Type :=
| Start (taskId : string)
| Return (e : option error).

Definition scanWaiting : M task decision :=
  let* r := readStore in
  match r with
  | ReadFailed _ => ret (Return (Some ErrRead))
  | ParseFailed => ret (Return (Some ErrParse))
  | Loaded progressList =>
      if existsb downloading progressList then ret (Return None)
      else
        match find waiting progressList with
        | Some nextTask =>
            match mustString "taskId" nextTask, mustString "magnetLink" nextTask,
                  mustString "outputDir" nextTask with
            | Some taskId, Some _, Some _ => ret (Start taskId)
            | _, _, _ => ret (Return (Some ErrPanic))
            end
        | None => ret (Return None)
        end
  end.

Definition act (d : decision) (launch : option Z) : M task (option error) :=
  match d with
  | Start taskId => startDownload taskId launch
  | Return e => ret e
  end.

(** *** StartWaitingTask *)

Definition StartWaitingTask (taskId : string) (launch : option Z) : M task reply :=
  let* r := readStore in
  match r with
  | ReadFailed _ => ret (Failure ErrRead)
  | ParseFailed => ret (Failure ErrParse)
  | Loaded progressList =>
      if existsb downloading progressList then ret (Failure ErrBusy)
      else
        match find (fun t => idIs t taskId && waiting t) progressList with
        | None => ret (Failure (ErrNotFound taskId))
        | Some targetTask =>
            match mustString "magnetLink" targetTask, mustString "outputDir" targetTask with
            | Some _, Some _ =>
                let* e := startDownload taskId launch in
                ret (match e with Some err => Failure err | None => Success taskId end)
            | _, _ => ret (Failure ErrPanic)
            end
        end
  end.

(** *** The monitoring goroutine of startDownload: one progress line

    [downloaded], [totalSize] and [speed] are the three sizes parsed from
    the line, [percentage] the quotient computed from them. *)

Definition recordProgress (downloaded totalSize speed : Z) (percentage : float)
    (now : string) (t : task) : task :=
  <["lastUpdate" := JStr now]>
    (<["percentage" := JNum percentage]>
       (<["speed" := JNum (float_of_Z speed)]>
          (<["totalSize" := JNum (float_of_Z totalSize)]>
             (<["downloaded" := JNum (float_of_Z downloaded)]> t)))).

Definition updateProgress (taskId : string) (downloaded totalSize speed : Z)
    (percentage : float) (now : string) : M task (option error) :=
  let* r := readStore in
  match r with
  | ReadFailed _ => ret (Some ErrRead)
  | ParseFailed => ret (Some ErrParse)
  | Loaded currentProgressList =>
      let* ok := writeStore
        (updateFirst (fun p => idIs p taskId)
           (recordProgress downloaded totalSize speed percentage now) currentProgressList) in
      ret (if ok then None else Some ErrWrite)
  end.

(** *** The end of the monitoring goroutine of startDownload *)

Definition protected (t : task) : bool := statusIs t "cancelled" || statusIs t "paused".

Definition backToWaiting (now : string) (t : task) : task :=
  delete "pid" (<["endTime" := JStr now]> (<["status" := JStr "waiting"]> t)).

Definition markCompleted (now : string) (t : task) : task :=
  <["endTime" := JStr now]> (<["status" := JStr "completed"]> t).

Definition exitUpdate (waitFailed : bool) (now : string) : task -> task :=
  if waitFailed then backToWaiting now else markCompleted now.

(** The loop over [currentProgressList] after [downloadCmd.Wait]:
    [None] when the task was found cancelled or paused and the goroutine
    returns without writing. *)
Definition exitTransition (taskId : string) (waitFailed : bool) (now : string)
    (l : list task) : option (list task) :=
  match firstMatch (fun p => idIs p taskId) l with
  | Some (i, p) =>
      if protected p then None
      else Some (<[i := exitUpdate waitFailed now p]> l)
  | None => Some l
  end.

Definition monitorExit (taskId : string) (waitFailed : bool) (now : string)
    (launch : option Z) : M task (option error) :=
  let* r := readStore in
  match r with
  | ReadFailed _ => ret (Some ErrRead)
  | ParseFailed => ret (Some ErrParse)
  | Loaded currentProgressList =>
      match exitTransition taskId waitFailed now currentProgressList with
      | None => startNextWaitingTask launch
      | Some updated =>
          let* ok := writeStore updated in
          if ok then startNextWaitingTask launch else ret (Some ErrWrite)
      end
  end.

(** The goroutine in its two parts: the read with the loop, and the
    write followed by startNextWaitingTask. Nothing keeps another
    operation from running between them. *)
Inductive exitDecision : Type :=
| ExitFailed (e : error)
| ExitLoaded (updated : option (list task)).

Definition exitScan (taskId : string) (waitFailed : bool) (now : string)
    : M task exitDecision :=
  let* r := readStore in
  match r with
  | ReadFailed _ => ret (ExitFailed ErrRead)
  | ParseFailed => ret (ExitFailed ErrParse)
  | Loaded currentProgressList =>
      ret (ExitLoaded (exitTransition taskId waitFailed now currentProgressList))
  end.

Definition exitWrite (d : exitDecision) (launch : option Z) : M task (option error) :=
  match d with
  | ExitFailed e => ret (Some e)
  | ExitLoaded None => startNextWaitingTask launch
  | ExitLoaded (Some updated) =>
      let* ok := writeStore updated in
      if ok then startNextWaitingTask launch else ret (Some ErrWrite)
  end.

(** *** CancelDownload *)

Definition markCancelled (now : string) (t : task) : task :=
  <["endTime" := JStr now]> (<["status" := JStr "cancelled"]> t).

(** [task["pid"] != nil] *)
Definition hasPid (t : task) : bool :=
  match t !! "pid" with
  | None | Some JNull => false
  | Some _ => true
  end.

(** The loop of CancelDownload: whether a task was found, the pids whose
    process is killed, and the list after the loop. A task that is
    downloading with a pid that is not a number is skipped by the
    [continue] of the type switch, and the loop goes on. *)
Fixpoint cancelLoop (taskId now : string) (l : list task) : bool * list Z * list task :=
  match l with
  | [] => (false, [], [])
  | t :: rest =>
      if idIs t taskId then
        if statusIs t "downloading" && hasPid t then
          match t !! "pid" with
          | Some (JNum v) => (true, [int_of_float v], markCancelled now t :: rest)
          | _ =>
              let '(_, kills, rest') := cancelLoop taskId now rest in
              (true, kills, t :: rest')
          end
        else (true, [], markCancelled now t :: rest)
      else
        let '(found, kills, rest') := cancelLoop taskId now rest in
        (found, kills, t :: rest')
  end.

Definition CancelDownload (taskId now : string) : M task (reply * list Z) :=
  let* r := readStore in
  match r with
  | ReadFailed _ => ret (Failure ErrRead, [])
  | ParseFailed => ret (Failure ErrParse, [])
  | Loaded progressList =>
      let '(taskFound, kills, updated) := cancelLoop taskId now progressList in
      if taskFound then
        let* ok := writeStore updated in
        ret (if ok then Success taskId else Failure ErrWrite, kills)
      else ret (Failure (ErrNotFound taskId), kills)
  end.

(** CancelDownload in its two parts: the read with the loop, in which
    the process is killed, and the write of the list the loop has
    changed. *)
Inductive cancelDecision : Type :=
| CancelFailed (e : error)
| CancelScanned (taskFound : bool) (kills : list Z) (updated : list task).

Definition cancelScan (taskId now : string) : M task cancelDecision :=
  let* r := readStore in
  match r with
  | ReadFailed _ => ret (CancelFailed ErrRead)
  | ParseFailed => ret (CancelFailed ErrParse)
  | Loaded progressList =>
      let '(taskFound, kills, updated) := cancelLoop taskId now progressList in
      ret (CancelScanned taskFound kills updated)
  end.

Definition cancelWrite (taskId : string) (c : cancelDecision) : M task (reply * list Z) :=
  match c with
  | CancelFailed e => ret (Failure e, [])
  | CancelScanned taskFound kills updated =>
      if taskFound then
        let* ok := writeStore updated in
        ret (if ok then Success taskId else Failure ErrWrite, kills)
      else ret (Failure (ErrNotFound taskId), kills)
  end.

(** *** startup, the download half *)

Section Startup.

(** [time.Parse(time.RFC3339, s)], as an instant on the time line. *)
Variable parseTime : string -> option Z.

(** The demotion loop: the list after it and [hasDownloadingTask]. *)
Fixpoint demoteLoop (now : string) (l : list task) : list task * bool :=
  match l with
  | [] => ([], false)
  | t :: rest =>
      let (rest', has) := demoteLoop now rest in
      if downloading t then (backToWaiting now t :: rest', true)
      else (t :: rest', has)
  end.

(** The demotion step of startup: read, demote, write when something was
    demoted. The result tells whether startup goes on. *)
Definition recoverDownloads (now : string) : M task (option (list task)) :=
  let* r := readStore in
  match r with
  | ReadFailed true => let* _ := writeStore [] in ret None
  | ReadFailed false => ret None
  | ParseFailed => ret None
  | Loaded progressList =>
      let (demoted, hasDownloadingTask) := demoteLoop now progressList in
      if hasDownloadingTask then
        let* ok := writeStore demoted in
        ret (if ok then Some demoted else None)
      else ret (Some demoted)
  end.

(** The search for the earliest waiting task: [best] is
    [(earliestTask, earliestTime)]. *)
Fixpoint earliestLoop (l : list task) (best : option (task * Z)) : option (task * Z) :=
  match l with
  | [] => best
  | t :: rest =>
      if waiting t then
        match mustString "startTime" t with
        | Some startTimeStr =>
            match parseTime startTimeStr with
            | Some startTime =>
                match best with
                | None => earliestLoop rest (Some (t, startTime))
                | Some (_, earliestTime) =>
                    if (startTime <? earliestTime)%Z
                    then earliestLoop rest (Some (t, startTime))
                    else earliestLoop rest best
                end
            | None => earliestLoop rest best
            end
        | None => earliestLoop rest best
        end
      else earliestLoop rest best
  end.

Definition earliestWaiting (l : list task) : option (task * Z) := earliestLoop l None.

(** The download half of startup; [true] when the transcode half runs
    after it. *)
Definition startupDownloads (now : string) (launch : option Z) : M task bool :=
  let* r := recoverDownloads now in
  match r with
  | None => ret false
  | Some progressList =>
      match earliestWaiting progressList with
      | Some (earliestTask, _) =>
          match mustString "taskId" earliestTask, mustString "magnetLink" earliestTask,
                mustString "outputDir" earliestTask with
          | Some taskId, Some _, Some _ =>
              let* _ := startDownload taskId launch in ret true
          | _, _, _ => ret false (* a failed type assertion panics *)
          end
      | None => ret true
      end
  end.

End Startup.

End Download.

(** ** The transcode queue ([transcode_progress.json]) *)

Module Transcode.

(** [time.Time] is an instant on the time line; the zero time is 0. *)
Record TranscodeTask : Type := mkTask {
  TaskID : string;
  InputFile : string;
  OutputFile : string;
  Status : string;
  StartTime : Z;
  EndTime : Z;
  Progress : float;
  Speed : string;
  TimeRemaining : string;
  FFmpegCommand : string;
  PID : Z;
  Error : string;
  VideoCodec : string;
  AudioCodec : string;
  Resolution : string;
  Bitrate : string
}.

Definition setStatus (v : string) (t : TranscodeTask) : TranscodeTask :=
  mkTask (TaskID t) (InputFile t) (OutputFile t) v (StartTime t) (EndTime t)
    (Progress t) (Speed t) (TimeRemaining t) (FFmpegCommand t) (PID t) (Error t)
    (VideoCodec t) (AudioCodec t) (Resolution t) (Bitrate t).

Definition setStartTime (v : Z) (t : TranscodeTask) : TranscodeTask :=
  mkTask (TaskID t) (InputFile t) (OutputFile t) (Status t) v (EndTime t)
    (Progress t) (Speed t) (TimeRemaining t) (FFmpegCommand t) (PID t) (Error t)
    (VideoCodec t) (AudioCodec t) (Resolution t) (Bitrate t).

Definition setEndTime (v : Z) (t : TranscodeTask) : TranscodeTask :=
  mkTask (TaskID t) (InputFile t) (OutputFile t) (Status t) (StartTime t) v
    (Progress t) (Speed t) (TimeRemaining t) (FFmpegCommand t) (PID t) (Error t)
    (VideoCodec t) (AudioCodec t) (Resolution t) (Bitrate t).

Definition setProgress (v : float) (t : TranscodeTask) : TranscodeTask :=
  mkTask (TaskID t) (InputFile t) (OutputFile t) (Status t) (StartTime t) (EndTime t)
    v (Speed t) (TimeRemaining t) (FFmpegCommand t) (PID t) (Error t)
    (VideoCodec t) (AudioCodec t) (Resolution t) (Bitrate t).

Definition setSpeed (v : string) (t : TranscodeTask) : TranscodeTask :=
  mkTask (TaskID t) (InputFile t) (OutputFile t) (Status t) (StartTime t) (EndTime t)
    (Progress t) v (TimeRemaining t) (FFmpegCommand t) (PID t) (Error t)
    (VideoCodec t) (AudioCodec t) (Resolution t) (Bitrate t).

Definition setPID (v : Z) (t : TranscodeTask) : TranscodeTask :=
  mkTask (TaskID t) (InputFile t) (OutputFile t) (Status t) (StartTime t) (EndTime t)
    (Progress t) (Speed t) (TimeRemaining t) (FFmpegCommand t) v (Error t)
    (VideoCodec t) (AudioCodec t) (Resolution t) (Bitrate t).

Definition setError (v : string) (t : TranscodeTask) : TranscodeTask :=
  mkTask (TaskID t) (InputFile t) (OutputFile t) (Status t) (StartTime t) (EndTime t)
    (Progress t) (Speed t) (TimeRemaining t) (FFmpegCommand t) (PID t) v
    (VideoCodec t) (AudioCodec t) (Resolution t) (Bitrate t).

Inductive reply : Type :=
| Success (taskId : string)
| Failure (e : error).

Definition statusIs (t : TranscodeTask) (s : string) : bool := String.eqb (Status t) s.
Definition idIs (t : TranscodeTask) (id : string) : bool := String.eqb (TaskID t) id.

Definition transcoding (t : TranscodeTask) : bool := statusIs t "transcoding".
Definition waiting (t : TranscodeTask) : bool := statusIs t "waiting".
Definition terminal (t : TranscodeTask) : bool :=
  statusIs t "completed" || statusIs t "failed" || statusIs t "cancelled".

(** *** startTranscode

    The choice of the encoder arguments (lines 1042-1354) only shapes
    the command line of the child; [launch] is the pid of the child
    when ffmpeg was found, the pipes were opened and [transcodeCmd.Start]
    succeeded. *)

Definition markTranscoding (pid now : Z) (t : TranscodeTask) : TranscodeTask :=
  setStartTime now (setPID pid (setStatus "transcoding" t)).

Definition startTranscode (taskID : string) (launch : option Z) (now : Z)
    : M TranscodeTask (option error) :=
  let* r := readStore in
  match r with
  | ReadFailed _ => ret (Some ErrRead)
  | ParseFailed => ret (Some ErrParse)
  | Loaded transcodeTasks =>
      match firstMatch (fun t => idIs t taskID) transcodeTasks with
      | None => ret (Some (ErrNotFound taskID))
      | Some (taskIndex, task) =>
          match launch with
          | None => ret (Some ErrLaunch)
          | Some pid =>
              let* ok := writeStore (<[taskIndex := markTranscoding pid now task]> transcodeTasks) in
              ret (if ok then None else Some ErrWrite)
          end
      end
  end.

(** *** startNextTranscodeTask *)

Definition startNextTranscodeTask (launch : option Z) (now : Z)
    : M TranscodeTask (option error) :=
  let* r := readStore in
  match r with
  | ReadFailed _ => ret (Some ErrRead)
  | ParseFailed => ret (Some ErrParse)
  | Loaded transcodeTasks =>
      if existsb transcoding transcodeTasks then ret None
      else
        let nextTaskID :=
          match find waiting transcodeTasks with
          | Some task => TaskID task
          | None => ""
          end in
        if negb (String.eqb nextTaskID "")
        then startTranscode nextTaskID launch now
        else ret None
  end.

(** *** AddTranscodeTaskWithParams, from the point where the task is built

    [prepared] tells whether the input file and ffmpeg were found;
    [ffmpegCommand] is the command text assembled from the arguments. *)

Definition newTask (taskID inputFile outputFile ffmpegCommand videoCodec audioCodec
    resolution bitrate : string) (now : Z) : TranscodeTask :=
  mkTask taskID inputFile outputFile "waiting" now 0 0%float "" "" ffmpegCommand 0 ""
    videoCodec audioCodec resolution bitrate.

Definition AddTranscodeTaskWithParams (prepared : bool)
    (taskID inputFile outputFile ffmpegCommand videoCodec audioCodec resolution bitrate : string)
    (launch : option Z) (now : Z) : M TranscodeTask reply :=
  if prepared then
    let transcodeTask := newTask taskID inputFile outputFile ffmpegCommand videoCodec
                           audioCodec resolution bitrate now in
    let* r := readStore in
    let transcodeTasks := match r with Loaded l => l | _ => [] end in
    let hasRunningTask := existsb transcoding transcodeTasks in
    let* ok := writeStore (transcodeTasks ++ [transcodeTask]) in
    if ok then
      if hasRunningTask then ret (Success taskID)
      else
        let* e := startNextTranscodeTask launch now in
        ret (match e with
             | Some err => Failure err
             | None => Success taskID
             end)
    else ret (Failure ErrWrite)
  else ret (Failure ErrPrepare).

(** *** The end of monitorTranscodeProgress

    [cmdErr] is the text of the error of [cmd.Wait], if any. *)

Definition exitUpdate (cmdErr : option string) (now : Z) (t : TranscodeTask) : TranscodeTask :=
  match cmdErr with
  | Some msg =>
      let failed := setStatus "failed" t in
      setEndTime now (if String.eqb (Error failed) "" then setError msg failed else failed)
  | None => setEndTime now (setProgress 1%float (setStatus "completed" t))
  end.

Definition exitTransition (taskID : string) (cmdErr : option string) (now : Z)
    (l : list TranscodeTask) : list TranscodeTask :=
  updateFirst (fun t => idIs t taskID) (exitUpdate cmdErr now) l.

Definition monitorExit (taskID : string) (cmdErr : option string) (now : Z)
    (launch : option Z) : M TranscodeTask (option error) :=
  let* r := readStore in
  match r with
  | ReadFailed _ => ret (Some ErrRead)
  | ParseFailed => ret (Some ErrParse)
  | Loaded transcodeTasks =>
      let* ok := writeStore (exitTransition taskID cmdErr now transcodeTasks) in
      if ok then startNextTranscodeTask launch now else ret (Some ErrWrite)
  end.

(** *** updateTranscodeProgress and updateTranscodeSpeed *)

Definition applyProgress (progress : float) (errorMsg : string) (t : TranscodeTask)
    : TranscodeTask :=
  let t1 := if fge progress 0 then setProgress progress t else t in
  if negb (String.eqb errorMsg "") then setError errorMsg t1 else t1.

Definition updateTranscodeProgress (taskID : string) (progress : float) (errorMsg : string)
    : M TranscodeTask (option error) :=
  let* r := readStore in
  match r with
  | ReadFailed _ => ret (Some ErrRead)
  | ParseFailed => ret (Some ErrParse)
  | Loaded transcodeTasks =>
      let* ok := writeStore
        (updateFirst (fun t => idIs t taskID) (applyProgress progress errorMsg) transcodeTasks) in
      ret (if ok then None else Some ErrWrite)
  end.

Definition updateTranscodeSpeed (taskID speed : string) : M TranscodeTask (option error) :=
  let* r := readStore in
  match r with
  | ReadFailed _ => ret (Some ErrRead)
  | ParseFailed => ret (Some ErrParse)
  | Loaded transcodeTasks =>
      let* ok := writeStore (updateFirst (fun t => idIs t taskID) (setSpeed speed) transcodeTasks) in
      ret (if ok then None else Some ErrWrite)
  end.

(** *** CancelTranscode *)

Definition markCancelled (now : Z) (t : TranscodeTask) : TranscodeTask :=
  setEndTime now (setStatus "cancelled" t).

(** The pids whose process CancelTranscode kills. *)
Definition killsOf (t : TranscodeTask) : list Z :=
  if statusIs t "transcoding" && negb (PID t =? 0)%Z then [PID t] else [].

Definition CancelTranscode (taskID : string) (now : Z) : M TranscodeTask (reply * list Z) :=
  let* r := readStore in
  match r with
  | ReadFailed _ => ret (Failure ErrRead, [])
  | ParseFailed => ret (Failure ErrParse, [])
  | Loaded transcodeTasks =>
      match firstMatch (fun t => idIs t taskID) transcodeTasks with
      | None => ret (Failure (ErrNotFound taskID), [])
      | Some (i, task) =>
          let* ok := writeStore (<[i := markCancelled now task]> transcodeTasks) in
          ret (if ok then Success taskID else Failure ErrWrite, killsOf task)
      end
  end.

(** *** GetTranscodeStatus *)

Inductive response : Type :=
| TasksResponse (tasks : list TranscodeTask)
| TaskResponse (t : TranscodeTask)
| EmptyObject.

Section Query.

(** Whether [json.Marshal] succeeds on a task. *)
Variable marshalable : TranscodeTask -> bool.

Definition GetTranscodeStatus (taskID : string) : M TranscodeTask (response * option error) :=
  let* r := readStore in
  match r with
  | ReadFailed _ => ret (TasksResponse [], None)
  | ParseFailed => ret (TasksResponse [], None)
  | Loaded transcodeTasks =>
      if String.eqb taskID "" then
        if forallb marshalable transcodeTasks
        then ret (TasksResponse transcodeTasks, None)
        else ret (TasksResponse [], None)
      else
        match find (fun t => idIs t taskID) transcodeTasks with
        | Some task =>
            if marshalable task then ret (TaskResponse task, None)
            else ret (EmptyObject, None)
        | None => ret (EmptyObject, None)
        end
  end.

End Query.

(** *** startup, the transcode half *)

Definition backToWaiting (now : Z) (t : TranscodeTask) : TranscodeTask :=
  setPID 0 (setEndTime now (setStatus "waiting" t)).

(** The demotion loop: the list after it and [hasTranscodingTask]. *)
Fixpoint demoteLoop (now : Z) (l : list TranscodeTask) : list TranscodeTask * bool :=
  match l with
  | [] => ([], false)
  | t :: rest =>
      let (rest', has) := demoteLoop now rest in
      if transcoding t then (backToWaiting now t :: rest', true)
      else (t :: rest', has)
  end.

Definition recoverTranscodes (now : Z) : M TranscodeTask (option (list TranscodeTask)) :=
  let* r := readStore in
  match r with
  | ReadFailed true => let* _ := writeStore [] in ret None
  | ReadFailed false => ret None
  | ParseFailed => ret None
  | Loaded transcodeTasks =>
      let (demoted, hasTranscodingTask) := demoteLoop now transcodeTasks in
      if hasTranscodingTask then
        let* ok := writeStore demoted in
        ret (if ok then Some demoted else None)
      else ret (Some demoted)
  end.

(** The search for the earliest waiting task; [best] is
    [earliestTranscodeTask], whose start time is [earliestTranscodeTime]. *)
Fixpoint earliestLoop (l : list TranscodeTask) (best : option TranscodeTask)
    : option TranscodeTask :=
  match l with
  | [] => best
  | t :: rest =>
      if waiting t then
        match best with
        | None => earliestLoop rest (Some t)
        | Some b =>
            if (StartTime t <? StartTime b)%Z
            then earliestLoop rest (Some t)
            else earliestLoop rest best
        end
      else earliestLoop rest best
  end.

Definition earliestWaiting (l : list TranscodeTask) : option TranscodeTask :=
  earliestLoop l None.

Definition startupTranscodes (now : Z) (launch : option Z) : M TranscodeTask unit :=
  let* r := recoverTranscodes now in
  match r with
  | None => ret tt
  | Some transcodeTasks =>
      match earliestWaiting transcodeTasks with
      | Some earliestTranscodeTask =>
          let* _ := startTranscode (TaskID earliestTranscodeTask) launch now in ret tt
      | None => ret tt
      end
  end.

End Transcode.

(** ** startup: both halves, over the two progress files *)

Definition startup (parseTime : string -> option Z) (nowText : string) (now : Z)
    (launchDownload launchTranscode : option Z)
    (w : fs Download.task * fs Transcode.TranscodeTask)
    : fs Download.task * fs Transcode.TranscodeTask :=
  let (goOn, d) := Download.startupDownloads parseTime nowText launchDownload (fst w) in
  if goOn then (d, snd (Transcode.startupTranscodes now launchTranscode (snd w)))
  else (d, snd w).

(** ** Text helpers: the [strings], [strconv] and [regexp] calls of the parsers *)

Module Text.

Definition isDigit (c : ascii) : bool :=
  let n := nat_of_ascii c in (48 <=? n)%nat && (n <=? 57)%nat.

(** The longest prefix of digits, and what follows it. *)
Fixpoint takeDigits (s : string) : string * string :=
  match s with
  | EmptyString => (EmptyString, EmptyString)
  | String c rest =>
      if isDigit c then let (d, r) := takeDigits rest in (String c d, r)
      else (EmptyString, s)
  end.

Definition dropPrefix (p s : string) : option string :=
  if String.prefix p s
  then Some (String.substring (String.length p) (String.length s - String.length p) s)
  else None.

(** [strings.Contains(s, sub)] *)
Fixpoint contains (sub s : string) : bool :=
  if String.prefix sub s then true
  else match s with
       | EmptyString => false
       | String _ rest => contains sub rest
       end.

(** [strings.SplitN(s, sep, 2)] when it has two parts. *)
Fixpoint splitFirst (sep : ascii) (s : string) : option (string * string) :=
  match s with
  | EmptyString => None
  | String c rest =>
      if Ascii.eqb c sep then Some (EmptyString, rest)
      else match splitFirst sep rest with
           | Some (a, b) => Some (String c a, b)
           | None => None
           end
  end.

(** [strings.Split(s, sep)] for a separator of one character. *)
Fixpoint split (sep : ascii) (s : string) : list string :=
  match s with
  | EmptyString => [EmptyString]
  | String c rest =>
      if Ascii.eqb c sep then EmptyString :: split sep rest
      else match split sep rest with
           | x :: xs => String c x :: xs
           | [] => [String c EmptyString]
           end
  end.

(** [strings.ReplaceAll(s, " ", "")] *)
Fixpoint removeSpaces (s : string) : string :=
  match s with
  | EmptyString => EmptyString
  | String c rest =>
      if Ascii.eqb c " "%char then removeSpaces rest else String c (removeSpaces rest)
  end.

Definition upper (c : ascii) : ascii :=
  let n := nat_of_ascii c in
  if (97 <=? n)%nat && (n <=? 122)%nat then ascii_of_nat (n - 32) else c.

(** [strings.ToUpper] on ASCII text. *)
Fixpoint toUpper (s : string) : string :=
  match s with
  | EmptyString => EmptyString
  | String c rest => String (upper c) (toUpper rest)
  end.

Fixpoint digitsValue (s : string) (acc : Z) : option Z :=
  match s with
  | EmptyString => Some acc
  | String c rest =>
      if isDigit c
      then digitsValue rest (10 * acc + (Z.of_nat (nat_of_ascii c) - 48))%Z
      else None
  end.

(** [strconv.ParseInt(s, 10, 64)], [None] when it returns an error. *)
Definition ParseInt (s : string) : option Z :=
  let '(neg, body) :=
    match s with
    | String "-"%char r => (true, r)
    | String "+"%char r => (false, r)
    | _ => (false, s)
    end in
  match body with
  | EmptyString => None
  | _ =>
      match digitsValue body 0 with
      | Some n =>
          let v := if neg : bool then (- n)%Z else n in
          if (- 2 ^ 63 <=? v)%Z && (v <=? 2 ^ 63 - 1)%Z then Some v else None
      | None => None
      end
  end.

(** The first match of [Duration: (\d+):(\d+):(\d+\.\d+)] at the start
    of [s]: the three groups. *)
Definition durationAt (s : string) : option (string * string * string) :=
  match dropPrefix "Duration: " s with
  | None => None
  | Some r0 =>
      let (h, r1) := takeDigits r0 in
      match h, dropPrefix ":" r1 with
      | String _ _, Some r2 =>
          let (m, r3) := takeDigits r2 in
          match m, dropPrefix ":" r3 with
          | String _ _, Some r4 =>
              let (sec, r5) := takeDigits r4 in
              match sec, dropPrefix "." r5 with
              | String _ _, Some r6 =>
                  let (frac, _) := takeDigits r6 in
                  match frac with
                  | String _ _ => Some (h, m, String.append sec (String "."%char frac))
                  | EmptyString => None
                  end
              | _, _ => None
              end
          | _, _ => None
          end
      | _, _ => None
      end
  end.

(** [durationRegex.FindStringSubmatch(line)]: the leftmost match. *)
Fixpoint findDuration (s : string) : option (string * string * string) :=
  match durationAt s with
  | Some g => Some g
  | None =>
      match s with
      | EmptyString => None
      | String _ rest => findDuration rest
      end
  end.

Definition isScale (c : ascii) : bool :=
  existsb (Ascii.eqb c) (list_ascii_of_string "KkMmGgTtPp").

Definition isB (c : ascii) : bool := Ascii.eqb c "B"%char || Ascii.eqb c "b"%char.

(** [sizeRegex.FindStringSubmatch(s)] for
    [^(\d+(?:\.\d+)?)([KkMmGgTtPp]?[Bb]?)$]: the number and the unit. *)
Definition sizeMatch (s : string) : option (string * string) :=
  let (whole, r) := takeDigits s in
  match whole with
  | EmptyString => None
  | _ =>
      let '(number, unit) :=
        match r with
        | String "."%char r1 =>
            let (frac, r2) := takeDigits r1 in
            match frac with
            | EmptyString => (whole, r)
            | _ => (String.append whole (String "."%char frac), r2)
            end
        | _ => (whole, r)
        end in
      match unit with
      | EmptyString => Some (number, unit)
      | String c EmptyString => if isScale c || isB c then Some (number, unit) else None
      | String c (String d EmptyString) =>
          if isScale c && isB d then Some (number, unit) else None
      | _ => None
      end
  end.

(** The float64 nearest to [n / 10^k], ties to even, for [n >= 0] and
    [k >= 0], computed on integers: [lg] is the binary logarithm of the
    quotient, [e] the exponent of the last bit of the result (-1074 in
    the subnormal range), [m] the quotient of [n / 10^k] by [2^e] rounded
    to an integer, of 53 bits at most. The second component is [false]
    when the result overflows to infinity, which strconv reports as a
    range error. *)
Definition nearestFloat (n k : Z) : float * bool :=
  if (n =? 0)%Z then (0%float, true)
  else
    let d := (10 ^ k)%Z in
    let est := (Z.log2 n - Z.log2 d)%Z in
    let reached :=
      if (0 <=? est)%Z then (d * 2 ^ est <=? n)%Z else (d <=? n * 2 ^ (- est))%Z in
    let lg := if reached then est else (est - 1)%Z in
    let e := Z.max (lg - 52) (-1074) in
    let num := if (0 <=? e)%Z then n else (n * 2 ^ (- e))%Z in
    let den := if (0 <=? e)%Z then (d * 2 ^ e)%Z else d in
    let q := (num / den)%Z in
    let r := (num mod den)%Z in
    let m :=
      if (den <? 2 * r)%Z then (q + 1)%Z
      else if (den =? 2 * r)%Z then (if Z.even q then q else q + 1)%Z
      else q in
    if (971 <? e)%Z || ((e =? 971)%Z && (m =? 2 ^ 53)%Z)
    then (infinity, false)
    else (Z.ldexp (PrimFloat.of_uint63 (Uint63.of_Z m)) e, true).

(** [strconv.ParseFloat(s, 64)] on the plain decimal literals (digits
    with at most one point among them), which are the texts that the
    patterns of parseFileSize and of the duration line let through and
    the texts that ffmpeg writes after [out_time=]. The result is the
    float64 nearest to the literal. As in strconv, a literal whose digits
    make an integer below 2^53, with at most 22 of them after the point,
    is converted by one exact conversion and one division by an exact
    power of ten; every other literal goes through [nearestFloat].
    strconv accepts more (a sign, an exponent, hexadecimal literals,
    infinities); on those texts this definition answers 0 with an error
    and stands for nothing: the properties that depend on what
    ParseFloat does there take it as a parameter. *)
Definition decimalParseFloat (s : string) : float * bool :=
  let (whole, r) := takeDigits s in
  let '(frac, r') :=
    match r with
    | String "."%char r1 => takeDigits r1
    | _ => (EmptyString, r)
    end in
  let digits := String.append whole frac in
  match digits, r' with
  | String _ _, EmptyString =>
      match digitsValue digits 0 with
      | Some n =>
          let k := Z.of_nat (String.length frac) in
          if (n <? 2 ^ 53)%Z && (k <=? 22)%Z then
            (if (k =? 0)%Z then float_of_Z n
             else PrimFloat.div (float_of_Z n) (float_of_Z (10 ^ k)), true)
          else nearestFloat n k
      | None => (0%float, false)
      end
  | _, _ => (0%float, false)
  end.

End Text.

(** ** parseFileSize and the line readers of monitorTranscodeProgress *)

Module Progress.

Import Text.
Local Open Scope float_scope.

Section Parsers.

(** [strconv.ParseFloat(s, 64)]: the value it returns and whether its
    error is nil. *)
Variable ParseFloat : string -> float * bool.

(** *** parseFileSize *)

Definition multiplier (unit : string) : float :=
  if String.eqb unit "B" then 1
  else if String.eqb unit "KB" then 1024
  else if String.eqb unit "MB" then 1024 * 1024
  else if String.eqb unit "GB" then 1024 * 1024 * 1024
  else if String.eqb unit "TB" then 1024 * 1024 * 1024 * 1024
  else if String.eqb unit "PB" then 1024 * 1024 * 1024 * 1024 * 1024
  else 1.

(** The table of the specification: the units K, M, G, T and P, in either
    case and with or without a final B, stand for the first to the fifth
    power of 1024; bytes and a bare number for the power zero. *)
Definition unitPower (unit : string) : Z :=
  match unit with
  | EmptyString => 0
  | String c _ =>
      let u := upper c in
      if Ascii.eqb u "K" then 1
      else if Ascii.eqb u "M" then 2
      else if Ascii.eqb u "G" then 3
      else if Ascii.eqb u "T" then 4
      else if Ascii.eqb u "P" then 5
      else 0
  end%Z.

Definition unitOf (suffix : string) : string :=
  match suffix with
  | EmptyString => "B"
  | _ =>
      let unit := toUpper suffix in
      if (String.length unit =? 1)%nat then String.append unit "B" else unit
  end.

Definition parseFileSize (sizeStr : string) : Z * option error :=
  let sizeStr := removeSpaces sizeStr in
  match sizeMatch sizeStr with
  | None => (0%Z, Some (ErrSize sizeStr))
  | Some (number, suffix) =>
      let (size, ok) := ParseFloat number in
      if ok then (int_of_float (size * multiplier (unitOf suffix)), None)
      else (0%Z, Some (ErrNumber number))
  end.

(** *** The variables shared by the two reader goroutines *)

Record monitor : Type := mkMonitor {
  currentProgress : float;
  totalDuration : float;
  hasTotalDuration : bool;
  currentTime : float;
  currentFrame : Z;
  currentSpeed : string
}.

Definition initial : monitor := mkMonitor 0 0 false 0 0 "".

Definition setCurrentProgress (v : float) (m : monitor) : monitor :=
  mkMonitor v (totalDuration m) (hasTotalDuration m) (currentTime m) (currentFrame m)
    (currentSpeed m).

Definition setTotalDuration (v : float) (m : monitor) : monitor :=
  mkMonitor (currentProgress m) v true (currentTime m) (currentFrame m) (currentSpeed m).

Definition setCurrentTime (v : float) (m : monitor) : monitor :=
  mkMonitor (currentProgress m) (totalDuration m) (hasTotalDuration m) v (currentFrame m)
    (currentSpeed m).

Definition setCurrentFrame (v : Z) (m : monitor) : monitor :=
  mkMonitor (currentProgress m) (totalDuration m) (hasTotalDuration m) (currentTime m) v
    (currentSpeed m).

Definition setCurrentSpeed (v : string) (m : monitor) : monitor :=
  mkMonitor (currentProgress m) (totalDuration m) (hasTotalDuration m) (currentTime m)
    (currentFrame m) v.

(** The calls a line gives rise to: [updateTranscodeSpeed] and
    [updateTranscodeProgress]. *)
Inductive action : Type :=
| UpdateSpeed (speed : string)
| UpdateProgress (progress : float) (errorMsg : string).

Definition seconds (h m s : string) : float :=
  fst (ParseFloat h) * 3600 + fst (ParseFloat m) * 60 + fst (ParseFloat s).

(** *** One line of stdout *)

(** The [switch key] of the stdout reader. *)
Definition readKey (m : monitor) (key value : string) : monitor * list action :=
  if String.eqb key "out_time" then
    match split ":"%char value with
    | [h; mi; s] => (setCurrentTime (seconds h mi s) m, [])
    | _ => (m, [])
    end
  else if String.eqb key "frame" then
    match ParseInt value with
    | Some frame => (setCurrentFrame frame m, [])
    | None => (m, [])
    end
  else if String.eqb key "speed" then
    (setCurrentSpeed value m, [UpdateSpeed value])
  else if String.eqb key "progress" then
    if String.eqb value "end"
    then (setCurrentProgress 1 m, [UpdateProgress 1 ""])
    else (m, [])
  else (m, []).

Inductive tier : Type := ByTime | ByFrames | ByIncrement.

Definition tierOf (m : monitor) : tier :=
  if hasTotalDuration m && fgt (totalDuration m) 0 && fgt (currentTime m) 0 then ByTime
  else if (0 <? currentFrame m)%Z then ByFrames
  else ByIncrement.

Definition cap99 (c : float) : float := if fgt c 0.99 then 0.99%float else c.

(** [calculatedProgress] before the final clamp; the time tier also
    cuts [currentTime] down to the total duration. *)
Definition calculate (m : monitor) : monitor * float :=
  match tierOf m with
  | ByTime =>
      let m' := if fgt (currentTime m) (totalDuration m)
                then setCurrentTime (totalDuration m) m else m in
      (m', currentTime m' / totalDuration m')
  | ByFrames => (m, cap99 (float_of_Z (currentFrame m) / 100000))
  | ByIncrement => (m, cap99 (currentProgress m + 0.001))
  end.

Definition clamp01 (c : float) : float :=
  if flt c 0 then 0%float else if fgt c 1 then 1%float else c.

Definition commit (m : monitor) (calculatedProgress : float) : monitor * list action :=
  if fgt calculatedProgress (currentProgress m + 0.005) || PrimFloat.eqb calculatedProgress 1
  then (setCurrentProgress calculatedProgress m, [UpdateProgress calculatedProgress ""])
  else (m, []).

Definition stdoutLine (m : monitor) (line : string) : monitor * list action :=
  match splitFirst "="%char line with
  | None => (m, [])
  | Some (key, value) =>
      let (m1, a1) := readKey m key value in
      let (m2, c) := calculate m1 in
      let (m3, a2) := commit m2 (clamp01 c) in
      (m3, a1 ++ a2)
  end.

(** The tier that computes the fraction of a stdout line. *)
Definition tierOfLine (m : monitor) (line : string) : option tier :=
  match splitFirst "="%char line with
  | None => None
  | Some (key, value) => Some (tierOf (fst (readKey m key value)))
  end.

(** *** One line of stderr *)

Definition stderrLine (m : monitor) (line : string) : monitor * list action :=
  if contains "Error" line || contains "error" line
  then (m, [UpdateProgress (currentProgress m) line])
  else if hasTotalDuration m then (m, [])
  else
    match findDuration line with
    | Some (h, mi, s) =>
        let m1 := setTotalDuration (seconds h mi s) m in
        if fgt (currentTime m1) 0 then
          let p := currentTime m1 / totalDuration m1 in
          let p' := if fgt p 1 then 1%float else p in
          (setCurrentProgress p' m1, [UpdateProgress p' ""])
        else (m1, [])
    | None => (m, [])
    end.

(** *** The two readers, interleaved line by line *)

Inductive event : Type :=
| Stdout (line : string)
| Stderr (line : string).

Definition step (m : monitor) (e : event) : monitor * list action :=
  match e with
  | Stdout line => stdoutLine m line
  | Stderr line => stderrLine m line
  end.

Fixpoint run (m : monitor) (events : list event) : monitor * list action :=
  match events with
  | [] => (m, [])
  | e :: rest =>
      let (m1, a1) := step m e in
      let (m2, a2) := run m1 rest in
      (m2, a1 ++ a2)
  end.

(** The fractions handed to [updateTranscodeProgress] by a reader that
    parsed a progress line (the calls that carry no error text). *)
Definition fractions (actions : list action) : list float :=
  flat_map (fun a => match a with
                     | UpdateProgress p EmptyString => [p]
                     | _ => []
                     end) actions.

End Parsers.

End Progress.

(** ** The queue invariant

    At most one stored task is active, and the same holds of every
    snapshot written so far. *)

Definition queueInv {A} (active : A -> bool) (s : fs A) : Prop :=
  atMostOneStored active (content s) /\ Forall (atMostOne active) (written s).

(** No stored task is active. *)
Definition idle {A} (active : A -> bool) (c : file A) : Prop :=
  match c with
  | Stored l => existsb active l = false
  | _ => True
  end.

(** [l'] has an active record only where [l] has one. *)
Definition noNewActive {A} (active : A -> bool) (l l' : list A) : Prop :=
  Forall2 (fun x y => active y = true -> active x = true) l l'.

(** ** Runs: the operations that write a progress file, one at a time

    A run executes each operation from its first read of the file to its
    last write before the next one begins. The program has no lock, so
    its goroutines can also overlap; [Download.scanWaiting] and
    [Download.act] give the two halves of one operation for the
    executions in which another operation runs between them. *)

Inductive downloadOp : Type :=
| DEnqueue (prepared : option string) (taskId fileName now : string)
    (selectedFiles : list string) (launch : option Z)
| DPromoteNext (launch : option Z)
| DStartWaiting (taskId : string) (launch : option Z)
| DProgress (taskId : string) (downloaded totalSize speed : Z) (percentage : float)
    (now : string)
| DExit (taskId : string) (waitFailed : bool) (now : string) (launch : option Z)
| DCancel (taskId now : string)
| DStartup (now : string) (launch : option Z).

Definition execDownload (parseTime : string -> option Z) (s : fs Download.task)
    (op : downloadOp) : fs Download.task :=
  match op with
  | DEnqueue prepared taskId fileName now selectedFiles launch =>
      snd (Download.DownloadTorrentFiles prepared taskId fileName now selectedFiles launch s)
  | DPromoteNext launch => snd (Download.startNextWaitingTask launch s)
  | DStartWaiting taskId launch => snd (Download.StartWaitingTask taskId launch s)
  | DProgress taskId downloaded totalSize speed percentage now =>
      snd (Download.updateProgress taskId downloaded totalSize speed percentage now s)
  | DExit taskId waitFailed now launch =>
      snd (Download.monitorExit taskId waitFailed now launch s)
  | DCancel taskId now => snd (Download.CancelDownload taskId now s)
  | DStartup now launch => snd (Download.startupDownloads parseTime now launch s)
  end.

Definition runDownloads (parseTime : string -> option Z) (ops : list downloadOp)
    (s : fs Download.task) : fs Download.task :=
  fold_left (execDownload parseTime) ops s.

Inductive transcodeOp : Type :=
| TEnqueue (prepared : bool)
    (taskID inputFile outputFile ffmpegCommand videoCodec audioCodec resolution bitrate : string)
    (launch : option Z) (now : Z)
| TPromoteNext (launch : option Z) (now : Z)
| TProgress (taskID : string) (progress : float) (errorMsg : string)
| TSpeed (taskID speed : string)
| TExit (taskID : string) (cmdErr : option string) (now : Z) (launch : option Z)
| TCancel (taskID : string) (now : Z)
| TStartup (now : Z) (launch : option Z).

Definition execTranscode (s : fs Transcode.TranscodeTask) (op : transcodeOp)
    : fs Transcode.TranscodeTask :=
  match op with
  | TEnqueue prepared taskID inputFile outputFile ffmpegCommand videoCodec audioCodec
      resolution bitrate launch now =>
      snd (Transcode.AddTranscodeTaskWithParams prepared taskID inputFile outputFile
             ffmpegCommand videoCodec audioCodec resolution bitrate launch now s)
  | TPromoteNext launch now => snd (Transcode.startNextTranscodeTask launch now s)
  | TProgress taskID progress errorMsg =>
      snd (Transcode.updateTranscodeProgress taskID progress errorMsg s)
  | TSpeed taskID speed => snd (Transcode.updateTranscodeSpeed taskID speed s)
  | TExit taskID cmdErr now launch => snd (Transcode.monitorExit taskID cmdErr now launch s)
  | TCancel taskID now => snd (Transcode.CancelTranscode taskID now s)
  | TStartup now launch => snd (Transcode.startupTranscodes now launch s)
  end.

Definition runTranscodes (ops : list transcodeOp) (s : fs Transcode.TranscodeTask)
    : fs Transcode.TranscodeTask :=
  fold_left execTranscode ops s.

(** ** The search for the earliest task, in general

    Both startup loops keep the first record met whose key is strictly
    below the key of the record kept so far; [key] is the start time of
    the records that take part in the search. *)

Section Earliest.

Context {A : Type} (key : A -> option Z).

Fixpoint earliestBy (l : list A) (best : option (A * Z)) : option (A * Z) :=
  match l with
  | [] => best
  | t :: rest =>
      match key t with
      | Some k =>
          match best with
          | None => earliestBy rest (Some (t, k))
          | Some (_, bk) =>
              if (k <? bk)%Z then earliestBy rest (Some (t, k)) else earliestBy rest best
          end
      | None => earliestBy rest best
      end
  end.

(** The record at index [i] has the least key, and is the first of the
    list with that key. *)
Definition isEarliest (l : list A) (i : nat) (t : A) (k : Z) : Prop :=
  l !! i = Some t /\ key t = Some k /\
  forall j t' k', l !! j = Some t' -> key t' = Some k' ->
    (k <= k')%Z /\ ((j < i)%nat -> (k < k')%Z).

End Earliest.

(** The keys of the two startup loops. *)
Definition transcodeStart (t : Transcode.TranscodeTask) : option Z :=
  if Transcode.waiting t then Some (Transcode.StartTime t) else None.

Definition downloadStart (parseTime : string -> option Z) (t : Download.task) : option Z :=
  if Download.waiting t then
    match Download.mustString "startTime" t with
    | Some startTimeStr => parseTime startTimeStr
    | None => None
    end
  else None.

(** ** Sample records *)

Module Samples.

Definition download (taskId status startTime : string) (pid : option jval) : Download.task :=
  let t : Download.task :=
    list_to_map
      [ ("taskId", JStr taskId);
        ("magnetLink", JStr "magnet:?xt=urn:btih:c12fe1c06bba254a9dc9f519b335aa7c1367a88a");
        ("status", JStr status);
        ("fileName", JStr "sample.torrent");
        ("startTime", JStr startTime);
        ("outputDir", JStr Download.outputDir);
        ("percentage", JNum 42.5) ] in
  match pid with
  | Some v => <["pid" := v]> t
  | None => t
  end.

Definition transcode (taskID status : string) (startTime pid : Z) (err : string)
    : Transcode.TranscodeTask :=
  Transcode.mkTask taskID "in.mkv" "out.mp4" status startTime 0 0.25%float "" ""
    "ffmpeg -i in.mkv out.mp4" pid err "libx264" "aac" "720p" "2000k".

End Samples.

(** ** GetDownloadStatus *)

Module Queries.

Inductive response : Type :=
| TasksResponse (tasks : list Download.task)
| TaskResponse (t : Download.task)
| EmptyObject.

Inductive failure : Type :=
| ReadError
| ParseError
| MarshalError.

(** The pair [(string, error)] that GetDownloadStatus returns. *)
Inductive outcome : Type :=
| Answer (r : response)
| Failed (e : failure).

Section Marshal.

(** Whether [json.Marshal] succeeds on a task. *)
Variable marshalable : Download.task -> bool.

Definition GetDownloadStatus (taskId : string) : M Download.task outcome :=
  let* r := readStore in
  match r with
  | ReadFailed true => ret (Answer (TasksResponse []))
  | ReadFailed false => ret (Failed ReadError)
  | ParseFailed => ret (Failed ParseError)
  | Loaded progressList =>
      if String.eqb taskId "" then
        if forallb marshalable progressList
        then ret (Answer (TasksResponse progressList))
        else ret (Failed MarshalError)
      else
        match find (fun t => Download.idIs t taskId) progressList with
        | Some task =>
            if marshalable task then ret (Answer (TaskResponse task))
            else ret (Failed MarshalError)
        | None => ret (Answer EmptyObject)
        end
  end.

End Marshal.

End Queries.

(** ** The calls of the reader goroutines on the transcode store *)

Definition applyAction (taskID : string) (a : Progress.action)
    : M Transcode.TranscodeTask (option error) :=
  match a with
  | Progress.UpdateSpeed speed => Transcode.updateTranscodeSpeed taskID speed
  | Progress.UpdateProgress progress errorMsg =>
      Transcode.updateTranscodeProgress taskID progress errorMsg
  end.

Fixpoint applyActions (taskID : string) (actions : list Progress.action)
    (s : fs Transcode.TranscodeTask) : fs Transcode.TranscodeTask :=
  match actions with
  | [] => s
  | a :: rest => applyActions taskID rest (snd (applyAction taskID a s))
  end.

(** ** startTranscode: the argument vector of ffmpeg (lines 1042-1354) *)

Module Encoder.

Import Transcode.

Inductive GPUType : Type :=
| GPUTypeNVIDIA
| GPUTypeAMD
| GPUTypeIntel
| GPUTypeOther.

(** What the probes of the host and of ffmpeg report: the result of
    HasGPU and of CheckFFmpegGPU, whether the dry runs with [-hwaccel
    cuda], [-hwaccel d3d11va] and [-hwaccel qsv] succeed, and whether
    [ffmpeg -encoders] lists the two AMF encoders. *)
Record probes : Type := mkProbes {
  hasGPU : bool;
  gpuType : GPUType;
  ffmpegSupportsGPU : bool;
  cudaOk : bool;
  d3dOk : bool;
  qsvOk : bool;
  hasH264AMF : bool;
  hasHEVCAMF : bool
}.

(** [os.IsPathSeparator] on Windows, the platform the program builds for. *)
Definition isPathSeparator (c : ascii) : bool :=
  Ascii.eqb c "\"%char || Ascii.eqb c "/"%char.

Fixpoint hasSeparator (s : string) : bool :=
  match s with
  | EmptyString => false
  | String c rest => isPathSeparator c || hasSeparator rest
  end.

(** [filepath.Ext]: the suffix that starts at the last dot of the last
    element of the path. *)
Fixpoint Ext (path : string) : string :=
  match path with
  | EmptyString => EmptyString
  | String c rest =>
      match Ext rest with
      | String _ _ as e => e
      | EmptyString =>
          if hasSeparator rest then EmptyString
          else if Ascii.eqb c "."%char then path
          else EmptyString
      end
  end.

(** [outputExt]: the extension without its dot. *)
Definition outputExtOf (path : string) : string :=
  match Ext path with
  | EmptyString => EmptyString
  | String _ rest => rest
  end.

(** [strings.Join] *)
Fixpoint join (sep : string) (l : list string) : string :=
  match l with
  | [] => EmptyString
  | [x] => x
  | x :: rest => String.append x (String.append sep (join sep rest))
  end.

Definition defaultVideo (ext : string) : string :=
  if String.eqb ext "webm" then "libvpx-vp9" else "libx264".

Definition defaultAudio (ext : string) : string :=
  if String.eqb ext "webm" then "libopus" else "aac".

Definition isMp4OrMkv (ext : string) : bool :=
  String.eqb ext "mp4" || String.eqb ext "mkv".

(** The resolution names that are mapped to pixel sizes. *)
Definition resolutionMap (r : string) : option string :=
  if String.eqb r "1080p" then Some "1920x1080"
  else if String.eqb r "720p" then Some "1280x720"
  else if String.eqb r "480p" then Some "854x480"
  else if String.eqb r "360p" then Some "640x360"
  else if String.eqb r "240p" then Some "426x240"
  else None.

Definition resolutionArgs (resolution : string) : list string :=
  if negb (String.eqb resolution "") && negb (String.eqb resolution "original")
  then ["-s"; match resolutionMap resolution with
              | Some mapped => mapped
              | None => resolution
              end]
  else [].

Definition bitrateArgs (bitrate : string) : list string :=
  if negb (String.eqb bitrate "") then ["-b:v"; bitrate] else [].

(** [strings.ToLower] on ASCII text. *)
Definition lower (c : ascii) : ascii :=
  let n := nat_of_ascii c in
  if (65 <=? n)%nat && (n <=? 90)%nat then ascii_of_nat (n + 32) else c.

Fixpoint asciiToLower (s : string) : string :=
  match s with
  | EmptyString => EmptyString
  | String c rest => String (lower c) (asciiToLower rest)
  end.

(** The variables that the selection leaves behind. *)
Record choice : Type := mkChoice {
  useGPU : bool;
  hwaccelType : string;
  gpuPreset : string;
  videoCodec : string
}.

Section Lower.

(** [strings.ToLower] *)
Variable ToLower : string -> string.

(** The fallback of every vendor branch: the dry run with d3d11va. *)
Definition d3dFallback (p : probes) (codec : string) : choice :=
  if d3dOk p then mkChoice true "d3d11va" "" codec
  else mkChoice false "" "" codec.

(** The replacement of libx264 and libx265 by the encoders of a vendor. *)
Definition vendorCodec (ext codec h264 hevc : string) : string :=
  if isMp4OrMkv ext then
    if String.eqb (ToLower codec) "libx264" then h264
    else if String.eqb (ToLower codec) "libx265" then hevc
    else codec
  else codec.

Definition choose (p : probes) (ext requested : string) : choice :=
  let codec := if negb (String.eqb requested "") then requested else defaultVideo ext in
  if negb (hasGPU p && ffmpegSupportsGPU p) then mkChoice false "" "" (defaultVideo ext)
  else
    match gpuType p with
    | GPUTypeNVIDIA =>
        if cudaOk p
        then mkChoice true "cuda" "p4" (vendorCodec ext codec "h264_nvenc" "hevc_nvenc")
        else d3dFallback p codec
    | GPUTypeAMD =>
        if hasH264AMF p || hasHEVCAMF p then
          mkChoice true "d3d11va" "balanced"
            (if isMp4OrMkv ext then
               if hasH264AMF p then "h264_amf"
               else if hasHEVCAMF p then "hevc_amf"
               else codec
             else codec)
        else d3dFallback p codec
    | GPUTypeIntel =>
        if qsvOk p
        then mkChoice true "qsv" "veryfast" (vendorCodec ext codec "h264_qsv" "hevc_qsv")
        else d3dFallback p codec
    | GPUTypeOther => d3dFallback p codec
    end.

(** [if !strings.Contains(strings.Join(args, " "), flag) { args =
    append(args, flag, value) }] *)
Definition addUnlessPresent (flag value : string) (args : list string) : list string :=
  if negb (Text.contains flag (join " " args)) then args ++ [flag; value] else args.

(** Step 4: the parameters of the encoder. *)
Definition encoderArgs (c : choice) (args : list string) : list string :=
  if useGPU c then
    if Text.contains "nvenc" (videoCodec c) then
      args ++ ["-preset"; if negb (String.eqb (gpuPreset c) "") then gpuPreset c else "p4"]
           ++ ["-tune"; "hq"]
    else if Text.contains "amf" (videoCodec c) then
      addUnlessPresent "-g" "250"
        (addUnlessPresent "-rc" "cbr_hq"
           (addUnlessPresent "-quality" "balanced" args))
    else if Text.contains "qsv" (videoCodec c) then
      args ++ ["-preset"; if negb (String.eqb (gpuPreset c) "") then gpuPreset c
                          else "veryfast"]
           ++ ["-look_ahead"; "1"]
    else args ++ ["-preset"; "medium"; "-threads"; "4"]
  else args ++ ["-preset"; "medium"; "-threads"; "4"].

Definition ffmpegArgs (p : probes) (task : TranscodeTask) : list string :=
  let outputExt := outputExtOf (OutputFile task) in
  let audioCodec :=
    if negb (String.eqb (AudioCodec task) "") then AudioCodec task
    else defaultAudio outputExt in
  let c := choose p outputExt (VideoCodec task) in
  let args :=
    if useGPU c && negb (String.eqb (hwaccelType c) "")
    then ["-hwaccel"; hwaccelType c] else [] in
  let args := args ++ ["-i"; InputFile task] in
  let args := args ++ ["-c:v"; videoCodec c] in
  let args := encoderArgs c args in
  let args := args ++ resolutionArgs (Resolution task) in
  let args := args ++ bitrateArgs (Bitrate task) in
  let args := args ++ ["-c:a"; audioCodec] in
  let args := args ++ ["-max_muxing_queue_size"; "1024"] in
  let args := if negb (useGPU c) then args ++ ["-filter_threads"; "2"] else args in
  let args := args ++ ["-y"; "-progress"; "pipe:1"; "-stats"] in
  args ++ [OutputFile task].

End Lower.

End Encoder.

(** ** ParseTorrentFile: the summary of the decoded metainfo *)

Module Torrent.

(** A file entry of the info dictionary, and the info dictionary. *)
Record entry : Type := mkEntry {
  Path : list string;
  Length : Z
}.

Record info : Type := mkInfo {
  Name : string;
  InfoLength : Z;
  Files : list entry
}.

Record FileInfo : Type := mkFileInfo {
  FileName : string;
  Size : Z
}.

Record TorrentInfoResponse : Type := mkResponse {
  TotalSize : Z;
  FileInfos : list FileInfo;
  RequestName : string
}.

(** The value of an [int64] computation. *)
Definition wrap64 (z : Z) : Z := ((z + 2 ^ 63) mod 2 ^ 64 - 2 ^ 63)%Z.

(** The loop over [info.Files]; [f.Path[len(f.Path)-1]] panics on an
    empty path, which is [None]. *)
Fixpoint collect (files : list entry) (fileInfos : list FileInfo) (totalSize : Z)
    : option (list FileInfo * Z) :=
  match files with
  | [] => Some (fileInfos, totalSize)
  | f :: rest =>
      match last (Path f) with
      | Some fileName =>
          collect rest (fileInfos ++ [mkFileInfo fileName (Length f)])
            (wrap64 (totalSize + Length f))
      | None => None
      end
  end.

(** [isDir] is [info.IsDir()]; [requestName] the file name of the
    request. *)
Definition summary (isDir : bool) (i : info) (requestName : string)
    : option TorrentInfoResponse :=
  if isDir then
    match collect (Files i) [] 0 with
    | Some (fileInfos, totalSize) => Some (mkResponse totalSize fileInfos requestName)
    | None => None
    end
  else Some (mkResponse (InfoLength i) [mkFileInfo (Name i) (InfoLength i)] requestName).

End Torrent.

(** ** shutdown *)

(** The loop of shutdown over the download tasks: the pids handed to
    [taskkill], in the order of the list. *)
Fixpoint shutdownLoop (l : list Download.task) : list Z :=
  match l with
  | [] => []
  | task :: rest =>
      if Download.statusIs task "downloading" then
        match task !! "pid" with
        | Some (JNum v) => int_of_float v :: shutdownLoop rest
        | _ => shutdownLoop rest
        end
      else shutdownLoop rest
  end.

Definition shutdown : M Download.task (list Z) :=
  let* r := readStore in
  match r with
  | Loaded progressList => ret (shutdownLoop progressList)
  | _ => ret []
  end.

(** * Properties *)

(** ** Lists updated in place *)

Section ListFacts.

Context {A : Type}.
Implicit Types (P : A -> bool) (l : list A).

Lemma existsb_false_lookup P l i x :
  existsb P l = false -> l !! i = Some x -> P x = false.
Proof.
  revert i. induction l as [|y l IH]; intros i Hex Hl.
  - rewrite lookup_nil in Hl. discriminate.
  - simpl in Hex. apply orb_false_iff in Hex as [Hy Hrest].
    destruct i as [|i]; simpl in Hl.
    + injection Hl as <-. exact Hy.
    + eapply IH; eauto.
Qed.

Lemma existsb_snoc P l x : existsb P (l ++ [x]) = existsb P l || P x.
Proof. rewrite existsb_app. simpl. now rewrite orb_false_r. Qed.

Lemma atMostOne_nil P : atMostOne P [].
Proof. intros i j x y Hi. rewrite lookup_nil in Hi. discriminate. Qed.

Lemma atMostOne_none P l : existsb P l = false -> atMostOne P l.
Proof.
  intros Hex i j x y Hi _ Px _.
  rewrite (existsb_false_lookup P l i x Hex Hi) in Px. discriminate.
Qed.

Lemma atMostOne_snoc P l x : atMostOne P l -> P x = false -> atMostOne P (l ++ [x]).
Proof.
  intros Hl Hx i j a b Hi Hj Pa Pb.
  assert (Hin : forall k c, (l ++ [x]) !! k = Some c -> P c = true -> l !! k = Some c).
  { intros k c Hk Pc. apply lookup_app_Some in Hk as [Hk | [_ Hk]]; [exact Hk|].
    apply list_lookup_singleton_Some in Hk as [_ <-]. congruence. }
  eapply Hl; eauto.
Qed.

Lemma atMostOne_insert P l k x : existsb P l = false -> atMostOne P (<[k := x]> l).
Proof.
  intros Hex i j a b Hi Hj Pa Pb.
  assert (Hk : forall n c, <[k := x]> l !! n = Some c -> P c = true -> n = k).
  { intros n c Hn Pc. destruct (decide (n = k)) as [->|Hne]; [reflexivity|].
    rewrite list_lookup_insert_ne in Hn by congruence.
    rewrite (existsb_false_lookup P l n c Hex Hn) in Pc. discriminate. }
  rewrite (Hk i a Hi Pa), (Hk j b Hj Pb). reflexivity.
Qed.

Lemma atMostOne_updateFirst P (Q : A -> bool) (f : A -> A) l :
  existsb P l = false -> atMostOne P (updateFirst Q f l).
Proof.
  intros Hex. unfold updateFirst, firstMatch.
  destruct (list_find _ l) as [[i x]|].
  - now apply atMostOne_insert.
  - now apply atMostOne_none.
Qed.

Lemma find_firstMatch (Q : A -> bool) l :
  find Q l = snd <$> firstMatch Q l.
Proof.
  unfold firstMatch. induction l as [|y l IH]; [reflexivity|].
  simpl. unfold decide, decide_rel. destruct (Q y) eqn:Qy.
  - destruct (bool_eq_dec true true); [reflexivity|congruence].
  - destruct (bool_eq_dec false true); [discriminate|].
    rewrite IH. destruct (list_find _ l) as [[i x]|]; reflexivity.
Qed.

End ListFacts.

(** ** One active task per queue *)

Ltac run_fs :=
  unfold bind, ret, readStore, writeStore in *; simpl in *.

Lemma queueInv_write {A} (P : A -> bool) (w : bool) (log : list (list A)) (l : list A) :
  Forall (atMostOne P) log -> atMostOne P l ->
  queueInv P (mkFs (Stored l) w (log ++ [l])).
Proof.
  intros Hlog Hl. split; [exact Hl|].
  apply Forall_app. split; [exact Hlog|]. constructor; [exact Hl|constructor].
Qed.

Lemma initialProgress_waiting taskId magnetLink fileName now selectedFiles :
  Download.downloading
    (Download.initialProgress taskId magnetLink fileName now selectedFiles) = false.
Proof. reflexivity. Qed.

Lemma startDownload_inv taskId launch s :
  idle Download.downloading (content s) ->
  queueInv Download.downloading s ->
  queueInv Download.downloading (snd (Download.startDownload taskId launch s)).
Proof.
  intros Hidle [Hc Hlog]. unfold Download.startDownload.
  destruct launch as [pid|]; [|split; assumption].
  destruct s as [c w log]. run_fs.
  destruct c as [| | |l]; simpl; try (split; assumption).
  destruct w; simpl; [|split; assumption].
  apply queueInv_write; [assumption|].
  apply atMostOne_updateFirst. exact Hidle.
Qed.

Lemma snd_bind_ret {A R S} (m : M A R) (f : R -> S) (s : fs A) :
  snd (bind m (fun r => ret (f r)) s) = snd (m s).
Proof. unfold bind, ret. destruct (m s). reflexivity. Qed.

Lemma DownloadTorrentFiles_inv prepared taskId fileName now selectedFiles launch s :
  queueInv Download.downloading s ->
  queueInv Download.downloading
    (snd (Download.DownloadTorrentFiles prepared taskId fileName now selectedFiles launch s)).
Proof.
  intros [Hc Hlog]. unfold Download.DownloadTorrentFiles.
  destruct prepared as [magnetLink|]; [|split; assumption].
  destruct s as [c w log].
  unfold bind at 1. unfold readStore. simpl content.
  set (progressList := match _ with Loaded l => l | _ => [] end).
  assert (Hl : atMostOne Download.downloading progressList).
  { subst progressList. destruct c; simpl in *; try apply atMostOne_nil. exact Hc. }
  unfold bind at 1. unfold writeStore at 1. simpl writable.
  destruct w; simpl; [|split; assumption].
  set (appended := progressList ++ _).
  assert (Happ : queueInv Download.downloading (mkFs (Stored appended) true (log ++ [appended]))).
  { apply queueInv_write; [assumption|].
    apply atMostOne_snoc; [assumption|apply initialProgress_waiting]. }
  destruct (existsb Download.downloading progressList) eqn:Hex; [exact Happ|].
  rewrite snd_bind_ret. apply startDownload_inv; [|exact Happ].
  simpl. subst appended. rewrite existsb_snoc, Hex. reflexivity.
Qed.

Lemma startNextWaitingTask_inv launch s :
  queueInv Download.downloading s ->
  queueInv Download.downloading (snd (Download.startNextWaitingTask launch s)).
Proof.
  intros Hs. unfold Download.startNextWaitingTask.
  destruct s as [c w log]. unfold bind at 1. unfold readStore. simpl content.
  destruct c as [| | |l]; simpl; try exact Hs.
  destruct (existsb Download.downloading l) eqn:Hex; [exact Hs|].
  destruct (find Download.waiting l) as [nextTask|]; [|exact Hs].
  destruct (Download.mustString "taskId" nextTask); [|exact Hs].
  destruct (Download.mustString "magnetLink" nextTask); [|exact Hs].
  destruct (Download.mustString "outputDir" nextTask); [|exact Hs].
  apply startDownload_inv; [exact Hex|exact Hs].
Qed.

Lemma startTranscode_inv taskID launch now s :
  idle Transcode.transcoding (content s) ->
  queueInv Transcode.transcoding s ->
  queueInv Transcode.transcoding (snd (Transcode.startTranscode taskID launch now s)).
Proof.
  intros Hidle Hs. unfold Transcode.startTranscode.
  destruct s as [c w log]. unfold bind at 1. unfold readStore. simpl content.
  destruct c as [| | |l]; simpl; try exact Hs.
  destruct (firstMatch _ l) as [[taskIndex task]|]; [|exact Hs].
  destruct launch as [pid|]; [|exact Hs].
  run_fs. destruct w; simpl; [|exact Hs].
  destruct Hs as [_ Hlog].
  apply queueInv_write; [assumption|]. apply atMostOne_insert. exact Hidle.
Qed.

Lemma startNextTranscodeTask_inv launch now s :
  queueInv Transcode.transcoding s ->
  queueInv Transcode.transcoding (snd (Transcode.startNextTranscodeTask launch now s)).
Proof.
  intros Hs. unfold Transcode.startNextTranscodeTask.
  destruct s as [c w log]. unfold bind at 1. unfold readStore. simpl content.
  destruct c as [| | |l]; simpl; try exact Hs.
  destruct (existsb Transcode.transcoding l) eqn:Hex; [exact Hs|].
  destruct (negb _); [|exact Hs].
  apply startTranscode_inv; [exact Hex|exact Hs].
Qed.

Lemma AddTranscodeTaskWithParams_inv prepared taskID inputFile outputFile ffmpegCommand
    videoCodec audioCodec resolution bitrate launch now s :
  queueInv Transcode.transcoding s ->
  queueInv Transcode.transcoding
    (snd (Transcode.AddTranscodeTaskWithParams prepared taskID inputFile outputFile
            ffmpegCommand videoCodec audioCodec resolution bitrate launch now s)).
Proof.
  intros [Hc Hlog]. unfold Transcode.AddTranscodeTaskWithParams.
  destruct prepared; [|split; assumption]. cbv zeta.
  destruct s as [c w log].
  unfold bind at 1. unfold readStore. simpl content.
  set (transcodeTasks := match _ with Loaded l => l | _ => [] end).
  assert (Hl : atMostOne Transcode.transcoding transcodeTasks).
  { subst transcodeTasks. destruct c; simpl in *; try apply atMostOne_nil. exact Hc. }
  unfold bind at 1. unfold writeStore at 1. simpl writable.
  destruct w; simpl; [|split; assumption].
  set (appended := transcodeTasks ++ _).
  assert (Happ : queueInv Transcode.transcoding
                   (mkFs (Stored appended) true (log ++ [appended]))).
  { apply queueInv_write; [assumption|].
    apply atMostOne_snoc; [assumption|reflexivity]. }
  destruct (existsb Transcode.transcoding transcodeTasks) eqn:Hex; [exact Happ|].
  rewrite snd_bind_ret. apply startNextTranscodeTask_inv. exact Happ.
Qed.

Lemma startNextWaitingTask_busy launch l w log :
  existsb Download.downloading l = true ->
  Download.startNextWaitingTask launch (mkFs (Stored l) w log) = (None, mkFs (Stored l) w log).
Proof. intros Hex. unfold Download.startNextWaitingTask. run_fs. now rewrite Hex. Qed.

Lemma startNextTranscodeTask_busy launch now l w log :
  existsb Transcode.transcoding l = true ->
  Transcode.startNextTranscodeTask launch now (mkFs (Stored l) w log)
  = (None, mkFs (Stored l) w log).
Proof. intros Hex. unfold Transcode.startNextTranscodeTask. run_fs. now rewrite Hex. Qed.

Lemma DownloadTorrentFiles_busy magnetLink taskId fileName now selectedFiles launch l log :
  existsb Download.downloading l = true ->
  Download.DownloadTorrentFiles (Some magnetLink) taskId fileName now selectedFiles launch
    (mkFs (Stored l) true log)
  = (Download.Success taskId,
     let l' := l ++ [Download.initialProgress taskId magnetLink fileName now selectedFiles] in
     mkFs (Stored l') true (log ++ [l'])).
Proof. intros Hex. unfold Download.DownloadTorrentFiles. run_fs. now rewrite Hex. Qed.

Lemma AddTranscodeTaskWithParams_busy taskID inputFile outputFile ffmpegCommand
    videoCodec audioCodec resolution bitrate launch now l log :
  existsb Transcode.transcoding l = true ->
  Transcode.AddTranscodeTaskWithParams true taskID inputFile outputFile ffmpegCommand
    videoCodec audioCodec resolution bitrate launch now (mkFs (Stored l) true log)
  = (Transcode.Success taskID,
     let l' := l ++ [Transcode.newTask taskID inputFile outputFile ffmpegCommand videoCodec
                       audioCodec resolution bitrate now] in
     mkFs (Stored l') true (log ++ [l'])).
Proof. intros Hex. unfold Transcode.AddTranscodeTaskWithParams. run_fs. now rewrite Hex. Qed.

(** ** The exit of the child process *)

Lemma firstMatch_Some {A} (P : A -> bool) (l : list A) i x :
  firstMatch P l = Some (i, x) <->
  l !! i = Some x /\ P x = true /\
  forall j y, l !! j = Some y -> (j < i)%nat -> P y = false.
Proof.
  unfold firstMatch. rewrite list_find_Some. split.
  - intros (Hi & Px & Hlt). repeat split; auto.
    intros j y Hj Hji. specialize (Hlt j y Hj Hji). now destruct (P y).
  - intros (Hi & Px & Hlt). repeat split; auto.
    intros j y Hj Hji. rewrite (Hlt j y Hj Hji). discriminate.
Qed.

Lemma startNextTranscodeTask_log launch now s :
  exists more,
    written (snd (Transcode.startNextTranscodeTask launch now s)) = written s ++ more.
Proof.
  unfold Transcode.startNextTranscodeTask, Transcode.startTranscode.
  destruct s as [c w log]. run_fs.
  destruct c as [| | |l]; simpl; try (exists []; now rewrite app_nil_r).
  destruct (existsb Transcode.transcoding l); simpl; [exists []; now rewrite app_nil_r|].
  destruct (negb _); simpl; [|exists []; now rewrite app_nil_r].
  destruct (firstMatch _ l) as [[i x]|]; simpl; [|exists []; now rewrite app_nil_r].
  destruct launch; simpl; [|exists []; now rewrite app_nil_r].
  destruct w; simpl; [eexists; reflexivity|exists []; now rewrite app_nil_r].
Qed.

Lemma startNextWaitingTask_log launch s :
  exists more,
    written (snd (Download.startNextWaitingTask launch s)) = written s ++ more.
Proof.
  unfold Download.startNextWaitingTask, Download.startDownload.
  destruct s as [c w log]. run_fs.
  destruct c as [| | |l]; simpl; try (exists []; now rewrite app_nil_r).
  destruct (existsb Download.downloading l); simpl; [exists []; now rewrite app_nil_r|].
  destruct (find Download.waiting l) as [nextTask|]; simpl;
    [|exists []; now rewrite app_nil_r].
  destruct (Download.mustString "taskId" nextTask); simpl;
    [|exists []; now rewrite app_nil_r].
  destruct (Download.mustString "magnetLink" nextTask); simpl;
    [|exists []; now rewrite app_nil_r].
  destruct (Download.mustString "outputDir" nextTask); simpl;
    [|exists []; now rewrite app_nil_r].
  destruct launch; simpl; [|exists []; now rewrite app_nil_r].
  destruct w; simpl; [eexists; reflexivity|exists []; now rewrite app_nil_r].
Qed.

(** What the download goroutine does with a task that is cancelled or
    paused when [Wait] returns: nothing is written by the exit
    transition, whatever the outcome of [Wait]. *)
Lemma download_exit_keeps_protected taskId waitFailed now l i p :
  firstMatch (fun q => Download.idIs q taskId) l = Some (i, p) ->
  Download.protected p = true ->
  Download.exitTransition taskId waitFailed now l = None.
Proof.
  intros Hf Hp. unfold Download.exitTransition. now rewrite Hf, Hp.
Qed.

(** The transcode monitor rewrites the status of the first task with the
    id, whatever that status was. *)
Lemma transcode_exit_any_status taskID cmdErr now l i t :
  firstMatch (fun q => Transcode.idIs q taskID) l = Some (i, t) ->
  Transcode.exitTransition taskID cmdErr now l
  = <[i := Transcode.exitUpdate cmdErr now t]> l.
Proof.
  intros Hf. unfold Transcode.exitTransition, updateFirst. now rewrite Hf.
Qed.

(** C2. The exit-outcome transition must leave a cancelled task
    cancelled. The download goroutine does; monitorTranscodeProgress
    does not: a transcode that is running, then cancelled (its process
    killed), is stored as "failed" once [Wait] has returned its error,
    and a cancelled task whose process ends cleanly is stored as
    "completed". *)
Theorem transcode_exit_overwrites_cancelled :
  let running := Samples.transcode "transcode-1" "transcoding" 100 4242 "" in
  let cancelled := snd (Transcode.CancelTranscode "transcode-1" 400
                          (onDisk (Stored [running]) true)) in
  let dl := Samples.download "task-1" "cancelled" "2024-05-01T10:00:00Z" (Some (JNum 4242)) in
  (* the cancel request is stored *)
  content cancelled = Stored [Transcode.markCancelled 400 running]
  (* the exit with an error overwrites it *)
  /\ content (snd (Transcode.monitorExit "transcode-1" (Some "exit status 1") 500 None cancelled))
     = Stored [Transcode.setEndTime 500
                 (Transcode.setError "exit status 1"
                    (Transcode.setStatus "failed" (Transcode.markCancelled 400 running)))]
  (* and so does the clean exit *)
  /\ content (snd (Transcode.monitorExit "transcode-1" None 500 None cancelled))
     = Stored [Transcode.setEndTime 500
                 (Transcode.setProgress 1
                    (Transcode.setStatus "completed" (Transcode.markCancelled 400 running)))]
  (* the download goroutine leaves a cancelled task alone *)
  /\ snd (Download.monitorExit "task-1" true "2024-05-01T11:00:00Z" None
            (onDisk (Stored [dl]) true))
     = onDisk (Stored [dl]) true.
Proof.
  intros running cancelled dl.
  split; [vm_compute; reflexivity|].
  split; [vm_compute; reflexivity|].
  split; [vm_compute; reflexivity|].
  reflexivity.
Qed.

Lemma transcode_monitorExit_first_write taskID cmdErr now launch l :
  head (written (snd (Transcode.monitorExit taskID cmdErr now launch (onDisk (Stored l) true))))
  = Some (Transcode.exitTransition taskID cmdErr now l).
Proof.
  unfold Transcode.monitorExit, onDisk. run_fs.
  destruct (startNextTranscodeTask_log launch now
              (mkFs (Stored (Transcode.exitTransition taskID cmdErr now l)) true
                 [Transcode.exitTransition taskID cmdErr now l])) as [more ->].
  reflexivity.
Qed.

Lemma download_monitorExit_first_write taskId waitFailed now launch l updated :
  Download.exitTransition taskId waitFailed now l = Some updated ->
  head (written (snd (Download.monitorExit taskId waitFailed now launch (onDisk (Stored l) true))))
  = Some updated.
Proof.
  intros Hupd. unfold Download.monitorExit, onDisk. run_fs. rewrite Hupd. run_fs.
  destruct (startNextWaitingTask_log launch (mkFs (Stored updated) true [updated]))
    as [more ->].
  reflexivity.
Qed.

(** C3, as the code has it. When [Wait] returns and no cancel has
    claimed the task (a transcode that is not "cancelled", a download
    that is neither "cancelled" nor "paused"), the exit transition is
    the first snapshot the monitor writes. For a transcode it sets the
    first task with the id to "failed" on an error, keeping an error
    text already recorded and taking the text of the [Wait] error
    otherwise, and to "completed" with progress 1.0 on success. For a
    download, an error puts the task back to "waiting" with its pid
    removed and no error text recorded, and success sets it to
    "completed"; both stamp the end time, and the recorded percentage is
    left as it was. *)
Theorem exit_outcome_transition
    (tl : list Transcode.TranscodeTask) (dl : list Download.task)
    (taskID : string) (i : nat) (t : Transcode.TranscodeTask) (cmdErr : option string) (now : Z)
    (taskId : string) (j : nat) (p : Download.task) (waitFailed : bool) (nowText : string)
    (launch : option Z) :
  firstMatch (fun q => Transcode.idIs q taskID) tl = Some (i, t) ->
  Transcode.statusIs t "cancelled" = false ->
  firstMatch (fun q => Download.idIs q taskId) dl = Some (j, p) ->
  Download.protected p = false ->
  let t' := Transcode.exitUpdate cmdErr now t in
  let p' := Download.exitUpdate waitFailed nowText p in
  head (written (snd (Transcode.monitorExit taskID cmdErr now launch (onDisk (Stored tl) true))))
    = Some (<[i := t']> tl)
  /\ Transcode.EndTime t' = now
  /\ match cmdErr with
     | Some msg =>
         Transcode.Status t' = "failed"
         /\ Transcode.Error t' = (if String.eqb (Transcode.Error t) "" then msg
                                  else Transcode.Error t)
         /\ Transcode.Progress t' = Transcode.Progress t
     | None =>
         Transcode.Status t' = "completed" /\ Transcode.Progress t' = 1%float
         /\ Transcode.Error t' = Transcode.Error t
     end
  /\ head (written (snd (Download.monitorExit taskId waitFailed nowText launch
                           (onDisk (Stored dl) true))))
       = Some (<[j := p']> dl)
  /\ p' !! "endTime" = Some (JStr nowText)
  /\ p' !! "percentage" = p !! "percentage"
  /\ p' !! "error" = p !! "error"
  /\ if waitFailed
     then p' !! "status" = Some (JStr "waiting") /\ p' !! "pid" = None
     else p' !! "status" = Some (JStr "completed") /\ p' !! "pid" = p !! "pid".
Proof.
  intros Ht _ Hp Hprot t' p'.
  split.
  { rewrite transcode_monitorExit_first_write.
    now rewrite (transcode_exit_any_status _ _ _ _ _ _ Ht). }
  split.
  { subst t'. destruct cmdErr as [msg|]; simpl; [|reflexivity].
    destruct (String.eqb (Transcode.Error t) ""); reflexivity. }
  split.
  { subst t'. destruct cmdErr as [msg|]; simpl; [|auto].
    destruct (String.eqb (Transcode.Error t) ""); auto. }
  split.
  { apply download_monitorExit_first_write.
    unfold Download.exitTransition. now rewrite Hp, Hprot. }
  subst p'. unfold Download.exitUpdate, Download.backToWaiting, Download.markCompleted.
  destruct waitFailed; repeat split; now simplify_map_eq.
Qed.

Lemma exit_outcome_transition_witness :
  let running := Samples.transcode "transcode-1" "transcoding" 100 4242 "" in
  let p := Samples.download "task-1" "downloading" "2024-05-01T10:00:00Z" (Some (JNum 4242)) in
  head (written (snd (Transcode.monitorExit "transcode-1" (Some "exit status 1") 500 None
                        (onDisk (Stored [running]) true))))
    = Some [Transcode.exitUpdate (Some "exit status 1") 500 running]
  /\ Transcode.Status (Transcode.exitUpdate (Some "exit status 1") 500 running) = "failed"
  /\ Transcode.Error (Transcode.exitUpdate (Some "exit status 1") 500 running)
     = "exit status 1"
  /\ Download.exitUpdate true "2024-05-01T11:00:00Z" p !! "status" = Some (JStr "waiting").
Proof.
  intros running p.
  destruct (exit_outcome_transition [running] [p] "transcode-1" 0 running
              (Some "exit status 1") 500 "task-1" 0 p true "2024-05-01T11:00:00Z" None
              eq_refl eq_refl eq_refl eq_refl)
    as (H1 & _ & (H2 & H3 & _) & _ & _ & _ & _ & H4 & _).
  repeat split; assumption.
Defined.

(** C3 fails as stated in the download queue: a download whose [Wait]
    reports an error is stored as "waiting", not as "failed", and a
    download that ends cleanly keeps the percentage it had. *)
Lemma download_wait_error_is_not_failed :
  let p := Samples.download "task-1" "downloading" "2024-05-01T10:00:00Z" (Some (JNum 4242)) in
  Download.protected p = false
  /\ (exists p',
        head (written (snd (Download.monitorExit "task-1" true "2024-05-01T11:00:00Z" None
                              (onDisk (Stored [p]) true)))) = Some [p']
        /\ p' !! "status" = Some (JStr "waiting")
        /\ p' !! "status" <> Some (JStr "failed"))
  /\ (exists p',
        head (written (snd (Download.monitorExit "task-1" false "2024-05-01T11:00:00Z" None
                              (onDisk (Stored [p]) true)))) = Some [p']
        /\ p' !! "status" = Some (JStr "completed")
        /\ p' !! "percentage" = Some (JNum 42.5)).
Proof.
  intros p. split; [reflexivity|]. split.
  - exists (Download.backToWaiting "2024-05-01T11:00:00Z" p).
    split; [reflexivity|]. split; [reflexivity|]. discriminate.
  - exists (Download.markCompleted "2024-05-01T11:00:00Z" p).
    split; [reflexivity|]. split; reflexivity.
Qed.

(** ** Startup recovery *)

Lemma map_unless_active {A} (P : A -> bool) (f : A -> A) (l : list A) :
  existsb P l = false -> map (fun t => if P t then f t else t) l = l.
Proof.
  induction l as [|x l IH]; [reflexivity|].
  simpl. intros H. apply orb_false_iff in H as [Hx Hl]. now rewrite Hx, IH.
Qed.

Lemma download_demoted_not_downloading now t :
  Download.downloading (Download.backToWaiting now t) = false.
Proof.
  unfold Download.downloading, Download.statusIs, Download.fieldIs, Download.backToWaiting.
  now simplify_map_eq.
Qed.

Lemma download_demoteLoop_spec now l :
  Download.demoteLoop now l
  = (map (fun t => if Download.downloading t then Download.backToWaiting now t else t) l,
     existsb Download.downloading l).
Proof.
  induction l as [|t l IH]; [reflexivity|].
  simpl. rewrite IH. destruct (Download.downloading t); reflexivity.
Qed.

Lemma transcode_demoteLoop_spec now l :
  Transcode.demoteLoop now l
  = (map (fun t => if Transcode.transcoding t then Transcode.backToWaiting now t else t) l,
     existsb Transcode.transcoding l).
Proof.
  induction l as [|t l IH]; [reflexivity|].
  simpl. rewrite IH. destruct (Transcode.transcoding t); reflexivity.
Qed.

Section Demotion.

Context {A : Type} (active : A -> bool) (demote : A -> A).
Hypothesis demote_inactive : forall t, active (demote t) = false.

Let pass (l : list A) : list A := map (fun t => if active t then demote t else t) l.

Lemma pass_idle l : existsb active (pass l) = false.
Proof.
  induction l as [|t l IH]; [reflexivity|].
  simpl. rewrite IH. destruct (active t) eqn:Ht; [rewrite demote_inactive|rewrite Ht]; reflexivity.
Qed.

End Demotion.

Lemma recoverDownloads_twice now1 now2 (s : fs Download.task) :
  let s1 := snd (Download.recoverDownloads now1 s) in
  snd (Download.recoverDownloads now2 s1) = s1
  /\ (writable s = false \/ idle Download.downloading (content s1)).
Proof.
  unfold Download.recoverDownloads. destruct s as [c w log]. run_fs.
  destruct c as [| | |l]; simpl.
  - destruct w; simpl; auto.
  - auto.
  - auto.
  - rewrite download_demoteLoop_spec.
    destruct (existsb Download.downloading l) eqn:Hex; simpl.
    + destruct w; simpl.
      * rewrite download_demoteLoop_spec.
        rewrite (pass_idle _ _ (download_demoted_not_downloading now1)). simpl.
        split; [reflexivity|right; reflexivity].
      * rewrite download_demoteLoop_spec, Hex. simpl. auto.
    + rewrite download_demoteLoop_spec, Hex. simpl. auto.
Qed.

Lemma recoverTranscodes_twice now1 now2 (s : fs Transcode.TranscodeTask) :
  let s1 := snd (Transcode.recoverTranscodes now1 s) in
  snd (Transcode.recoverTranscodes now2 s1) = s1
  /\ (writable s = false \/ idle Transcode.transcoding (content s1)).
Proof.
  assert (Hd : forall now t, Transcode.transcoding (Transcode.backToWaiting now t) = false)
    by reflexivity.
  unfold Transcode.recoverTranscodes. destruct s as [c w log]. run_fs.
  destruct c as [| | |l]; simpl.
  - destruct w; simpl; auto.
  - auto.
  - auto.
  - rewrite transcode_demoteLoop_spec.
    destruct (existsb Transcode.transcoding l) eqn:Hex; simpl.
    + destruct w; simpl.
      * rewrite transcode_demoteLoop_spec.
        rewrite (pass_idle _ _ (Hd now1)). simpl.
        split; [reflexivity|right; reflexivity].
      * rewrite transcode_demoteLoop_spec, Hex. simpl. auto.
    + rewrite transcode_demoteLoop_spec, Hex. simpl. auto.
Qed.

(** What the demotion step leaves behind, for a file that holds a list:
    when a task is active and the file can be written, the list with
    every active task demoted, written once; the file system as it was
    otherwise. *)
Lemma recoverDownloads_loaded now (s : fs Download.task) l :
  content s = Stored l ->
  snd (Download.recoverDownloads now s)
  = if existsb Download.downloading l && writable s
    then let demoted :=
           map (fun x => if Download.downloading x then Download.backToWaiting now x else x) l in
         mkFs (Stored demoted) true (written s ++ [demoted])
    else s.
Proof.
  destruct s as [c w log]. simpl. intros ->.
  unfold Download.recoverDownloads. run_fs. rewrite download_demoteLoop_spec.
  destruct (existsb Download.downloading l); simpl; [|reflexivity].
  destruct w; reflexivity.
Qed.

Lemma recoverTranscodes_loaded now (s : fs Transcode.TranscodeTask) l :
  content s = Stored l ->
  snd (Transcode.recoverTranscodes now s)
  = if existsb Transcode.transcoding l && writable s
    then let demoted :=
           map (fun x => if Transcode.transcoding x
                         then Transcode.backToWaiting now x else x) l in
         mkFs (Stored demoted) true (written s ++ [demoted])
    else s.
Proof.
  destruct s as [c w log]. simpl. intros ->.
  unfold Transcode.recoverTranscodes. run_fs. rewrite transcode_demoteLoop_spec.
  destruct (existsb Transcode.transcoding l); simpl; [|reflexivity].
  destruct w; reflexivity.
Qed.

Lemma download_backToWaiting_record now (x : Download.task) :
  Download.backToWaiting now x !! "status" = Some (JStr "waiting")
  /\ Download.backToWaiting now x !! "pid" = None
  /\ Download.backToWaiting now x !! "endTime" = Some (JStr now)
  /\ forall k, k <> "status" -> k <> "pid" -> k <> "endTime" ->
               Download.backToWaiting now x !! k = x !! k.
Proof.
  unfold Download.backToWaiting. repeat split; try now simplify_map_eq.
  intros k H1 H2 H3. now simplify_map_eq.
Qed.

Lemma transcode_backToWaiting_record now (x : Transcode.TranscodeTask) :
  Transcode.backToWaiting now x
  = Transcode.mkTask (Transcode.TaskID x) (Transcode.InputFile x) (Transcode.OutputFile x)
      "waiting" (Transcode.StartTime x) now (Transcode.Progress x) (Transcode.Speed x)
      (Transcode.TimeRemaining x) (Transcode.FFmpegCommand x) 0 (Transcode.Error x)
      (Transcode.VideoCodec x) (Transcode.AudioCodec x) (Transcode.Resolution x)
      (Transcode.Bitrate x).
Proof. reflexivity. Qed.

(** C4. The demotion step of startup is idempotent on both progress
    files: a second pass, at whatever time it runs, leaves the file and
    the write log exactly as the first pass left them. On a file that
    holds a list and can be written, the first pass leaves the same list
    with every active task, and no other, turned into a waiting task
    without pid, its end time set and nothing else changed, and writes
    that list once when a task was active and nothing when none was; no
    task is active after it. A file that cannot be written is left as it
    was. *)
Theorem recovery_demotion_idempotent
    (d : fs Download.task) (t : fs Transcode.TranscodeTask)
    (nowText1 nowText2 : string) (now1 now2 : Z) :
  let d1 := snd (Download.recoverDownloads nowText1 d) in
  let t1 := snd (Transcode.recoverTranscodes now1 t) in
  let demoteDownload :=
    fun x => if Download.downloading x then Download.backToWaiting nowText1 x else x in
  let demoteTranscode :=
    fun x => if Transcode.transcoding x then Transcode.backToWaiting now1 x else x in
  (* the second pass changes nothing *)
  snd (Download.recoverDownloads nowText2 d1) = d1
  /\ snd (Transcode.recoverTranscodes now2 t1) = t1
  (* what the first pass stores and writes *)
  /\ (forall l, content d = Stored l -> writable d = true ->
        content d1 = Stored (map demoteDownload l)
        /\ written d1
           = written d ++ (if existsb Download.downloading l
                           then [map demoteDownload l] else []))
  /\ (forall l, content t = Stored l -> writable t = true ->
        content t1 = Stored (map demoteTranscode l)
        /\ written t1
           = written t ++ (if existsb Transcode.transcoding l
                           then [map demoteTranscode l] else []))
  /\ (writable d = false -> d1 = d)
  /\ (writable t = false -> t1 = t)
  /\ (writable d = false \/ idle Download.downloading (content d1))
  /\ (writable t = false \/ idle Transcode.transcoding (content t1))
  (* the loop of the pass *)
  /\ (forall l, fst (Download.demoteLoop nowText1 l) = map demoteDownload l)
  /\ (forall l, fst (Transcode.demoteLoop now1 l) = map demoteTranscode l)
  (* what the demotion does to one record *)
  /\ (forall x,
        Download.backToWaiting nowText1 x !! "status" = Some (JStr "waiting")
        /\ Download.backToWaiting nowText1 x !! "pid" = None
        /\ Download.backToWaiting nowText1 x !! "endTime" = Some (JStr nowText1)
        /\ forall k, k <> "status" -> k <> "pid" -> k <> "endTime" ->
                     Download.backToWaiting nowText1 x !! k = x !! k)
  /\ (forall x,
        Transcode.backToWaiting now1 x
        = Transcode.mkTask (Transcode.TaskID x) (Transcode.InputFile x)
            (Transcode.OutputFile x) "waiting" (Transcode.StartTime x) now1
            (Transcode.Progress x) (Transcode.Speed x) (Transcode.TimeRemaining x)
            (Transcode.FFmpegCommand x) 0 (Transcode.Error x) (Transcode.VideoCodec x)
            (Transcode.AudioCodec x) (Transcode.Resolution x) (Transcode.Bitrate x)).
Proof.
  intros d1 t1 demoteDownload demoteTranscode.
  destruct (recoverDownloads_twice nowText1 nowText2 d) as [Hd1 Hd2].
  destruct (recoverTranscodes_twice now1 now2 t) as [Ht1 Ht2].
  split; [exact Hd1|]. split; [exact Ht1|].
  split.
  { intros l Hc Hw. subst d1. rewrite (recoverDownloads_loaded nowText1 d l Hc), Hw.
    rewrite andb_true_r. fold demoteDownload.
    destruct (existsb Download.downloading l) eqn:Hex; simpl.
    - split; reflexivity.
    - rewrite Hc, app_nil_r. split; [|reflexivity].
      unfold demoteDownload. now rewrite map_unless_active. }
  split.
  { intros l Hc Hw. subst t1. rewrite (recoverTranscodes_loaded now1 t l Hc), Hw.
    rewrite andb_true_r. fold demoteTranscode.
    destruct (existsb Transcode.transcoding l) eqn:Hex; simpl.
    - split; reflexivity.
    - rewrite Hc, app_nil_r. split; [|reflexivity].
      unfold demoteTranscode. now rewrite map_unless_active. }
  split.
  { intros Hw. subst d1. destruct d as [c w log]. simpl in Hw. subst w.
    unfold Download.recoverDownloads. run_fs.
    destruct c as [| | |l]; try reflexivity.
    rewrite download_demoteLoop_spec. now destruct (existsb Download.downloading l). }
  split.
  { intros Hw. subst t1. destruct t as [c w log]. simpl in Hw. subst w.
    unfold Transcode.recoverTranscodes. run_fs.
    destruct c as [| | |l]; try reflexivity.
    rewrite transcode_demoteLoop_spec. now destruct (existsb Transcode.transcoding l). }
  split; [exact Hd2|]. split; [exact Ht2|].
  split; [intros l; now rewrite download_demoteLoop_spec|].
  split; [intros l; now rewrite transcode_demoteLoop_spec|].
  split; [intros x; apply download_backToWaiting_record|].
  intros x; apply transcode_backToWaiting_record.
Qed.

Lemma recovery_demotion_idempotent_witness :
  let a := Samples.download "task-1" "downloading" "2024-05-01T10:00:00Z"
             (Some (JNum 4242)) in
  let b := Samples.download "task-2" "waiting" "2024-05-01T10:05:00Z" None in
  let x := Samples.transcode "transcode-1" "transcoding" 100 4242 "" in
  content (snd (Download.recoverDownloads "2024-05-02T08:00:00Z" (onDisk (Stored [a; b]) true)))
  = Stored [Download.backToWaiting "2024-05-02T08:00:00Z" a; b]
  /\ written (snd (Download.recoverDownloads "2024-05-02T08:00:00Z"
                     (onDisk (Stored [a; b]) true)))
     = [[Download.backToWaiting "2024-05-02T08:00:00Z" a; b]]
  /\ content (snd (Transcode.recoverTranscodes 900 (onDisk (Stored [x]) true)))
     = Stored [Transcode.backToWaiting 900 x].
Proof.
  intros a b x.
  pose proof (recovery_demotion_idempotent (onDisk (Stored [a; b]) true)
                (onDisk (Stored [x]) true) "2024-05-02T08:00:00Z" "2024-05-02T09:00:00Z"
                900 950) as H.
  cbv zeta in H. destruct H as (_ & _ & Hd & Ht & _).
  destruct (Hd [a; b] eq_refl eq_refl) as [Hc Hw].
  destruct (Ht [x] eq_refl eq_refl) as [Hc' _].
  split; [exact Hc|]. split; [exact Hw|exact Hc'].
Defined.

(** ** The progress fraction of a transcode *)

Lemma fgt_1_099 x : fgt x 1 = true -> fgt x 0.99 = true.
Proof.
  unfold fgt. rewrite !FloatAxioms.ltb_spec.
  let v := eval vm_compute in (Prim2SF 1) in change (Prim2SF 1) with v.
  let v := eval vm_compute in (Prim2SF 0.99) in change (Prim2SF 0.99) with v.
  generalize (Prim2SF x).
  intros [s|s| |s m e]; unfold SFltb, SFcompare;
    try (intros; discriminate || reflexivity || assumption).
  destruct s; [discriminate|].
  destruct (Z.compare_spec (-52) e) as [<-|H|H]; try discriminate; intros _.
  - reflexivity.
  - destruct (Z.compare_spec (-53) e) as [?|?|?]; try reflexivity; exfalso; lia.
Qed.

Lemma clamp01_range c :
  fgt (Progress.clamp01 c) 1 = false /\ flt (Progress.clamp01 c) 0 = false.
Proof.
  unfold Progress.clamp01.
  destruct (flt c 0) eqn:E0; [split; reflexivity|].
  destruct (fgt c 1) eqn:E1; [split; reflexivity|].
  split; assumption.
Qed.

Lemma clamp01_cap99 x : fgt (Progress.clamp01 (Progress.cap99 x)) 0.99 = false.
Proof.
  unfold Progress.cap99.
  destruct (fgt x 0.99) eqn:E; [reflexivity|].
  unfold Progress.clamp01.
  destruct (flt x 0); [reflexivity|].
  destruct (fgt x 1) eqn:E1; [|exact E].
  rewrite (fgt_1_099 x E1) in E. discriminate.
Qed.

Lemma splitFirst_join sep s a b :
  Text.splitFirst sep s = Some (a, b) -> s = String.append a (String sep b).
Proof.
  revert a. induction s as [|c s IH]; intros a H; [discriminate|].
  simpl in H. destruct (Ascii.eqb_spec c sep) as [->|Hne].
  - injection H as <- <-. reflexivity.
  - destruct (Text.splitFirst sep s) as [[a' b']|]; [|discriminate].
    injection H as <- <-. simpl. now rewrite (IH a' eq_refl).
Qed.

Section ProgressFacts.

Variable ParseFloat : string -> float * bool.

Lemma calculate_low_tiers m :
  Progress.tierOf m <> Progress.ByTime ->
  fgt (Progress.clamp01 (snd (Progress.calculate m))) 0.99 = false.
Proof.
  unfold Progress.calculate. destruct (Progress.tierOf m); intros H.
  - congruence.
  - apply clamp01_cap99.
  - apply clamp01_cap99.
Qed.

Lemma fractions_app a b :
  Progress.fractions (a ++ b) = Progress.fractions a ++ Progress.fractions b.
Proof. unfold Progress.fractions. apply flat_map_app. Qed.

Lemma commit_fractions m c :
  Progress.fractions (snd (Progress.commit m c)) = []
  \/ Progress.fractions (snd (Progress.commit m c)) = [c].
Proof. unfold Progress.commit. destruct (_ || _); simpl; auto. Qed.

Lemma readKey_fractions m key value :
  Progress.fractions (snd (Progress.readKey ParseFloat m key value)) = []
  \/ (key = "progress" /\ value = "end"
      /\ Progress.fractions (snd (Progress.readKey ParseFloat m key value)) = [1%float]).
Proof.
  unfold Progress.readKey.
  destruct (String.eqb key "out_time").
  { left. destruct (Text.split _ value) as [|? [|? [|? [|? ?]]]]; reflexivity. }
  destruct (String.eqb key "frame").
  { left. destruct (Text.ParseInt value); reflexivity. }
  destruct (String.eqb key "speed"); [left; reflexivity|].
  destruct (String.eqb_spec key "progress") as [->|]; [|left; reflexivity].
  destruct (String.eqb_spec value "end") as [->|]; [|left; reflexivity].
  right. auto.
Qed.

Lemma stdoutLine_fraction m line p :
  In p (Progress.fractions (snd (Progress.stdoutLine ParseFloat m line))) ->
  fgt p 1 = false /\ flt p 0 = false
  /\ (fgt p 0.99 = false \/ line = "progress=end"
      \/ Progress.tierOfLine ParseFloat m line = Some Progress.ByTime).
Proof.
  unfold Progress.stdoutLine, Progress.tierOfLine.
  destruct (Text.splitFirst "=" line) as [[key value]|] eqn:Hsplit; [|intros []].
  destruct (Progress.readKey ParseFloat m key value) as [m1 a1] eqn:Hkey.
  pose proof (readKey_fractions m key value) as Ha1. rewrite Hkey in Ha1. simpl in Ha1.
  pose proof (calculate_low_tiers m1) as Hlow.
  destruct (Progress.calculate m1) as [m2 c] eqn:Hcalc. simpl in Hlow.
  pose proof (commit_fractions m2 (Progress.clamp01 c)) as Ha2.
  destruct (Progress.commit m2 (Progress.clamp01 c)) as [m3 a2]. simpl in Ha2 |- *.
  rewrite fractions_app. intros Hin. apply in_app_or in Hin as [Hin|Hin].
  - destruct Ha1 as [Ha1|(-> & -> & Ha1)]; rewrite Ha1 in Hin; [destruct Hin|].
    destruct Hin as [<-|[]]. split; [reflexivity|]. split; [reflexivity|].
    right. left. apply (splitFirst_join _ _ _ _ Hsplit).
  - destruct Ha2 as [Ha2|Ha2]; rewrite Ha2 in Hin; [destruct Hin|].
    destruct Hin as [<-|[]].
    destruct (clamp01_range c) as [H1 H0]. split; [exact H1|]. split; [exact H0|].
    destruct (Progress.tierOf m1) eqn:Htier.
    + right. right. reflexivity.
    + left. apply Hlow. discriminate.
    + left. apply Hlow. discriminate.
Qed.

Lemma stderrLine_fraction m line p :
  In p (Progress.fractions (snd (Progress.stderrLine ParseFloat m line))) ->
  fgt p 1 = false.
Proof.
  unfold Progress.stderrLine.
  destruct (_ || _) eqn:Herr.
  { destruct line; [discriminate Herr|]. intros []. }
  destruct (Progress.hasTotalDuration m); [intros []|].
  destruct (Text.findDuration line) as [[[h mi] s]|]; [|intros []].
  destruct (fgt _ 0); [|intros []].
  simpl. intros [<-|[]].
  match goal with |- context [if fgt ?q 1 then _ else _] => destruct (fgt q 1) eqn:E end;
    [reflexivity|exact E].
Qed.

End ProgressFacts.

(** C5, as the code has it. Every fraction that a stdout line hands to
    updateTranscodeProgress lies in [0, 1]. It is at most 0.99 when the
    frame-count tier or the fixed-increment tier computed it; above 0.99
    it comes from the line [progress=end] or from the elapsed-time tier,
    which is clamped to 1.0 only. The fraction computed on stderr when
    the duration is announced is at most 1.0 as well. The line
    [progress=end] always hands over exactly 1.0 first. *)
Theorem progress_fraction_bounds (ParseFloat : string -> float * bool)
    (m : Progress.monitor) (line : string) (p : float) :
  (In p (Progress.fractions (snd (Progress.stdoutLine ParseFloat m line))) ->
     fgt p 1 = false /\ flt p 0 = false
     /\ (fgt p 0.99 = false \/ line = "progress=end"
         \/ Progress.tierOfLine ParseFloat m line = Some Progress.ByTime))
  /\ (In p (Progress.fractions (snd (Progress.stderrLine ParseFloat m line))) ->
        fgt p 1 = false)
  /\ head (Progress.fractions (snd (Progress.stdoutLine ParseFloat m "progress=end")))
     = Some 1%float.
Proof.
  split; [apply stdoutLine_fraction|].
  split; [apply stderrLine_fraction|].
  unfold Progress.stdoutLine. simpl.
  destruct (Progress.calculate _) as [m2 c].
  destruct (Progress.commit m2 _) as [m3 a2]. reflexivity.
Qed.

Lemma progress_fraction_bounds_witness :
  fgt 0.02 1 = false /\ flt 0.02 0 = false
  /\ (fgt 0.02 0.99 = false \/ "frame=2000" = "progress=end"
      \/ Progress.tierOfLine Text.decimalParseFloat Progress.initial "frame=2000"
         = Some Progress.ByTime).
Proof.
  apply (proj1 (progress_fraction_bounds Text.decimalParseFloat Progress.initial
                  "frame=2000" 0.02)).
  vm_compute. left. reflexivity.
Defined.

(** C5 fails as stated: with the duration announced as ten seconds, the
    stdout line that reports ten seconds of output hands 1.0 to
    updateTranscodeProgress, although no [progress=end] was read. *)
Lemma time_tier_reaches_one_before_end :
  let events :=
    [ Progress.Stderr "  Duration: 00:00:10.00, start: 0.000000, bitrate: 128 kb/s";
      Progress.Stdout "frame=250";
      Progress.Stdout "out_time=00:00:10.000000" ] in
  ~ In (Progress.Stdout "progress=end") events
  /\ Progress.fractions (snd (Progress.run Text.decimalParseFloat Progress.initial events))
     = [1%float]
  /\ fgt 1 0.99 = true.
Proof.
  intros events. split.
  - intros [H|[H|[H|[]]]]; discriminate H.
  - split; reflexivity.
Qed.

(** ** parseFileSize *)

(** *** Conversions between integers and floats that are exact *)

Section FloatFacts.

Local Open Scope Z_scope.

Lemma digits2_pos_bounds (p : positive) :
  2 ^ (Z.pos (digits2_pos p) - 1) <= Z.pos p < 2 ^ Z.pos (digits2_pos p).
Proof.
  induction p as [p IH|p IH|]; simpl digits2_pos.
  - rewrite Pos2Z.inj_succ, Pos2Z.inj_xI.
    replace (Z.succ (Z.pos (digits2_pos p)) - 1) with (Z.succ (Z.pos (digits2_pos p) - 1)) by lia.
    rewrite !Z.pow_succ_r by lia.
    revert IH. generalize (2 ^ (Z.pos (digits2_pos p) - 1)) (2 ^ Z.pos (digits2_pos p)).
    intros a b H. lia.
  - rewrite Pos2Z.inj_succ. change (Z.pos p~0) with (2 * Z.pos p).
    replace (Z.succ (Z.pos (digits2_pos p)) - 1) with (Z.succ (Z.pos (digits2_pos p) - 1)) by lia.
    rewrite !Z.pow_succ_r by lia.
    revert IH. generalize (2 ^ (Z.pos (digits2_pos p) - 1)) (2 ^ Z.pos (digits2_pos p)).
    intros a b H. lia.
  - simpl. lia.
Qed.

Lemma iter_xO_value (p k : positive) : Z.pos (Pos.iter xO p k) = Z.pos p * 2 ^ Z.pos k.
Proof.
  induction k as [|k IH] using Pos.peano_ind.
  - simpl. lia.
  - rewrite Pos.iter_succ.
    change (Z.pos (Pos.iter xO p k)~0) with (2 * Z.pos (Pos.iter xO p k)).
    rewrite IH, Pos2Z.inj_succ, Z.pow_succ_r by lia. lia.
Qed.

Lemma iter_xO_digits (p k : positive) :
  Z.pos (digits2_pos (Pos.iter xO p k)) = Z.pos (digits2_pos p) + Z.pos k.
Proof.
  induction k as [|k IH] using Pos.peano_ind.
  - simpl. lia.
  - rewrite Pos.iter_succ. simpl digits2_pos. rewrite Pos2Z.inj_succ, IH. lia.
Qed.

(** A mantissa of 53 bits with an exponent in range is left as it is. *)
Lemma round_canonical (sx : bool) (m : positive) (e : Z) :
  Z.pos (digits2_pos m) = 53 -> -1074 <= e <= 971 ->
  binary_round_aux prec emax sx (Z.pos m) e loc_Exact = S754_finite sx m e.
Proof.
  intros Hd He. unfold binary_round_aux, shr_fexp, Zdigits2, fexp, SpecFloat.emin.
  rewrite Hd. change prec with 53. change emax with 1024.
  replace (Z.max (53 + e - 53) (3 - 1024 - 53) - e) with 0 by lia.
  cbn [shr shr_record_of_loc shr_m round_nearest_even loc_of_shr_record Zdigits2].
  rewrite Hd.
  replace (Z.max (53 + e - 53) (3 - 1024 - 53) - e) with 0 by lia.
  cbn [shr shr_record_of_loc shr_m].
  destruct (Z.leb_spec e (1024 - 53)); [reflexivity|lia].
Qed.

Lemma nat_float_SF (n : Z) :
  0 < n < 2 ^ 53 ->
  exists m e,
    Prim2SF (float_of_Z n) = S754_finite false m e
    /\ Z.pos (digits2_pos m) = 53 /\ -52 <= e <= 0 /\ Z.pos m = n * 2 ^ (- e).
Proof.
  intros Hn. unfold float_of_Z.
  destruct (Z.leb_spec 0 n); [|lia].
  rewrite of_uint63_spec.
  assert (Hto : Uint63Axioms.to_Z (Uint63.of_Z n) = n).
  { change Uint63Axioms.to_Z with Uint63.to_Z. rewrite Uint63.of_Z_spec.
    apply Z.mod_small. change Uint63.wB with (2 ^ 63). lia. }
  rewrite Hto. destruct n as [|p|p]; try lia.
  pose proof (digits2_pos_bounds p) as Hb.
  assert (Hd : Z.pos (digits2_pos p) <= 53).
  { destruct (Z.le_gt_cases (Z.pos (digits2_pos p)) 53) as [|Hgt]; [assumption|].
    assert (2 ^ 53 <= 2 ^ (Z.pos (digits2_pos p) - 1)) by (apply Z.pow_le_mono_r; lia).
    lia. }
  unfold binary_normalize, binary_round, shl_align, fexp, SpecFloat.emin.
  change prec with 53. change emax with 1024.
  replace (Z.max (Z.pos (digits2_pos p) + 0 - 53) (3 - 1024 - 53) - 0)
    with (Z.pos (digits2_pos p) - 53) by lia.
  replace (Z.max (Z.pos (digits2_pos p) + 0 - 53) (3 - 1024 - 53))
    with (Z.pos (digits2_pos p) - 53) by lia.
  destruct (Z.pos (digits2_pos p) - 53) as [|k|k] eqn:Hk; try lia.
  - exists p, 0. split; [|split; [lia|split; [lia|simpl; lia]]].
    apply (round_canonical false p 0); lia.
  - exists (Pos.iter xO p k), (Z.neg k).
    assert (Hdk : Z.pos (digits2_pos (Pos.iter xO p k)) = 53) by (rewrite iter_xO_digits; lia).
    split; [|split; [exact Hdk|split; [lia|]]].
    + apply (round_canonical false _ (Z.neg k)); [exact Hdk|lia].
    + rewrite iter_xO_value. reflexivity.
Qed.


Lemma mul_pow2_SF (m : positive) (e j : Z) :
  Z.pos (digits2_pos m) = 53 -> -1074 <= e + j <= 971 ->
  SF64mul (S754_finite false m e) (S754_finite false 4503599627370496 (j - 52))
  = S754_finite false m (e + j).
Proof.
  intros Hd He.
  unfold SF64mul, SFmul. rewrite Pos.mul_comm. cbn [xorb].
  let t := eval cbv beta iota delta [Pos.mul] in (4503599627370496 * m)%positive in
  change (4503599627370496 * m)%positive with t.
  assert (Hd' : digits2_pos m = 53%positive) by (injection Hd; auto).
  unfold binary_round_aux, shr_fexp, fexp, SpecFloat.emin.
  cbn [Zdigits2 digits2_pos]. rewrite Hd'.
  match goal with
  | |- context [Z.pos ?p + (e + (j - 52)) - prec] =>
      let v := eval cbv in p in change p with v
  end.
  change prec with 53. change emax with 1024.
  replace (Z.max (105 + (e + (j - 52)) - 53) (3 - 1024 - 53) - (e + (j - 52))) with 52 by lia.
  cbn [shr shr_record_of_loc SpecFloat.iter_pos shr_1 orb shr_m loc_of_shr_record round_nearest_even
       Zdigits2].
  rewrite Hd'.
  replace (Z.max (53 + (e + (j - 52) + 52) - 53) (3 - 1024 - 53) - (e + (j - 52) + 52))
    with 0 by lia.
  cbn [shr shr_record_of_loc shr_m].
  replace (e + (j - 52) + 52) with (e + j) by lia.
  destruct (Z.leb_spec (e + j) (1024 - 53)); [reflexivity|lia].
Qed.

Lemma power_of_1024_SF (k : Z) :
  0 <= k <= 5 ->
  Prim2SF (float_of_Z (1024 ^ k)) = S754_finite false 4503599627370496 (10 * k - 52).
Proof.
  intros Hk.
  assert (H : k = 0 \/ k = 1 \/ k = 2 \/ k = 3 \/ k = 4 \/ k = 5) by lia.
  destruct H as [->|[->|[->|[->|[->| ->]]]]]; vm_compute; reflexivity.
Qed.

Lemma int_of_float_scaled (n k : Z) :
  0 <= n < 2 ^ 53 -> 0 <= k <= 5 -> n * 1024 ^ k < 2 ^ 63 ->
  int_of_float (PrimFloat.mul (float_of_Z n) (float_of_Z (1024 ^ k))) = n * 1024 ^ k.
Proof.
  intros Hn Hk Hfit. destruct (Z.eq_dec n 0) as [->|Hne].
  { unfold int_of_float. rewrite FloatAxioms.mul_spec, power_of_1024_SF by exact Hk.
    reflexivity. }
  destruct (nat_float_SF n) as (m & e & Hsf & Hd & He & Hm); [lia|].
  unfold int_of_float.
  rewrite FloatAxioms.mul_spec, Hsf, power_of_1024_SF, mul_pow2_SF by lia.
  assert (H1024 : 1024 ^ k = 2 ^ (10 * k)).
  { change 1024 with (2 ^ 10). rewrite <- Z.pow_mul_r by lia. reflexivity. }
  assert (Hv : (if 0 <=? e + 10 * k then Z.pos m * 2 ^ (e + 10 * k)
                else Z.pos m / 2 ^ (- (e + 10 * k))) = n * 1024 ^ k).
  { rewrite Hm, H1024. destruct (Z.leb_spec 0 (e + 10 * k)).
    - rewrite <- Z.mul_assoc, <- Z.pow_add_r by lia. f_equal. f_equal. lia.
    - replace (- e) with (10 * k + - (e + 10 * k)) by lia.
      rewrite Z.pow_add_r, Z.mul_assoc by lia.
      apply Z.div_mul. apply Z.pow_nonzero; lia. }
  cbv zeta. rewrite Hv.
  assert (0 <= n * 1024 ^ k) by (apply Z.mul_nonneg_nonneg; [lia|apply Z.pow_nonneg; lia]).
  destruct (Z.leb_spec (- 2 ^ 63) (n * 1024 ^ k)), (Z.ltb_spec (n * 1024 ^ k) (2 ^ 63));
    simpl; lia.
Qed.

End FloatFacts.

(** *** Texts made of digits *)

Lemma isDigit_not_space c : Text.isDigit c = true -> Ascii.eqb c " " = false.
Proof.
  destruct c as [[] [] [] [] [] [] [] []]; intros H;
    first [reflexivity | vm_compute in H; discriminate H].
Qed.

Lemma string_app_nil_r (s : string) : String.append s "" = s.
Proof.
  induction s as [|c s IH]; [reflexivity|].
  change (String c (String.append s "") = String c s). now rewrite IH.
Qed.

Lemma digitsValue_takeDigits s acc n :
  Text.digitsValue s acc = Some n -> Text.takeDigits s = (s, "").
Proof.
  revert acc. induction s as [|c s IH]; intros acc H; [reflexivity|].
  simpl in *. destruct (Text.isDigit c); [|discriminate].
  now rewrite (IH _ H).
Qed.

Lemma digitsValue_removeSpaces s acc n :
  Text.digitsValue s acc = Some n -> Text.removeSpaces s = s.
Proof.
  revert acc. induction s as [|c s IH]; intros acc H; [reflexivity|].
  simpl in *. destruct (Text.isDigit c) eqn:Hc; [|discriminate].
  now rewrite (isDigit_not_space c Hc), (IH _ H).
Qed.

Lemma digitsValue_nonneg s acc n :
  Text.digitsValue s acc = Some n -> (0 <= acc)%Z -> (0 <= n)%Z.
Proof.
  revert acc. induction s as [|c s IH]; intros acc H Hacc; simpl in H.
  - injection H as <-. exact Hacc.
  - destruct (Text.isDigit c) eqn:Hc; [|discriminate].
    apply (IH _ H). unfold Text.isDigit in Hc.
    apply andb_true_iff in Hc as [Hlo _]. apply Nat.leb_le in Hlo. lia.
Qed.

Lemma sizeMatch_digits s n :
  s <> "" -> Text.digitsValue s 0 = Some n -> Text.sizeMatch s = Some (s, "").
Proof.
  intros Hs H. unfold Text.sizeMatch. rewrite (digitsValue_takeDigits s 0 n H).
  destruct s; [contradiction|reflexivity].
Qed.

(** On a text of digits whose value is below 2^53, ParseFloat returns
    that value, converted exactly. *)
Lemma decimalParseFloat_digits s n :
  s <> "" -> Text.digitsValue s 0 = Some n -> (n < 2 ^ 53)%Z ->
  Text.decimalParseFloat s = (float_of_Z n, true).
Proof.
  intros Hs H Hn. unfold Text.decimalParseFloat.
  rewrite (digitsValue_takeDigits s 0 n H). cbv beta iota zeta.
  rewrite string_app_nil_r. destruct s as [|c s]; [contradiction|].
  rewrite H. change (Z.of_nat (String.length "")) with 0%Z.
  apply Z.ltb_lt in Hn. rewrite Hn. reflexivity.
Qed.

(** *** The unit *)

Lemma sizeMatch_unit s number unit :
  Text.sizeMatch s = Some (number, unit) ->
  unit = ""
  \/ (exists c, unit = String c "" /\ Text.isScale c || Text.isB c = true)
  \/ (exists c d, unit = String c (String d "")
                  /\ Text.isScale c = true /\ Text.isB d = true).
Proof.
  unfold Text.sizeMatch. destruct (Text.takeDigits s) as [whole r].
  destruct whole as [|w0 whole]; [discriminate|].
  match goal with |- context [let '(_, _) := ?X in _] => destruct X as [n u] end.
  destruct u as [|c [|d [|e u]]]; intros H.
  - injection H as _ <-. now left.
  - destruct (Text.isScale c || Text.isB c) eqn:E; [|discriminate].
    injection H as _ <-. right. left. now exists c.
  - destruct (Text.isScale c && Text.isB d) eqn:E; [|discriminate].
    apply andb_true_iff in E as [Hc Hd].
    injection H as _ <-. right. right. now exists c, d.
  - discriminate.
Qed.

Lemma isScale_cases c :
  Text.isScale c = true ->
  In c (list_ascii_of_string "KkMmGgTtPp").
Proof.
  unfold Text.isScale. intros H. apply existsb_exists in H as (x & Hin & Hx).
  apply Ascii.eqb_eq in Hx. now subst.
Qed.

Lemma isB_cases c : Text.isB c = true -> c = "B"%char \/ c = "b"%char.
Proof.
  unfold Text.isB. intros H. apply orb_true_iff in H as [H|H];
    apply Ascii.eqb_eq in H; auto.
Qed.

Lemma unitPower_range unit : (0 <= Progress.unitPower unit <= 5)%Z.
Proof.
  unfold Progress.unitPower. destruct unit as [|c u]; [lia|].
  cbv zeta. repeat match goal with |- context [Ascii.eqb ?a ?b] => destruct (Ascii.eqb a b) end;
    lia.
Qed.

(** The switch of parseFileSize against the table of the specification:
    on every unit that the pattern lets through, the factor is 1024 to
    the power that the table gives for the unit. *)
Lemma accepted_unit_factor s number unit :
  Text.sizeMatch s = Some (number, unit) ->
  Progress.multiplier (Progress.unitOf unit) = float_of_Z (1024 ^ Progress.unitPower unit).
Proof.
  intros H. apply sizeMatch_unit in H as [->|[(c & -> & Hc)|(c & d & -> & Hc & Hd)]].
  - vm_compute; reflexivity.
  - apply orb_true_iff in Hc as [Hc|Hc].
    + apply isScale_cases in Hc. simpl in Hc.
      repeat (destruct Hc as [<-|Hc]; [vm_compute; reflexivity|]). contradiction.
    + apply isB_cases in Hc as [->| ->]; vm_compute; reflexivity.
  - apply isScale_cases in Hc. simpl in Hc.
    apply isB_cases in Hd as [->| ->];
      repeat (destruct Hc as [<-|Hc]; [vm_compute; reflexivity|]); contradiction.
Qed.

Lemma parseFileSize_formula (ParseFloat : string -> float * bool) s number unit x :
  Text.sizeMatch (Text.removeSpaces s) = Some (number, unit) ->
  ParseFloat number = (x, true) ->
  Progress.parseFileSize ParseFloat s
  = (int_of_float (PrimFloat.mul x (float_of_Z (1024 ^ Progress.unitPower unit))), None).
Proof.
  intros Hm Hx. unfold Progress.parseFileSize. rewrite Hm, Hx.
  now rewrite (accepted_unit_factor _ _ _ Hm).
Qed.

Lemma sizeMatch_number s number unit :
  Text.sizeMatch s = Some (number, unit) -> number <> "".
Proof.
  unfold Text.sizeMatch. destruct (Text.takeDigits s) as [whole r].
  destruct whole as [|w0 whole]; [discriminate|].
  assert (G : forall x : string * string,
             (let '(number0, unit0) := x in
              match unit0 with
              | "" => Some (number0, unit0)
              | String c "" =>
                  if Text.isScale c || Text.isB c then Some (number0, unit0) else None
              | String c (String d "") =>
                  if Text.isScale c && Text.isB d then Some (number0, unit0) else None
              | _ => None
              end) = Some (number, unit) -> fst x = number).
  { intros [n u]. destruct u as [|c [|d [|e u]]]; simpl; intros H.
    - now injection H.
    - destruct (Text.isScale c || Text.isB c); [now injection H|discriminate].
    - destruct (Text.isScale c && Text.isB d); [now injection H|discriminate].
    - discriminate. }
  intros H. apply G in H. subst number.
  destruct r as [|c r]; [discriminate|].
  destruct (Ascii.eqb c ".") eqn:Hc.
  - apply Ascii.eqb_eq in Hc. subst c. destruct (Text.takeDigits r) as [frac r2].
    destruct frac; discriminate.
  - destruct c as [[] [] [] [] [] [] [] []]; first [discriminate Hc | discriminate].
Qed.

Lemma parseFileSize_whole_number s number unit n :
  Text.sizeMatch (Text.removeSpaces s) = Some (number, unit) ->
  Text.digitsValue number 0 = Some n ->
  (n < 2 ^ 53)%Z -> (n * 1024 ^ Progress.unitPower unit < 2 ^ 63)%Z ->
  Progress.parseFileSize Text.decimalParseFloat s
  = ((n * 1024 ^ Progress.unitPower unit)%Z, None).
Proof.
  intros Hm Hd Hn Hfit.
  rewrite (parseFileSize_formula Text.decimalParseFloat s number unit (float_of_Z n) Hm).
  - f_equal. apply int_of_float_scaled; [|apply unitPower_range|exact Hfit].
    split; [|exact Hn]. apply (digitsValue_nonneg number 0 n Hd). lia.
  - apply decimalParseFloat_digits; [|exact Hd|exact Hn].
    exact (sizeMatch_number _ _ _ Hm).
Qed.

Lemma parseFileSize_bare_number s n :
  s <> "" -> Text.digitsValue s 0 = Some n -> (n < 2 ^ 53)%Z ->
  Progress.parseFileSize Text.decimalParseFloat s = (n, None).
Proof.
  intros Hs Hd Hn.
  rewrite (parseFileSize_whole_number s s "" n).
  - change (Progress.unitPower "") with 0%Z. now rewrite Z.pow_0_r, Z.mul_1_r.
  - rewrite (digitsValue_removeSpaces s 0 n Hd). exact (sizeMatch_digits s n Hs Hd).
  - exact Hd.
  - exact Hn.
  - change (Progress.unitPower "") with 0%Z. rewrite Z.pow_0_r, Z.mul_1_r. lia.
Qed.

(** C6, as the code has it. parseFileSize maps "512 KB" to 524288 and
    "1.5 GB" to 1610612736; the units K, M, G, T and P, in either case
    and with or without the final B, stand for the first to the fifth
    power of 1024, and the result is the product of the parsed number
    and that power, computed in float64 and converted to int64. A whole
    number below 2^53, bare or with a unit, whose product with the power
    fits in 63 bits gives exactly that product; a bare number below 2^53
    gives that many bytes. *)
Theorem parseFileSize_units :
  (forall (ParseFloat : string -> float * bool) (s number unit : string) (x : float),
      Text.sizeMatch (Text.removeSpaces s) = Some (number, unit) ->
      ParseFloat number = (x, true) ->
      Progress.parseFileSize ParseFloat s
      = (int_of_float (PrimFloat.mul x (float_of_Z (1024 ^ Progress.unitPower unit))), None))
  /\ (forall (s number unit : string) (n : Z),
         Text.sizeMatch (Text.removeSpaces s) = Some (number, unit) ->
         Text.digitsValue number 0 = Some n ->
         (n < 2 ^ 53)%Z -> (n * 1024 ^ Progress.unitPower unit < 2 ^ 63)%Z ->
         Progress.parseFileSize Text.decimalParseFloat s
         = ((n * 1024 ^ Progress.unitPower unit)%Z, None))
  /\ (forall (s : string) (n : Z),
         s <> "" -> Text.digitsValue s 0 = Some n -> (n < 2 ^ 53)%Z ->
         Progress.parseFileSize Text.decimalParseFloat s = (n, None))
  /\ map Progress.unitPower
       [""; "B"; "b"; "KB"; "kB"; "K"; "MB"; "m"; "GB"; "g"; "TB"; "t"; "PB"; "p"]
     = [0; 0; 0; 1; 1; 1; 2; 2; 3; 3; 4; 4; 5; 5]%Z
  /\ Progress.parseFileSize Text.decimalParseFloat "512 KB" = (524288%Z, None)
  /\ Progress.parseFileSize Text.decimalParseFloat "1.5 GB" = (1610612736%Z, None)
  /\ Progress.parseFileSize Text.decimalParseFloat "0" = (0%Z, None)
  /\ Progress.parseFileSize Text.decimalParseFloat "12.3 MB" = (12897484%Z, None)
  /\ Progress.parseFileSize Text.decimalParseFloat "2.5k" = (2560%Z, None).
Proof.
  split; [exact parseFileSize_formula|].
  split; [exact parseFileSize_whole_number|].
  split; [exact parseFileSize_bare_number|].
  split; [reflexivity|].
  split; [vm_compute; reflexivity|].
  split; [vm_compute; reflexivity|].
  split; [vm_compute; reflexivity|].
  split; vm_compute; reflexivity.
Qed.

Lemma parseFileSize_units_witness :
  Progress.parseFileSize Text.decimalParseFloat "3 MB" = (3145728%Z, None)
  /\ Progress.parseFileSize Text.decimalParseFloat "1234" = (1234%Z, None).
Proof.
  split.
  - exact (proj1 (proj2 parseFileSize_units) "3 MB" "3" "MB" 3%Z
             eq_refl eq_refl eq_refl eq_refl).
  - refine (proj1 (proj2 (proj2 parseFileSize_units)) "1234" 1234%Z _ eq_refl eq_refl).
    discriminate.
Defined.

(** C6 fails as stated for a bare number that float64 cannot hold: the
    text of 2^53 + 1 gives 2^53 bytes. *)
Lemma bare_number_beyond_float_precision :
  Text.sizeMatch "9007199254740993" = Some ("9007199254740993", "")
  /\ Text.digitsValue "9007199254740993" 0 = Some 9007199254740993%Z
  /\ Progress.parseFileSize Text.decimalParseFloat "9007199254740993"
     = (9007199254740992%Z, None)
  /\ fst (Progress.parseFileSize Text.decimalParseFloat "9007199254740993")
     <> 9007199254740993%Z.
Proof.
  split; [reflexivity|]. split; [reflexivity|].
  assert (H : Progress.parseFileSize Text.decimalParseFloat "9007199254740993"
              = (9007199254740992%Z, None)) by (vm_compute; reflexivity).
  split; [exact H|]. rewrite H. discriminate.
Qed.

(** ** The first record of a list that matches *)

Section FirstMatchFacts.

Context {A : Type}.
Implicit Types (P : A -> bool) (l k : list A).

Lemma firstMatch_app_l P l k i x :
  firstMatch P l = Some (i, x) -> firstMatch P (l ++ k) = Some (i, x).
Proof.
  rewrite !firstMatch_Some. intros (Hi & Px & Hfirst). split; [|split; [exact Px|]].
  - now apply lookup_app_l_Some.
  - intros j y Hj Hji. apply (Hfirst j y); [|exact Hji].
    rewrite lookup_app_l in Hj; [exact Hj|]. apply lookup_lt_Some in Hi. lia.
Qed.

Lemma firstMatch_snoc_fresh P l x :
  existsb P l = false -> P x = true -> firstMatch P (l ++ [x]) = Some (length l, x).
Proof.
  intros Hex Px. apply firstMatch_Some. split; [|split; [exact Px|]].
  - rewrite lookup_app_r by lia. now rewrite Nat.sub_diag.
  - intros j y Hj Hjl. rewrite lookup_app_l in Hj by exact Hjl.
    now apply (existsb_false_lookup P l j y).
Qed.

Lemma firstMatch_insert P l i x y :
  firstMatch P l = Some (i, x) -> P y = true ->
  firstMatch P (<[i := y]> l) = Some (i, y).
Proof.
  rewrite !firstMatch_Some. intros (Hi & Px & Hfirst) Py. split; [|split; [exact Py|]].
  - apply list_lookup_insert_eq. now apply lookup_lt_Some in Hi.
  - intros j z Hj Hji. rewrite list_lookup_insert_ne in Hj by lia. now apply (Hfirst j z).
Qed.

Lemma firstMatch_exists P l j y :
  l !! j = Some y -> P y = true -> exists i x, firstMatch P l = Some (i, x).
Proof.
  intros Hj Py. destruct (firstMatch P l) as [[i x]|] eqn:Hf; [eauto|].
  unfold firstMatch in Hf. apply list_find_None in Hf.
  rewrite Forall_forall in Hf. exfalso. apply (Hf y); [|exact Py].
  apply list_elem_of_lookup. eauto.
Qed.

Lemma firstMatch_weaken P (Q : A -> bool) l i x :
  firstMatch P l = Some (i, x) -> Q x = true ->
  firstMatch (fun t => P t && Q t) l = Some (i, x).
Proof.
  rewrite !firstMatch_Some. intros (Hi & Px & Hfirst) Qx.
  split; [exact Hi|]. split; [now rewrite Px, Qx|].
  intros j y Hj Hji. now rewrite (Hfirst j y Hj Hji).
Qed.

Lemma existsb_insert_active P l i x y :
  l !! i = Some x -> P y = true -> existsb P (<[i := y]> l) = true.
Proof.
  intros Hi Py. apply existsb_exists. exists y. split; [|exact Py].
  apply list_elem_of_In, list_elem_of_lookup. exists i.
  apply list_lookup_insert_eq. now apply lookup_lt_Some in Hi.
Qed.

End FirstMatchFacts.

(** ** Which waiting task is started *)

Section EarliestFacts.

Context {A : Type} (key : A -> option Z).

Lemma earliestBy_spec (l : list A) (best : option (A * Z)) :
  match earliestBy key l best with
  | None => best = None /\ forall j t', l !! j = Some t' -> key t' = None
  | Some (t, k) =>
      (best = Some (t, k)
       /\ forall j t' k', l !! j = Some t' -> key t' = Some k' -> (k <= k')%Z)
      \/ (exists i, isEarliest key l i t k
                    /\ forall b bk, best = Some (b, bk) -> (k < bk)%Z)
  end.
Proof.
  revert best. induction l as [|t0 rest IH]; intros best; simpl.
  - destruct best as [[b bk]|].
    + left. split; [reflexivity|]. intros j t' k' Hj. rewrite lookup_nil in Hj. discriminate.
    + split; [reflexivity|]. intros j t' Hj. rewrite lookup_nil in Hj. discriminate.
  - destruct (key t0) as [k0|] eqn:Hk0.
    + (* the record takes part in the search *)
      assert (Hnew : match earliestBy key rest (Some (t0, k0)) with
                     | None => False
                     | Some (t, k) =>
                         exists i, isEarliest key (t0 :: rest) i t k /\ (k <= k0)%Z
                     end).
      { specialize (IH (Some (t0, k0))).
        destruct (earliestBy key rest (Some (t0, k0))) as [[t k]|].
        - destruct IH as [[Heq Hall]|(i & (Hi & Hk & Hmin) & Hlt)].
          + injection Heq as <- <-. exists 0%nat. split; [|lia].
            split; [reflexivity|]. split; [exact Hk0|].
            intros [|j] t' k' Hj Hk'; simpl in Hj.
            * injection Hj as <-. rewrite Hk0 in Hk'. injection Hk' as <-. split; lia.
            * split; [eapply Hall; eauto|lia].
          + specialize (Hlt t0 k0 eq_refl). exists (S i). split; [|lia].
            split; [exact Hi|]. split; [exact Hk|].
            intros [|j] t' k' Hj Hk'; simpl in Hj.
            * injection Hj as <-. rewrite Hk0 in Hk'. injection Hk' as <-. split; lia.
            * destruct (Hmin j t' k' Hj Hk') as [Hle Hlt']. split; [exact Hle|].
              intros Hji. apply Hlt'. lia.
        - destruct IH as [IH _]. discriminate. }
      destruct best as [[b bk]|].
      * destruct (Z.ltb_spec k0 bk) as [Hlt|Hge].
        -- destruct (earliestBy key rest (Some (t0, k0))) as [[t k]|]; [|contradiction].
           destruct Hnew as (i & Hi & Hle). right. exists i. split; [exact Hi|].
           intros b' bk' Hb. injection Hb as <- <-. lia.
        -- specialize (IH (Some (b, bk))).
           destruct (earliestBy key rest (Some (b, bk))) as [[t k]|].
           ++ destruct IH as [[Heq Hall]|(i & (Hi & Hk & Hmin) & Hlt)].
              ** left. split; [exact Heq|]. injection Heq as <- <-.
                 intros [|j] t' k' Hj Hk'; simpl in Hj.
                 --- injection Hj as <-. rewrite Hk0 in Hk'. injection Hk' as <-. lia.
                 --- eapply Hall; eauto.
              ** right. exists (S i). specialize (Hlt b bk eq_refl). split.
                 --- split; [exact Hi|]. split; [exact Hk|].
                     intros [|j] t' k' Hj Hk'; simpl in Hj.
                     +++ injection Hj as <-. rewrite Hk0 in Hk'. injection Hk' as <-.
                         split; lia.
                     +++ destruct (Hmin j t' k' Hj Hk') as [Hle Hlt']. split; [exact Hle|].
                         intros Hji. apply Hlt'. lia.
                 --- intros b' bk' Hb. injection Hb as <- <-. exact Hlt.
           ++ destruct IH as [IH _]. discriminate.
      * destruct (earliestBy key rest (Some (t0, k0))) as [[t k]|]; [|contradiction].
        destruct Hnew as (i & Hi & _). right. exists i. split; [exact Hi|].
        intros b bk Hb. discriminate.
    + (* the record is skipped *)
      specialize (IH best). destruct (earliestBy key rest best) as [[t k]|].
      * destruct IH as [[Heq Hall]|(i & (Hi & Hk & Hmin) & Hlt)].
        -- left. split; [exact Heq|].
           intros [|j] t' k' Hj Hk'; simpl in Hj.
           ++ injection Hj as <-. congruence.
           ++ eapply Hall; eauto.
        -- right. exists (S i). split; [|exact Hlt].
           split; [exact Hi|]. split; [exact Hk|].
           intros [|j] t' k' Hj Hk'; simpl in Hj.
           ++ injection Hj as <-. congruence.
           ++ destruct (Hmin j t' k' Hj Hk') as [Hle Hlt']. split; [exact Hle|].
              intros Hji. apply Hlt'. lia.
      * destruct IH as [Hb Hall]. split; [exact Hb|].
        intros [|j] t' Hj; simpl in Hj.
        -- injection Hj as <-. exact Hk0.
        -- eapply Hall; eauto.
Qed.

Lemma earliestBy_first (l : list A) t k :
  earliestBy key l None = Some (t, k) -> exists i, isEarliest key l i t k.
Proof.
  intros H. pose proof (earliestBy_spec l None) as Hs. rewrite H in Hs.
  destruct Hs as [[Hb _]|(i & Hi & _)]; [discriminate|]. eauto.
Qed.

(** One position at most is the earliest. *)
Lemma isEarliest_unique (l : list A) i t k i' t' k' :
  isEarliest key l i t k -> isEarliest key l i' t' k' -> i = i' /\ t = t' /\ k = k'.
Proof.
  intros (Hi & Hk & Hmin) (Hi' & Hk' & Hmin').
  destruct (Hmin i' t' k' Hi' Hk') as [Hle Hlt].
  destruct (Hmin' i t k Hi Hk) as [Hle' Hlt'].
  assert (Heq : i = i').
  { destruct (Nat.lt_trichotomy i i') as [H|[H|H]];
      [specialize (Hlt' H); lia|exact H|specialize (Hlt H); lia]. }
  subst i'. rewrite Hi in Hi'. injection Hi' as <-.
  split; [reflexivity|]. split; [reflexivity|lia].
Qed.

(** The search returns the earliest record whenever there is one. *)
Lemma earliestBy_complete (l : list A) i t k :
  isEarliest key l i t k -> earliestBy key l None = Some (t, k).
Proof.
  intros H. pose proof (earliestBy_spec l None) as Hs.
  destruct (earliestBy key l None) as [[t' k']|].
  - destruct Hs as [[Hb _]|(i' & Hi' & _)]; [discriminate|].
    destruct (isEarliest_unique l i t k i' t' k' H Hi') as (_ & -> & ->). reflexivity.
  - destruct Hs as [_ Hnone]. destruct H as (Hi & Hk & _).
    rewrite (Hnone i t Hi) in Hk. discriminate.
Qed.

Lemma earliestBy_none (l : list A) :
  (forall j y, l !! j = Some y -> key y = None) -> earliestBy key l None = None.
Proof.
  intros Hnone. pose proof (earliestBy_spec l None) as Hs.
  destruct (earliestBy key l None) as [[t k]|]; [|reflexivity].
  destruct Hs as [[Hb _]|(i & (Hi & Hk & _) & _)]; [discriminate|].
  rewrite (Hnone i t Hi) in Hk. discriminate.
Qed.

End EarliestFacts.

Lemma firstMatch_before {A} (P : A -> bool) (l : list A) i t :
  l !! i = Some t -> P t = true ->
  exists i' x,
    firstMatch P l = Some (i', x) /\ (i' <= i)%nat
    /\ ((forall j y, l !! j = Some y -> (j < i)%nat -> P y = false) -> i' = i /\ x = t).
Proof.
  intros Hi Pt. destruct (firstMatch_exists P l i t Hi Pt) as (i' & x & Hf).
  exists i', x. split; [exact Hf|].
  apply firstMatch_Some in Hf as (Hi' & Px & Hfirst).
  assert (Hle : (i' <= i)%nat).
  { destruct (Nat.le_gt_cases i' i) as [H|H]; [exact H|].
    rewrite (Hfirst i t Hi H) in Pt. discriminate. }
  split; [exact Hle|]. intros Hbefore.
  assert (Heq : i' = i).
  { destruct (Nat.eq_dec i' i) as [H|H]; [exact H|].
    assert (Hlt : (i' < i)%nat) by lia.
    rewrite (Hbefore i' x Hi' Hlt) in Px. discriminate. }
  subst i'. rewrite Hi in Hi'. injection Hi' as <-. split; reflexivity.
Qed.

Lemma transcode_earliestLoop_by l best :
  Transcode.earliestLoop l best
  = fst <$> earliestBy transcodeStart l ((fun b => (b, Transcode.StartTime b)) <$> best).
Proof.
  revert best. induction l as [|t rest IH]; intros best; simpl.
  - destruct best; reflexivity.
  - unfold transcodeStart at 1. destruct (Transcode.waiting t).
    + destruct best as [b|]; simpl.
      * destruct (Transcode.StartTime t <? Transcode.StartTime b)%Z.
        -- apply (IH (Some t)).
        -- apply (IH (Some b)).
      * apply (IH (Some t)).
    + apply IH.
Qed.

Lemma download_earliestLoop_by parseTime l best :
  Download.earliestLoop parseTime l best = earliestBy (downloadStart parseTime) l best.
Proof.
  revert best. induction l as [|t rest IH]; intros best; simpl.
  - reflexivity.
  - unfold downloadStart at 1. destruct (Download.waiting t); [|apply IH].
    destruct (Download.mustString "startTime" t) as [startTimeStr|]; [|apply IH].
    destruct (parseTime startTimeStr) as [startTime|]; [|apply IH].
    destruct best as [[b bk]|]; [|apply IH].
    destruct (startTime <? bk)%Z; apply IH.
Qed.

Lemma transcode_earliestWaiting_first l t :
  Transcode.earliestWaiting l = Some t ->
  exists i, isEarliest transcodeStart l i t (Transcode.StartTime t).
Proof.
  unfold Transcode.earliestWaiting. rewrite transcode_earliestLoop_by. simpl.
  destruct (earliestBy transcodeStart l None) as [[t0 k]|] eqn:He; [|discriminate].
  simpl. intros H. injection H as ->.
  destruct (earliestBy_first _ _ _ _ He) as [i Hi]. exists i.
  assert (Hk : k = Transcode.StartTime t).
  { destruct Hi as (_ & Hk & _). unfold transcodeStart in Hk.
    destruct (Transcode.waiting t); congruence. }
  now subst k.
Qed.

Lemma startNextTranscodeTask_first l i t w log launch now :
  firstMatch Transcode.waiting l = Some (i, t) ->
  existsb Transcode.transcoding l = false ->
  Transcode.TaskID t <> "" ->
  Transcode.startNextTranscodeTask launch now (mkFs (Stored l) w log)
  = Transcode.startTranscode (Transcode.TaskID t) launch now (mkFs (Stored l) w log).
Proof.
  intros Hf Hex Hid. unfold Transcode.startNextTranscodeTask.
  unfold bind at 1. unfold readStore. simpl.
  rewrite Hex, find_firstMatch, Hf. simpl.
  destruct (String.eqb_spec (Transcode.TaskID t) ""); [contradiction|reflexivity].
Qed.

Lemma startNextWaitingTask_first l i t taskId magnetLink dir w log launch :
  firstMatch Download.waiting l = Some (i, t) ->
  existsb Download.downloading l = false ->
  Download.mustString "taskId" t = Some taskId ->
  Download.mustString "magnetLink" t = Some magnetLink ->
  Download.mustString "outputDir" t = Some dir ->
  Download.startNextWaitingTask launch (mkFs (Stored l) w log)
  = Download.startDownload taskId launch (mkFs (Stored l) w log).
Proof.
  intros Hf Hex Hid Hm Hd. unfold Download.startNextWaitingTask.
  unfold bind at 1. unfold readStore. simpl.
  now rewrite Hex, find_firstMatch, Hf; simpl; rewrite Hid, Hm, Hd.
Qed.

Lemma transcode_earliestWaiting_complete l i t :
  isEarliest transcodeStart l i t (Transcode.StartTime t) ->
  Transcode.earliestWaiting l = Some t.
Proof.
  intros H. unfold Transcode.earliestWaiting. rewrite transcode_earliestLoop_by. simpl.
  now rewrite (earliestBy_complete transcodeStart l i t _ H).
Qed.

Lemma download_earliestWaiting_complete parseTime l i t k :
  isEarliest (downloadStart parseTime) l i t k ->
  Download.earliestWaiting parseTime l = Some (t, k).
Proof.
  intros H. unfold Download.earliestWaiting. rewrite download_earliestLoop_by.
  exact (earliestBy_complete _ l i t k H).
Qed.

Lemma mustString_idIs t taskId :
  Download.mustString "taskId" t = Some taskId -> Download.idIs t taskId = true.
Proof.
  unfold Download.mustString, Download.idIs, Download.fieldIs.
  destruct (t !! "taskId") as [[| | |s| |]|]; try discriminate.
  intros H. injection H as ->. apply String.eqb_refl.
Qed.

(** The transcode half of startup on a file that holds a list and can
    be written, when ffmpeg can be launched: the task marked
    "transcoding" is the first of the demoted list with the id of the
    earliest waiting task. *)
Lemma startupTranscodes_starts now pid l log i t :
  let demoted :=
    map (fun x => if Transcode.transcoding x then Transcode.backToWaiting now x else x) l in
  isEarliest transcodeStart demoted i t (Transcode.StartTime t) ->
  exists i' x,
    firstMatch (fun q => Transcode.idIs q (Transcode.TaskID t)) demoted = Some (i', x)
    /\ (i' <= i)%nat
    /\ ((forall j y, demoted !! j = Some y -> (j < i)%nat ->
           Transcode.idIs y (Transcode.TaskID t) = false) -> i' = i /\ x = t)
    /\ Transcode.startupTranscodes now (Some pid) (mkFs (Stored l) true log)
       = (tt, let started := <[i' := Transcode.markTranscoding pid now x]> demoted in
              mkFs (Stored started) true
                (log ++ (if existsb Transcode.transcoding l then [demoted] else [])
                     ++ [started])).
Proof.
  intros demoted He. pose proof He as (Hi & _ & _).
  destruct (firstMatch_before (fun q => Transcode.idIs q (Transcode.TaskID t)) demoted i t Hi)
    as (i' & x & Hf & Hle & Huniq).
  { unfold Transcode.idIs. apply String.eqb_refl. }
  exists i', x. split; [exact Hf|]. split; [exact Hle|]. split; [exact Huniq|].
  pose proof (transcode_earliestWaiting_complete demoted i t He) as Ht.
  unfold Transcode.startupTranscodes, Transcode.recoverTranscodes. run_fs.
  rewrite transcode_demoteLoop_spec. fold demoted.
  destruct (existsb Transcode.transcoding l) eqn:Hact; simpl.
  - rewrite Ht. unfold Transcode.startTranscode. run_fs. rewrite Hf. simpl.
    now rewrite <- app_assoc.
  - assert (Hd : demoted = l) by (now apply map_unless_active).
    rewrite Ht. clearbody demoted. subst demoted.
    unfold Transcode.startTranscode. run_fs. now rewrite Hf.
Qed.

Lemma startupTranscodes_nothing_waiting now launch l log :
  let demoted :=
    map (fun x => if Transcode.transcoding x then Transcode.backToWaiting now x else x) l in
  existsb Transcode.waiting demoted = false ->
  Transcode.startupTranscodes now launch (mkFs (Stored l) true log)
  = (tt, snd (Transcode.recoverTranscodes now (mkFs (Stored l) true log))).
Proof.
  intros demoted Hex.
  assert (Hnone : Transcode.earliestWaiting demoted = None).
  { unfold Transcode.earliestWaiting. rewrite transcode_earliestLoop_by. simpl.
    rewrite earliestBy_none; [reflexivity|].
    intros j y Hj. unfold transcodeStart.
    now rewrite (existsb_false_lookup Transcode.waiting demoted j y Hex Hj). }
  unfold Transcode.startupTranscodes, Transcode.recoverTranscodes. run_fs.
  rewrite transcode_demoteLoop_spec. fold demoted.
  destruct (existsb Transcode.transcoding l); simpl; now rewrite Hnone.
Qed.

(** The download half of startup, in the same way. *)
Lemma startupDownloads_starts parseTime nowText pid l log i t k taskId magnetLink dir :
  let demoted :=
    map (fun x => if Download.downloading x then Download.backToWaiting nowText x else x) l in
  isEarliest (downloadStart parseTime) demoted i t k ->
  Download.mustString "taskId" t = Some taskId ->
  Download.mustString "magnetLink" t = Some magnetLink ->
  Download.mustString "outputDir" t = Some dir ->
  exists i' x,
    firstMatch (fun q => Download.idIs q taskId) demoted = Some (i', x)
    /\ (i' <= i)%nat
    /\ ((forall j y, demoted !! j = Some y -> (j < i)%nat ->
           Download.idIs y taskId = false) -> i' = i /\ x = t)
    /\ Download.startupDownloads parseTime nowText (Some pid) (mkFs (Stored l) true log)
       = (true, let started := <[i' := Download.markDownloading pid x]> demoted in
                mkFs (Stored started) true
                  (log ++ (if existsb Download.downloading l then [demoted] else [])
                       ++ [started])).
Proof.
  intros demoted He Hid Hm Hdir. pose proof He as (Hi & _ & _).
  destruct (firstMatch_before (fun q => Download.idIs q taskId) demoted i t Hi
              (mustString_idIs t taskId Hid)) as (i' & x & Hf & Hle & Huniq).
  exists i', x. split; [exact Hf|]. split; [exact Hle|]. split; [exact Huniq|].
  pose proof (download_earliestWaiting_complete parseTime demoted i t k He) as Ht.
  unfold Download.startupDownloads, Download.recoverDownloads. run_fs.
  rewrite download_demoteLoop_spec. fold demoted.
  destruct (existsb Download.downloading l) eqn:Hact; simpl.
  - rewrite Ht, Hid, Hm, Hdir. unfold Download.startDownload, updateFirst. run_fs.
    rewrite Hf. simpl. now rewrite <- app_assoc.
  - assert (Hd : demoted = l) by (now apply map_unless_active).
    rewrite Ht, Hid, Hm, Hdir. clearbody demoted. subst demoted.
    unfold Download.startDownload, updateFirst. run_fs. now rewrite Hf.
Qed.

Lemma startupDownloads_nothing_waiting parseTime nowText launch l log :
  let demoted :=
    map (fun x => if Download.downloading x then Download.backToWaiting nowText x else x) l in
  (forall j y, demoted !! j = Some y -> downloadStart parseTime y = None) ->
  Download.startupDownloads parseTime nowText launch (mkFs (Stored l) true log)
  = (true, snd (Download.recoverDownloads nowText (mkFs (Stored l) true log))).
Proof.
  intros demoted Hkeys.
  assert (Hnone : Download.earliestWaiting parseTime demoted = None).
  { unfold Download.earliestWaiting. rewrite download_earliestLoop_by.
    now apply earliestBy_none. }
  unfold Download.startupDownloads, Download.recoverDownloads. run_fs.
  rewrite download_demoteLoop_spec. fold demoted.
  destruct (existsb Download.downloading l); simpl; now rewrite Hnone.
Qed.

(** C7, as the code has it. The two scans choose differently.
    At startup the waiting task with the least start time is started,
    the first of the list among those with that start time (in the
    download queue, among the waiting tasks whose start time parses):
    this is what the search of startup returns, and on a file that holds
    a list and can be written, with a child that can be launched,
    startup stores the demoted list with that task marked active (the
    first record with its id, which is the task itself when no earlier
    record has the same id) and starts nothing when no task takes part
    in the search. After the active task has ended,
    startNextTranscodeTask and startNextWaitingTask start the first
    waiting task of the list, whatever its start time. *)
Theorem queue_selection :
  (forall (l : list Transcode.TranscodeTask) t,
      Transcode.earliestWaiting l = Some t ->
      exists i,
        l !! i = Some t /\ Transcode.waiting t = true /\
        forall j t', l !! j = Some t' -> Transcode.waiting t' = true ->
          (Transcode.StartTime t <= Transcode.StartTime t')%Z
          /\ ((j < i)%nat -> (Transcode.StartTime t < Transcode.StartTime t')%Z))
  /\ (forall parseTime (l : list Download.task) t k,
        Download.earliestWaiting parseTime l = Some (t, k) ->
        exists i, isEarliest (downloadStart parseTime) l i t k)
  /\ (forall (l : list Transcode.TranscodeTask) i t w log launch now,
        firstMatch Transcode.waiting l = Some (i, t) ->
        existsb Transcode.transcoding l = false ->
        Transcode.TaskID t <> "" ->
        Transcode.startNextTranscodeTask launch now (mkFs (Stored l) w log)
        = Transcode.startTranscode (Transcode.TaskID t) launch now (mkFs (Stored l) w log))
  /\ (forall (l : list Download.task) i t taskId magnetLink dir w log launch,
        firstMatch Download.waiting l = Some (i, t) ->
        existsb Download.downloading l = false ->
        Download.mustString "taskId" t = Some taskId ->
        Download.mustString "magnetLink" t = Some magnetLink ->
        Download.mustString "outputDir" t = Some dir ->
        Download.startNextWaitingTask launch (mkFs (Stored l) w log)
        = Download.startDownload taskId launch (mkFs (Stored l) w log))
  (* what the transcode half of startup starts *)
  /\ (forall now pid (l : list Transcode.TranscodeTask) log i t,
        let demoted :=
          map (fun x => if Transcode.transcoding x
                        then Transcode.backToWaiting now x else x) l in
        isEarliest transcodeStart demoted i t (Transcode.StartTime t) ->
        exists i' x,
          firstMatch (fun q => Transcode.idIs q (Transcode.TaskID t)) demoted = Some (i', x)
          /\ (i' <= i)%nat
          /\ ((forall j y, demoted !! j = Some y -> (j < i)%nat ->
                 Transcode.idIs y (Transcode.TaskID t) = false) -> i' = i /\ x = t)
          /\ Transcode.startupTranscodes now (Some pid) (mkFs (Stored l) true log)
             = (tt, let started := <[i' := Transcode.markTranscoding pid now x]> demoted in
                    mkFs (Stored started) true
                      (log ++ (if existsb Transcode.transcoding l then [demoted] else [])
                           ++ [started])))
  /\ (forall now launch (l : list Transcode.TranscodeTask) log,
        let demoted :=
          map (fun x => if Transcode.transcoding x
                        then Transcode.backToWaiting now x else x) l in
        existsb Transcode.waiting demoted = false ->
        Transcode.startupTranscodes now launch (mkFs (Stored l) true log)
        = (tt, snd (Transcode.recoverTranscodes now (mkFs (Stored l) true log))))
  (* what the download half of startup starts *)
  /\ (forall parseTime nowText pid (l : list Download.task) log i t k taskId magnetLink dir,
        let demoted :=
          map (fun x => if Download.downloading x
                        then Download.backToWaiting nowText x else x) l in
        isEarliest (downloadStart parseTime) demoted i t k ->
        Download.mustString "taskId" t = Some taskId ->
        Download.mustString "magnetLink" t = Some magnetLink ->
        Download.mustString "outputDir" t = Some dir ->
        exists i' x,
          firstMatch (fun q => Download.idIs q taskId) demoted = Some (i', x)
          /\ (i' <= i)%nat
          /\ ((forall j y, demoted !! j = Some y -> (j < i)%nat ->
                 Download.idIs y taskId = false) -> i' = i /\ x = t)
          /\ Download.startupDownloads parseTime nowText (Some pid) (mkFs (Stored l) true log)
             = (true, let started := <[i' := Download.markDownloading pid x]> demoted in
                      mkFs (Stored started) true
                        (log ++ (if existsb Download.downloading l then [demoted] else [])
                             ++ [started])))
  /\ (forall parseTime nowText launch (l : list Download.task) log,
        let demoted :=
          map (fun x => if Download.downloading x
                        then Download.backToWaiting nowText x else x) l in
        (forall j y, demoted !! j = Some y -> downloadStart parseTime y = None) ->
        Download.startupDownloads parseTime nowText launch (mkFs (Stored l) true log)
        = (true, snd (Download.recoverDownloads nowText (mkFs (Stored l) true log)))).
Proof.
  split.
  { intros l t H. destruct (transcode_earliestWaiting_first l t H) as (i & Hi & Hk & Hmin).
    exists i. split; [exact Hi|].
    assert (Hw : Transcode.waiting t = true).
    { unfold transcodeStart in Hk. destruct (Transcode.waiting t); [reflexivity|discriminate]. }
    split; [exact Hw|]. intros j t' Hj Hw'.
    apply (Hmin j t' (Transcode.StartTime t') Hj). unfold transcodeStart. now rewrite Hw'. }
  split.
  { intros parseTime l t k H. unfold Download.earliestWaiting in H.
    rewrite download_earliestLoop_by in H. now apply earliestBy_first. }
  split.
  { intros. now apply startNextTranscodeTask_first with (i := i). }
  split.
  { intros. now apply startNextWaitingTask_first with (i := i) (t := t)
                                                       (magnetLink := magnetLink) (dir := dir). }
  split; [intros; now apply startupTranscodes_starts|].
  split; [intros; now apply startupTranscodes_nothing_waiting|].
  split; [intros; now apply startupDownloads_starts with (k := k) (magnetLink := magnetLink)
                                                          (dir := dir)|].
  intros; now apply startupDownloads_nothing_waiting.
Qed.

Lemma queue_selection_witness :
  let a := Samples.transcode "transcode-1" "waiting" 900 0 "" in
  let b := Samples.transcode "transcode-2" "waiting" 100 0 "" in
  let c := Samples.transcode "transcode-3" "waiting" 100 0 "" in
  (exists i,
     [a; b; c] !! i = Some b /\ Transcode.waiting b = true /\
     forall j t', [a; b; c] !! j = Some t' -> Transcode.waiting t' = true ->
       (Transcode.StartTime b <= Transcode.StartTime t')%Z
       /\ ((j < i)%nat -> (Transcode.StartTime b < Transcode.StartTime t')%Z))
  /\ Transcode.startNextTranscodeTask (Some 7000%Z) 1000 (mkFs (Stored [a; b; c]) true [])
     = Transcode.startTranscode "transcode-1" (Some 7000%Z) 1000 (mkFs (Stored [a; b; c]) true [])
  /\ content (snd (Transcode.startupTranscodes 1000 (Some 7000%Z)
                     (mkFs (Stored [a; b; c]) true [])))
     = Stored [a; Transcode.markTranscoding 7000 1000 b; c].
Proof.
  intros a b c. destruct queue_selection as (H1 & _ & H3 & _ & H5 & _). split; [|split].
  - apply (H1 [a; b; c] b). reflexivity.
  - apply (H3 [a; b; c] 0%nat a true [] (Some 7000%Z) 1000%Z); [reflexivity|reflexivity|].
    discriminate.
  - assert (He : isEarliest transcodeStart [a; b; c] 1 b (Transcode.StartTime b)).
    { split; [reflexivity|]. split; [reflexivity|].
      intros [|[|[|j]]] t' k' Hj Hk; simpl in Hj; try discriminate;
        injection Hj as <-; injection Hk as <-; simpl; lia. }
    destruct (H5 1000%Z 7000%Z [a; b; c] [] 1%nat b He) as (i' & x & Hf & _ & _ & Hrun).
    rewrite Hrun. injection Hf as <- <-. reflexivity.
Defined.

(** C7 fails as stated for the promote-next scans. The store below is
    reached by a run: the first transcode is started twice by startup
    after two unclean exits, which moves its start time, and the second
    startup cannot launch ffmpeg. Of the two waiting tasks
    startNextTranscodeTask then starts the first of the list, although
    the second has the earlier start time; the startup scan picks the
    second. In the download queue too the first waiting task of the list
    is started, whatever the start times say. *)
Lemma promote_next_ignores_start_time :
  let ops :=
    [ TEnqueue true "transcode-1" "a.mkv" "a.mp4" "ffmpeg -i a.mkv a.mp4" "" "" "" ""
        (Some 5001%Z) 50;
      TEnqueue true "transcode-2" "b.mkv" "b.mp4" "ffmpeg -i b.mkv b.mp4" "" "" "" ""
        None 100;
      TStartup 900 (Some 5002%Z);
      TStartup 1000 None ] in
  let s := runTranscodes ops (onDisk Missing true) in
  let a :=
    Transcode.backToWaiting 1000
      (Transcode.markTranscoding 5002 900
         (Transcode.backToWaiting 900
            (Transcode.markTranscoding 5001 50
               (Transcode.newTask "transcode-1" "a.mkv" "a.mp4" "ffmpeg -i a.mkv a.mp4"
                  "" "" "" "" 50)))) in
  let b := Transcode.newTask "transcode-2" "b.mkv" "b.mp4" "ffmpeg -i b.mkv b.mp4"
             "" "" "" "" 100 in
  let p := Samples.download "task-1" "waiting" "2024-05-01T12:00:00Z" None in
  let q := Samples.download "task-2" "waiting" "2024-05-01T10:00:00Z" None in
  content s = Stored [a; b]
  /\ Transcode.waiting a = true /\ Transcode.waiting b = true
  /\ Transcode.StartTime a = 900%Z /\ Transcode.StartTime b = 100%Z
  /\ content (snd (Transcode.startNextTranscodeTask (Some 5003%Z) 1100 s))
     = Stored [Transcode.markTranscoding 5003 1100 a; b]
  /\ Transcode.earliestWaiting [a; b] = Some b
  /\ content (snd (Download.startNextWaitingTask (Some 7000%Z) (onDisk (Stored [p; q]) true)))
     = Stored [Download.markDownloading 7000 p; q].
Proof.
  intros ops s a b p q.
  split; [vm_compute; reflexivity|].
  split; [reflexivity|]. split; [reflexivity|].
  split; [reflexivity|]. split; [reflexivity|].
  split; [vm_compute; reflexivity|].
  split; reflexivity.
Qed.

(** ** Cancel *)

Lemma cancelLoop_absent taskId now l :
  existsb (fun t => Download.idIs t taskId) l = false ->
  Download.cancelLoop taskId now l = (false, [], l).
Proof.
  induction l as [|t rest IH]; [reflexivity|].
  simpl. intros H. apply orb_false_iff in H as [Ht Hrest].
  now rewrite Ht, (IH Hrest).
Qed.

Lemma firstMatch_absent {A} (P : A -> bool) (l : list A) :
  existsb P l = false -> firstMatch P l = None.
Proof.
  intros Hex. destruct (firstMatch P l) as [[i x]|] eqn:Hf; [|reflexivity].
  apply firstMatch_Some in Hf as (Hi & Px & _).
  rewrite (existsb_false_lookup P l i x Hex Hi) in Px. discriminate.
Qed.

(** C9. Cancel with an id that no stored task has returns the error
    "task not found", kills no process and leaves the file system as it
    was: nothing is written. The same holds, with the read or parse
    error, when the file cannot be loaded. *)
Theorem cancel_unknown_id_changes_nothing
    (d : fs Download.task) (t : fs Transcode.TranscodeTask)
    (taskId nowText : string) (now : Z) :
  idle (fun x => Download.idIs x taskId) (content d) ->
  idle (fun x => Transcode.idIs x taskId) (content t) ->
  snd (Download.CancelDownload taskId nowText d) = d
  /\ snd (Transcode.CancelTranscode taskId now t) = t
  /\ fst (Download.CancelDownload taskId nowText d)
     = (Download.Failure match content d with
                         | Stored _ => ErrNotFound taskId
                         | Corrupt => ErrParse
                         | _ => ErrRead
                         end, [])
  /\ fst (Transcode.CancelTranscode taskId now t)
     = (Transcode.Failure match content t with
                          | Stored _ => ErrNotFound taskId
                          | Corrupt => ErrParse
                          | _ => ErrRead
                          end, []).
Proof.
  intros Hd Ht.
  unfold Download.CancelDownload, Transcode.CancelTranscode.
  destruct d as [[| | |dl] wd logd]; destruct t as [[| | |tl] wt logt]; run_fs;
    try rewrite (cancelLoop_absent _ _ _ Hd);
    try rewrite (firstMatch_absent _ _ Ht); simpl; auto.
Qed.

Lemma cancel_unknown_id_changes_nothing_witness :
  let d := onDisk (Stored [Samples.download "task-1" "downloading" "2024-05-01T10:00:00Z"
                             (Some (JNum 4242))]) true in
  let t := onDisk (Stored [Samples.transcode "transcode-1" "transcoding" 100 4343 ""]) true in
  snd (Download.CancelDownload "task-9" "2024-05-01T11:00:00Z" d) = d
  /\ snd (Transcode.CancelTranscode "task-9" 500 t) = t
  /\ fst (Download.CancelDownload "task-9" "2024-05-01T11:00:00Z" d)
     = (Download.Failure (ErrNotFound "task-9"), [])
  /\ fst (Transcode.CancelTranscode "task-9" 500 t)
     = (Transcode.Failure (ErrNotFound "task-9"), []).
Proof.
  intros d t.
  exact (cancel_unknown_id_changes_nothing d t "task-9" "2024-05-01T11:00:00Z" 500
           eq_refl eq_refl).
Defined.

Lemma cancelLoop_first taskId now l j p :
  firstMatch (fun t => Download.idIs t taskId) l = Some (j, p) ->
  Download.statusIs p "downloading" && Download.hasPid p = false ->
  Download.cancelLoop taskId now l = (true, [], <[j := Download.markCancelled now p]> l).
Proof.
  rewrite firstMatch_Some. revert j.
  induction l as [|t rest IH]; intros j (Hj & Hid & Hfirst) Hquiet.
  - rewrite lookup_nil in Hj. discriminate.
  - destruct j as [|j]; simpl in Hj.
    + injection Hj as ->. simpl. now rewrite Hid, Hquiet.
    + assert (Ht : Download.idIs t taskId = false).
      { apply (Hfirst 0%nat t); [reflexivity|lia]. }
      simpl. rewrite Ht. rewrite (IH j); [reflexivity| |exact Hquiet].
      split; [exact Hj|]. split; [exact Hid|].
      intros k y Hk Hkj. apply (Hfirst (S k) y); [exact Hk|lia].
Qed.

Lemma download_terminal_not_downloading p :
  Download.terminal p = true -> Download.statusIs p "downloading" = false.
Proof.
  unfold Download.terminal, Download.statusIs, Download.fieldIs.
  destruct (p !! "status") as [[| | |s| |]|]; try reflexivity.
  intros H. destruct (String.eqb_spec s "downloading") as [->|]; [discriminate H|reflexivity].
Qed.

Lemma transcode_terminal_not_transcoding t :
  Transcode.terminal t = true -> Transcode.statusIs t "transcoding" = false.
Proof.
  unfold Transcode.terminal, Transcode.statusIs.
  intros H. destruct (String.eqb_spec (Transcode.Status t) "transcoding") as [E|];
    [rewrite E in H; discriminate H|reflexivity].
Qed.

(** C8, as the code has it. Cancel with the id of a task whose status
    is terminal succeeds and kills no process, but it rewrites the
    record: the status of the first task with the id becomes
    "cancelled", whatever it was, and its end time becomes the time of
    the call; the other fields are kept. *)
Theorem cancel_terminal_task
    (dl : list Download.task) (tl : list Transcode.TranscodeTask)
    (taskId nowText : string) (now : Z) (j : nat) (p : Download.task)
    (i : nat) (t : Transcode.TranscodeTask)
    (logd : list (list Download.task)) (logt : list (list Transcode.TranscodeTask)) :
  firstMatch (fun x => Download.idIs x taskId) dl = Some (j, p) ->
  firstMatch (fun x => Transcode.idIs x taskId) tl = Some (i, t) ->
  Download.terminal p = true ->
  Transcode.terminal t = true ->
  let dl' := <[j := Download.markCancelled nowText p]> dl in
  let tl' := <[i := Transcode.markCancelled now t]> tl in
  Download.CancelDownload taskId nowText (mkFs (Stored dl) true logd)
    = ((Download.Success taskId, []), mkFs (Stored dl') true (logd ++ [dl']))
  /\ Transcode.CancelTranscode taskId now (mkFs (Stored tl) true logt)
     = ((Transcode.Success taskId, []), mkFs (Stored tl') true (logt ++ [tl']))
  /\ Download.markCancelled nowText p !! "status" = Some (JStr "cancelled")
  /\ Download.markCancelled nowText p !! "endTime" = Some (JStr nowText)
  /\ (forall k, k <> "status" -> k <> "endTime" ->
        Download.markCancelled nowText p !! k = p !! k)
  /\ Transcode.markCancelled now t
     = Transcode.setEndTime now (Transcode.setStatus "cancelled" t)
  /\ Transcode.Status (Transcode.markCancelled now t) = "cancelled"
  /\ Transcode.EndTime (Transcode.markCancelled now t) = now.
Proof.
  intros Hp Ht Tp Tt dl' tl'.
  split.
  { unfold Download.CancelDownload. run_fs.
    rewrite (cancelLoop_first _ _ _ _ _ Hp); [reflexivity|].
    now rewrite (download_terminal_not_downloading p Tp). }
  split.
  { unfold Transcode.CancelTranscode. run_fs. rewrite Ht. simpl.
    unfold Transcode.killsOf. now rewrite (transcode_terminal_not_transcoding t Tt). }
  unfold Download.markCancelled.
  split; [now simplify_map_eq|]. split; [now simplify_map_eq|].
  split; [intros k H1 H2; now simplify_map_eq|].
  repeat split; reflexivity.
Qed.

Lemma cancel_terminal_task_witness :
  let p := Samples.download "task-1" "failed" "2024-05-01T10:00:00Z" None in
  let t := Samples.transcode "task-1" "cancelled" 100 4343 "" in
  Download.CancelDownload "task-1" "2024-05-01T11:00:00Z" (mkFs (Stored [p]) true [])
    = ((Download.Success "task-1", []),
       mkFs (Stored [Download.markCancelled "2024-05-01T11:00:00Z" p]) true
         [[Download.markCancelled "2024-05-01T11:00:00Z" p]])
  /\ Transcode.CancelTranscode "task-1" 500 (mkFs (Stored [t]) true [])
     = ((Transcode.Success "task-1", []),
        mkFs (Stored [Transcode.markCancelled 500 t]) true [[Transcode.markCancelled 500 t]]).
Proof.
  intros p t.
  destruct (cancel_terminal_task [p] [t] "task-1" "2024-05-01T11:00:00Z" 500 0 p 0 t [] []
              eq_refl eq_refl eq_refl eq_refl)
    as (H1 & H2 & _).
  exact (conj H1 H2).
Defined.

(** C8 fails as stated: cancelling a completed transcode, or a failed
    download, succeeds but stores the task as "cancelled" with a new end
    time. *)
Lemma cancel_overwrites_terminal_status :
  let t := Samples.transcode "transcode-1" "completed" 100 0 "" in
  let p := Samples.download "task-1" "failed" "2024-05-01T10:00:00Z" None in
  let after := Transcode.CancelTranscode "transcode-1" 500 (onDisk (Stored [t]) true) in
  let afterD := Download.CancelDownload "task-1" "2024-05-01T11:00:00Z"
                  (onDisk (Stored [p]) true) in
  Transcode.terminal t = true
  /\ fst after = (Transcode.Success "transcode-1", [])
  /\ content (snd after) <> Stored [t]
  /\ (exists t', content (snd after) = Stored [t']
                 /\ Transcode.Status t' = "cancelled" /\ Transcode.EndTime t' = 500%Z)
  /\ Download.terminal p = true
  /\ fst afterD = (Download.Success "task-1", [])
  /\ (exists p', content (snd afterD) = Stored [p']
                 /\ p' !! "status" = Some (JStr "cancelled")
                 /\ p !! "status" = Some (JStr "failed")).
Proof.
  intros t p after afterD.
  split; [reflexivity|]. split; [reflexivity|].
  split; [intros H; discriminate H|].
  split; [eexists; repeat split; reflexivity|].
  split; [reflexivity|]. split; [reflexivity|].
  eexists. repeat split; reflexivity.
Qed.

(** ** GetTranscodeStatus *)

(** C10. GetTranscodeStatus returns a nil error on every input and
    writes nothing. When the file is missing, unreadable or not
    parseable the answer is the empty task list; with an empty id it is
    the list of all tasks (whenever they can be marshalled, as every
    list decoded from the file can); with an id that no task has it is
    the empty object. *)
Theorem GetTranscodeStatus_never_fails
    (marshalable : Transcode.TranscodeTask -> bool)
    (s : fs Transcode.TranscodeTask) (taskID : string) :
  snd (fst (Transcode.GetTranscodeStatus marshalable taskID s)) = None
  /\ snd (Transcode.GetTranscodeStatus marshalable taskID s) = s
  /\ ((forall l, content s <> Stored l) ->
        fst (fst (Transcode.GetTranscodeStatus marshalable taskID s))
        = Transcode.TasksResponse [])
  /\ (forall l, content s = Stored l -> forallb marshalable l = true ->
        fst (fst (Transcode.GetTranscodeStatus marshalable "" s))
        = Transcode.TasksResponse l)
  /\ (forall l, content s = Stored l -> taskID <> "" ->
        existsb (fun t => Transcode.idIs t taskID) l = false ->
        fst (fst (Transcode.GetTranscodeStatus marshalable taskID s))
        = Transcode.EmptyObject).
Proof.
  unfold Transcode.GetTranscodeStatus. destruct s as [c w log]. run_fs.
  split.
  { destruct c as [| | |l]; try reflexivity.
    destruct (String.eqb taskID ""); [destruct (forallb marshalable l); reflexivity|].
    destruct (find _ l) as [task|]; [destruct (marshalable task)|]; reflexivity. }
  split.
  { destruct c as [| | |l]; try reflexivity.
    destruct (String.eqb taskID ""); [destruct (forallb marshalable l); reflexivity|].
    destruct (find _ l) as [task|]; [destruct (marshalable task)|]; reflexivity. }
  split.
  { intros Hc. destruct c as [| | |l]; try reflexivity. now destruct (Hc l). }
  split.
  { intros l Hc Hm. simpl in Hc. subst c. simpl. now rewrite Hm. }
  intros l Hc Hid Hex. simpl in Hc. subst c.
  destruct (String.eqb_spec taskID ""); [contradiction|].
  rewrite find_firstMatch, (firstMatch_absent _ _ Hex). reflexivity.
Qed.

Lemma GetTranscodeStatus_never_fails_witness :
  let t := Samples.transcode "transcode-1" "completed" 100 0 "" in
  let s := onDisk (Stored [t]) true in
  fst (Transcode.GetTranscodeStatus (fun _ => true) "" s) = (Transcode.TasksResponse [t], None)
  /\ fst (Transcode.GetTranscodeStatus (fun _ => true) "transcode-7" s)
     = (Transcode.EmptyObject, None)
  /\ fst (Transcode.GetTranscodeStatus (fun _ => true) "" (onDisk Missing true))
     = (Transcode.TasksResponse [], None).
Proof.
  intros t s.
  destruct (GetTranscodeStatus_never_fails (fun _ => true) s "transcode-7")
    as (E1 & _ & _ & Hall & Hnone).
  destruct (GetTranscodeStatus_never_fails (fun _ => true) s "") as (E0 & _).
  destruct (GetTranscodeStatus_never_fails (fun _ => true)
              (onDisk Missing true : fs Transcode.TranscodeTask) "")
    as (E2 & _ & Hmiss & _).
  specialize (Hall [t] eq_refl eq_refl).
  specialize (Hnone [t] eq_refl ltac:(discriminate) eq_refl).
  specialize (Hmiss ltac:(intros l H; discriminate H)).
  split; [|split].
  - rewrite (surjective_pairing (fst _)). now rewrite Hall, E0.
  - rewrite (surjective_pairing (fst _)). now rewrite Hnone, E1.
  - rewrite (surjective_pairing (fst _)). now rewrite Hmiss, E2.
Defined.

(** ** The queue invariant along a run *)

Section Pointwise.

Context {A : Type} (P : A -> bool).
Local Abbreviation noNewActive := (noNewActive P).

Lemma noNewActive_refl l : noNewActive l l.
Proof. induction l; constructor; auto. Qed.

Lemma noNewActive_insert l i x y :
  l !! i = Some x -> (P y = true -> P x = true) -> noNewActive l (<[i := y]> l).
Proof.
  revert i. induction l as [|z l IH]; intros [|i] Hi Hxy; simpl in *; try discriminate.
  - injection Hi as ->. constructor; [exact Hxy|apply noNewActive_refl].
  - constructor; [auto|]. now apply IH.
Qed.

Lemma noNewActive_updateFirst (Q : A -> bool) (f : A -> A) l :
  (forall x, P (f x) = true -> P x = true) -> noNewActive l (updateFirst Q f l).
Proof.
  intros Hf. unfold updateFirst.
  destruct (firstMatch Q l) as [[i x]|] eqn:Hm; [|apply noNewActive_refl].
  apply firstMatch_Some in Hm as (Hi & _).
  apply noNewActive_insert with (x := x); [exact Hi|apply Hf].
Qed.

Lemma atMostOne_noNewActive l l' : noNewActive l l' -> atMostOne P l -> atMostOne P l'.
Proof.
  intros HR Hl i j a b Hi Hj Pa Pb.
  destruct (Forall2_lookup_r _ _ _ _ _ HR Hi) as (x & Hx & Rx).
  destruct (Forall2_lookup_r _ _ _ _ _ HR Hj) as (y & Hy & Ry).
  eapply Hl; eauto.
Qed.

Lemma queueInv_rewrite (s : fs A) l l' :
  content s = Stored l -> noNewActive l l' -> queueInv P s ->
  queueInv P (snd (writeStore l' s)).
Proof.
  intros Hc HR [Hs Hlog]. unfold writeStore. destruct (writable s); [|split; assumption].
  rewrite Hc in Hs. simpl in Hs. apply queueInv_write; [exact Hlog|].
  now apply atMostOne_noNewActive with (l := l).
Qed.

End Pointwise.

Lemma StartWaitingTask_inv taskId launch s :
  queueInv Download.downloading s ->
  queueInv Download.downloading (snd (Download.StartWaitingTask taskId launch s)).
Proof.
  intros Hs. unfold Download.StartWaitingTask.
  destruct s as [c w log]. unfold bind at 1. unfold readStore. simpl content.
  destruct c as [| | |l]; simpl; try exact Hs.
  destruct (existsb Download.downloading l) eqn:Hex; [exact Hs|].
  destruct (find _ l) as [targetTask|]; [|exact Hs].
  destruct (Download.mustString "magnetLink" targetTask); [|exact Hs].
  destruct (Download.mustString "outputDir" targetTask); [|exact Hs].
  rewrite snd_bind_ret. apply startDownload_inv; [exact Hex|exact Hs].
Qed.

Lemma download_updateProgress_inv taskId downloaded totalSize speed percentage now s :
  queueInv Download.downloading s ->
  queueInv Download.downloading
    (snd (Download.updateProgress taskId downloaded totalSize speed percentage now s)).
Proof.
  intros Hs. unfold Download.updateProgress.
  destruct s as [c w log]. unfold bind at 1. unfold readStore. simpl content.
  destruct c as [| | |l]; simpl; try exact Hs.
  rewrite snd_bind_ret. apply queueInv_rewrite with (l := l); [reflexivity| |exact Hs].
  apply noNewActive_updateFirst. intros x.
  unfold Download.downloading, Download.statusIs, Download.fieldIs, Download.recordProgress.
  now simplify_map_eq.
Qed.

Lemma download_exitUpdate_inactive waitFailed now p :
  Download.downloading (Download.exitUpdate waitFailed now p) = false.
Proof.
  unfold Download.downloading, Download.statusIs, Download.fieldIs, Download.exitUpdate,
    Download.backToWaiting, Download.markCompleted.
  destruct waitFailed; now simplify_map_eq.
Qed.

Lemma download_monitorExit_inv taskId waitFailed now launch s :
  queueInv Download.downloading s ->
  queueInv Download.downloading (snd (Download.monitorExit taskId waitFailed now launch s)).
Proof.
  intros Hs. unfold Download.monitorExit.
  destruct s as [c w log]. unfold bind at 1. unfold readStore. simpl content.
  destruct c as [| | |l]; simpl; try exact Hs.
  destruct (Download.exitTransition taskId waitFailed now l) as [updated|] eqn:Hupd;
    [|now apply startNextWaitingTask_inv].
  assert (HR : noNewActive Download.downloading l updated).
  { unfold Download.exitTransition in Hupd.
    destruct (firstMatch _ l) as [[i p]|] eqn:Hm.
    - destruct (Download.protected p); [discriminate|]. injection Hupd as <-.
      apply firstMatch_Some in Hm as (Hi & _).
      apply noNewActive_insert with (x := p); [exact Hi|].
      rewrite download_exitUpdate_inactive. discriminate.
    - injection Hupd as <-. apply noNewActive_refl. }
  pose proof (queueInv_rewrite Download.downloading (mkFs (Stored l) w log) l updated
                eq_refl HR Hs) as Hw.
  unfold bind, writeStore in *. simpl in *.
  destruct w; simpl in *; [|exact Hs].
  now apply startNextWaitingTask_inv.
Qed.

Lemma download_markCancelled_inactive now t :
  Download.downloading (Download.markCancelled now t) = false.
Proof.
  unfold Download.downloading, Download.statusIs, Download.fieldIs, Download.markCancelled.
  now simplify_map_eq.
Qed.

Lemma cancelLoop_noNewActive taskId now l :
  noNewActive Download.downloading l (snd (Download.cancelLoop taskId now l)).
Proof.
  induction l as [|t rest IH]; [constructor|].
  simpl. destruct (Download.idIs t taskId).
  - assert (Hc : noNewActive Download.downloading (t :: rest)
                   (Download.markCancelled now t :: rest)).
    { constructor; [|apply noNewActive_refl].
      rewrite download_markCancelled_inactive. discriminate. }
    destruct (_ && _); [|exact Hc].
    destruct (t !! "pid") as [[| | | | |]|]; try exact Hc;
      destruct (Download.cancelLoop taskId now rest) as [[f k] r]; simpl in *;
      (constructor; [auto|exact IH]).
  - destruct (Download.cancelLoop taskId now rest) as [[f k] r]; simpl in *.
    constructor; [auto|exact IH].
Qed.

Lemma CancelDownload_inv taskId now s :
  queueInv Download.downloading s ->
  queueInv Download.downloading (snd (Download.CancelDownload taskId now s)).
Proof.
  intros Hs. unfold Download.CancelDownload.
  destruct s as [c w log]. unfold bind at 1. unfold readStore. simpl content.
  destruct c as [| | |l]; simpl; try exact Hs.
  pose proof (cancelLoop_noNewActive taskId now l) as HR.
  destruct (Download.cancelLoop taskId now l) as [[found kills] updated]. simpl in HR.
  destruct found; [|exact Hs].
  rewrite snd_bind_ret. now apply queueInv_rewrite with (l := l).
Qed.

Lemma recoverDownloads_inv now s :
  queueInv Download.downloading s ->
  queueInv Download.downloading (snd (Download.recoverDownloads now s))
  /\ (fst (Download.recoverDownloads now s) = None
      \/ idle Download.downloading (content (snd (Download.recoverDownloads now s)))).
Proof.
  intros Hs. unfold Download.recoverDownloads.
  destruct s as [c w log]. run_fs.
  destruct c as [| | |l]; simpl; try (split; [exact Hs|left; reflexivity]).
  - destruct w; simpl; [|split; [exact Hs|left; reflexivity]].
    split; [|left; reflexivity]. destruct Hs as [_ Hlog].
    apply queueInv_write; [exact Hlog|apply atMostOne_nil].
  - rewrite download_demoteLoop_spec.
    destruct (existsb Download.downloading l) eqn:Hex; simpl; [|split; [exact Hs|now right]].
    destruct w; simpl; [|split; [exact Hs|left; reflexivity]].
    pose proof (pass_idle Download.downloading _ (download_demoted_not_downloading now) l)
      as Hidle.
    split; [|right; exact Hidle].
    destruct Hs as [_ Hlog]. apply queueInv_write; [exact Hlog|].
    now apply atMostOne_none.
Qed.

Lemma startupDownloads_inv parseTime now launch s :
  queueInv Download.downloading s ->
  queueInv Download.downloading (snd (Download.startupDownloads parseTime now launch s)).
Proof.
  intros Hs. unfold Download.startupDownloads. unfold bind at 1.
  destruct (recoverDownloads_inv now s Hs) as [Hinv Hidle].
  destruct (Download.recoverDownloads now s) as [[progressList|] s1]; simpl in *;
    [|exact Hinv].
  destruct Hidle as [Hnone|Hidle]; [discriminate|].
  destruct (Download.earliestWaiting parseTime progressList) as [[earliestTask k]|];
    [|exact Hinv].
  destruct (Download.mustString "taskId" earliestTask); [|exact Hinv].
  destruct (Download.mustString "magnetLink" earliestTask); [|exact Hinv].
  destruct (Download.mustString "outputDir" earliestTask); [|exact Hinv].
  rewrite snd_bind_ret. now apply startDownload_inv.
Qed.

Lemma updateTranscodeProgress_inv taskID progress errorMsg s :
  queueInv Transcode.transcoding s ->
  queueInv Transcode.transcoding
    (snd (Transcode.updateTranscodeProgress taskID progress errorMsg s)).
Proof.
  intros Hs. unfold Transcode.updateTranscodeProgress.
  destruct s as [c w log]. unfold bind at 1. unfold readStore. simpl content.
  destruct c as [| | |l]; simpl; try exact Hs.
  rewrite snd_bind_ret. apply queueInv_rewrite with (l := l); [reflexivity| |exact Hs].
  apply noNewActive_updateFirst. intros x. unfold Transcode.applyProgress.
  destruct (fge progress 0); destruct (negb _); simpl; auto.
Qed.

Lemma updateTranscodeSpeed_inv taskID speed s :
  queueInv Transcode.transcoding s ->
  queueInv Transcode.transcoding (snd (Transcode.updateTranscodeSpeed taskID speed s)).
Proof.
  intros Hs. unfold Transcode.updateTranscodeSpeed.
  destruct s as [c w log]. unfold bind at 1. unfold readStore. simpl content.
  destruct c as [| | |l]; simpl; try exact Hs.
  rewrite snd_bind_ret. apply queueInv_rewrite with (l := l); [reflexivity| |exact Hs].
  apply noNewActive_updateFirst. intros x. simpl. auto.
Qed.

Lemma transcode_exitUpdate_inactive cmdErr now t :
  Transcode.transcoding (Transcode.exitUpdate cmdErr now t) = false.
Proof.
  unfold Transcode.exitUpdate. destruct cmdErr as [msg|]; [|reflexivity].
  simpl. destruct (String.eqb _ ""); reflexivity.
Qed.

Lemma transcode_monitorExit_inv taskID cmdErr now launch s :
  queueInv Transcode.transcoding s ->
  queueInv Transcode.transcoding (snd (Transcode.monitorExit taskID cmdErr now launch s)).
Proof.
  intros Hs. unfold Transcode.monitorExit.
  destruct s as [c w log]. unfold bind at 1. unfold readStore. simpl content.
  destruct c as [| | |l]; simpl; try exact Hs.
  assert (HR : noNewActive Transcode.transcoding l
                 (Transcode.exitTransition taskID cmdErr now l)).
  { apply noNewActive_updateFirst. intros x.
    rewrite transcode_exitUpdate_inactive. discriminate. }
  pose proof (queueInv_rewrite Transcode.transcoding (mkFs (Stored l) w log) l _
                eq_refl HR Hs) as Hw.
  unfold bind, writeStore in *. simpl in *.
  destruct w; simpl in *; [|exact Hs].
  now apply startNextTranscodeTask_inv.
Qed.

Lemma CancelTranscode_inv taskID now s :
  queueInv Transcode.transcoding s ->
  queueInv Transcode.transcoding (snd (Transcode.CancelTranscode taskID now s)).
Proof.
  intros Hs. unfold Transcode.CancelTranscode.
  destruct s as [c w log]. unfold bind at 1. unfold readStore. simpl content.
  destruct c as [| | |l]; simpl; try exact Hs.
  destruct (firstMatch _ l) as [[i task]|] eqn:Hm; [|exact Hs].
  rewrite snd_bind_ret. apply queueInv_rewrite with (l := l); [reflexivity| |exact Hs].
  apply firstMatch_Some in Hm as (Hi & _).
  apply noNewActive_insert with (x := task); [exact Hi|discriminate].
Qed.

Lemma recoverTranscodes_inv now s :
  queueInv Transcode.transcoding s ->
  queueInv Transcode.transcoding (snd (Transcode.recoverTranscodes now s))
  /\ (fst (Transcode.recoverTranscodes now s) = None
      \/ idle Transcode.transcoding (content (snd (Transcode.recoverTranscodes now s)))).
Proof.
  assert (Hd : forall t, Transcode.transcoding (Transcode.backToWaiting now t) = false)
    by reflexivity.
  intros Hs. unfold Transcode.recoverTranscodes.
  destruct s as [c w log]. run_fs.
  destruct c as [| | |l]; simpl; try (split; [exact Hs|left; reflexivity]).
  - destruct w; simpl; [|split; [exact Hs|left; reflexivity]].
    split; [|left; reflexivity]. destruct Hs as [_ Hlog].
    apply queueInv_write; [exact Hlog|apply atMostOne_nil].
  - rewrite transcode_demoteLoop_spec.
    destruct (existsb Transcode.transcoding l) eqn:Hex; simpl; [|split; [exact Hs|now right]].
    destruct w; simpl; [|split; [exact Hs|left; reflexivity]].
    pose proof (pass_idle Transcode.transcoding _ Hd l) as Hidle.
    split; [|right; exact Hidle].
    destruct Hs as [_ Hlog]. apply queueInv_write; [exact Hlog|].
    now apply atMostOne_none.
Qed.

Lemma startupTranscodes_inv now launch s :
  queueInv Transcode.transcoding s ->
  queueInv Transcode.transcoding (snd (Transcode.startupTranscodes now launch s)).
Proof.
  intros Hs. unfold Transcode.startupTranscodes. unfold bind at 1.
  destruct (recoverTranscodes_inv now s Hs) as [Hinv Hidle].
  destruct (Transcode.recoverTranscodes now s) as [[transcodeTasks|] s1]; simpl in *;
    [|exact Hinv].
  destruct Hidle as [Hnone|Hidle]; [discriminate|].
  destruct (Transcode.earliestWaiting transcodeTasks) as [earliest|]; [|exact Hinv].
  rewrite snd_bind_ret. now apply startTranscode_inv.
Qed.

Lemma execDownload_inv parseTime s op :
  queueInv Download.downloading s ->
  queueInv Download.downloading (execDownload parseTime s op).
Proof.
  intros Hs. destruct op; simpl.
  - now apply DownloadTorrentFiles_inv.
  - now apply startNextWaitingTask_inv.
  - now apply StartWaitingTask_inv.
  - now apply download_updateProgress_inv.
  - now apply download_monitorExit_inv.
  - now apply CancelDownload_inv.
  - now apply startupDownloads_inv.
Qed.

Lemma execTranscode_inv s op :
  queueInv Transcode.transcoding s ->
  queueInv Transcode.transcoding (execTranscode s op).
Proof.
  intros Hs. destruct op; simpl.
  - now apply AddTranscodeTaskWithParams_inv.
  - now apply startNextTranscodeTask_inv.
  - now apply updateTranscodeProgress_inv.
  - now apply updateTranscodeSpeed_inv.
  - now apply transcode_monitorExit_inv.
  - now apply CancelTranscode_inv.
  - now apply startupTranscodes_inv.
Qed.

Lemma runDownloads_inv parseTime ops s :
  queueInv Download.downloading s ->
  queueInv Download.downloading (runDownloads parseTime ops s).
Proof.
  unfold runDownloads. revert s.
  induction ops as [|op ops IH]; intros s Hs; [exact Hs|].
  simpl. apply IH. now apply execDownload_inv.
Qed.

Lemma runTranscodes_inv ops s :
  queueInv Transcode.transcoding s ->
  queueInv Transcode.transcoding (runTranscodes ops s).
Proof.
  unfold runTranscodes. revert s.
  induction ops as [|op ops IH]; intros s Hs; [exact Hs|].
  simpl. apply IH. now apply execTranscode_inv.
Qed.

(** C1, for operations that run one at a time. In each queue the
    property "at most one stored task is active" is an invariant of the
    operations that write the progress file, each run from its first
    read to its last write before the next begins: if it holds of the
    file and of the snapshots written so far, it holds, after any
    sequence of operations (enqueue, promote-next, manual start,
    progress updates, process exit, cancel, startup), of the file and of
    every snapshot written on the way; in particular of every snapshot
    written by an enqueue or a promote-next. A task is started only when
    the scan found no active task: with an active task in the store,
    promote-next leaves the file system as it is and enqueue only
    appends the waiting record. *)
Theorem one_active_task_per_queue
    (parseTime : string -> option Z)
    (dops : list downloadOp) (tops : list transcodeOp)
    (d : fs Download.task) (t : fs Transcode.TranscodeTask) :
  queueInv Download.downloading d ->
  queueInv Transcode.transcoding t ->
  queueInv Download.downloading (runDownloads parseTime dops d)
  /\ queueInv Transcode.transcoding (runTranscodes tops t)
  /\ (forall prepared taskId fileName now selectedFiles launch,
        queueInv Download.downloading
          (snd (Download.DownloadTorrentFiles prepared taskId fileName now selectedFiles
                  launch d)))
  /\ (forall launch, queueInv Download.downloading (snd (Download.startNextWaitingTask launch d)))
  /\ (forall ready taskID inputFile outputFile ffmpegCommand videoCodec audioCodec
        resolution bitrate launch now,
        queueInv Transcode.transcoding
          (snd (Transcode.AddTranscodeTaskWithParams ready taskID inputFile outputFile
                  ffmpegCommand videoCodec audioCodec resolution bitrate launch now t)))
  /\ (forall launch now,
        queueInv Transcode.transcoding (snd (Transcode.startNextTranscodeTask launch now t)))
  /\ (forall launch,
        idle Download.downloading (content d)
        \/ Download.startNextWaitingTask launch d = (None, d))
  /\ (forall launch now,
        idle Transcode.transcoding (content t)
        \/ Transcode.startNextTranscodeTask launch now t = (None, t))
  /\ (forall l magnetLink taskId fileName now selectedFiles launch,
        content d = Stored l -> writable d = true ->
        existsb Download.downloading l = true ->
        written (snd (Download.DownloadTorrentFiles (Some magnetLink) taskId fileName now
                        selectedFiles launch d))
        = written d
          ++ [l ++ [Download.initialProgress taskId magnetLink fileName now selectedFiles]])
  /\ (forall l taskID inputFile outputFile ffmpegCommand videoCodec audioCodec
        resolution bitrate launch now,
        content t = Stored l -> writable t = true ->
        existsb Transcode.transcoding l = true ->
        written (snd (Transcode.AddTranscodeTaskWithParams true taskID inputFile outputFile
                        ffmpegCommand videoCodec audioCodec resolution bitrate launch now t))
        = written t
          ++ [l ++ [Transcode.newTask taskID inputFile outputFile ffmpegCommand videoCodec
                      audioCodec resolution bitrate now]]).
Proof.
  intros Hd Ht.
  split; [now apply runDownloads_inv|].
  split; [now apply runTranscodes_inv|].
  split; [intros; now apply DownloadTorrentFiles_inv|].
  split; [intros; now apply startNextWaitingTask_inv|].
  split; [intros; now apply AddTranscodeTaskWithParams_inv|].
  split; [intros; now apply startNextTranscodeTask_inv|].
  split.
  { intros launch. destruct d as [[| | |l] w log]; simpl; auto.
    destruct (existsb Download.downloading l) eqn:Hex; [right|left; reflexivity].
    now apply startNextWaitingTask_busy. }
  split.
  { intros launch now. destruct t as [[| | |l] w log]; simpl; auto.
    destruct (existsb Transcode.transcoding l) eqn:Hex; [right|left; reflexivity].
    now apply startNextTranscodeTask_busy. }
  split.
  { intros l magnetLink taskId fileName now selectedFiles launch Hc Hw Hex.
    destruct d as [c w log]. simpl in Hc, Hw. subst c w.
    now rewrite DownloadTorrentFiles_busy. }
  intros l taskID inputFile outputFile ffmpegCommand videoCodec audioCodec resolution
    bitrate launch now Hc Hw Hex.
  destruct t as [c w log]. simpl in Hc, Hw. subst c w.
  now rewrite AddTranscodeTaskWithParams_busy.
Qed.

Lemma one_active_task_per_queue_witness :
  let dops :=
    [ DEnqueue (Some "magnet:?xt=urn:btih:01") "task-1" "a.torrent" "2024-05-01T10:00:00Z"
        ["a.mkv"] (Some 4001%Z);
      DEnqueue (Some "magnet:?xt=urn:btih:02") "task-2" "b.torrent" "2024-05-01T10:05:00Z"
        ["b.mkv"] (Some 4002%Z);
      DCancel "task-1" "2024-05-01T10:06:00Z";
      DExit "task-1" true "2024-05-01T10:06:01Z" (Some 4003%Z) ] in
  let tops :=
    [ TEnqueue true "transcode-1" "a.mkv" "a.mp4" "ffmpeg -i a.mkv a.mp4" "" "" "" ""
        (Some 5001%Z) 100;
      TEnqueue true "transcode-2" "b.mkv" "b.mp4" "ffmpeg -i b.mkv b.mp4" "" "" "" ""
        (Some 5002%Z) 200;
      TExit "transcode-1" None 300 (Some 5003%Z) ] in
  queueInv Download.downloading (runDownloads (fun _ => None) dops (onDisk Missing true))
  /\ queueInv Transcode.transcoding (runTranscodes tops (onDisk Missing true))
  /\ map (map (fun x : Download.task => x !! "status"))
       (written (runDownloads (fun _ => None) dops (onDisk Missing true)))
     = [ [Some (JStr "waiting")];
         [Some (JStr "downloading")];
         [Some (JStr "downloading"); Some (JStr "waiting")];
         [Some (JStr "cancelled"); Some (JStr "waiting")];
         [Some (JStr "cancelled"); Some (JStr "downloading")] ]
  /\ map (map Transcode.Status) (written (runTranscodes tops (onDisk Missing true)))
     = [ ["waiting"]; ["transcoding"]; ["transcoding"; "waiting"];
         ["completed"; "waiting"]; ["completed"; "transcoding"] ].
Proof.
  intros dops tops.
  assert (Hd : queueInv Download.downloading (onDisk (Missing : file Download.task) true)).
  { split; [exact I|constructor]. }
  assert (Ht : queueInv Transcode.transcoding
                 (onDisk (Missing : file Transcode.TranscodeTask) true)).
  { split; [exact I|constructor]. }
  destruct (one_active_task_per_queue (fun _ => None) dops tops _ _ Hd Ht) as (H1 & H2 & _).
  split; [exact H1|]. split; [exact H2|]. split; reflexivity.
Defined.

(** startNextWaitingTask is its scan followed by the start of the task
    the scan chose. *)
Lemma startNextWaitingTask_parts (launch : option Z) (s : fs Download.task) :
  Download.startNextWaitingTask launch s
  = (let* d := Download.scanWaiting in Download.act d launch) s.
Proof.
  unfold Download.startNextWaitingTask, Download.scanWaiting, Download.act.
  cbv [bind readStore ret].
  destruct (content s) as [| | |l]; try reflexivity.
  destruct (existsb Download.downloading l); [reflexivity|].
  destruct (find Download.waiting l) as [nextTask|]; [|reflexivity].
  destruct (Download.mustString "taskId" nextTask); [|reflexivity].
  destruct (Download.mustString "magnetLink" nextTask); [|reflexivity].
  destruct (Download.mustString "outputDir" nextTask); reflexivity.
Qed.

(** C1 fails as stated when two operations overlap, and nothing in the
    program keeps them apart. The store holds one waiting task. The
    promote-next of a monitoring goroutine scans it and finds nothing
    downloading; before it starts the task, an enqueue from the user
    interface reads the same store, appends its task and starts it; the
    promote-next then goes on with the task its scan chose, and the
    snapshot it writes has two tasks downloading. *)
Lemma overlapping_promote_and_enqueue_start_two_tasks :
  let first := Samples.download "task-1" "waiting" "2024-05-01T10:00:00Z" None in
  let s0 := onDisk (Stored [first]) true in
  let s1 := snd (Download.DownloadTorrentFiles (Some "magnet:?xt=urn:btih:02") "task-2"
                   "b.torrent" "2024-05-01T10:05:00Z" ["b.mkv"] (Some 4002%Z) s0) in
  let s2 := snd (Download.act (Download.Start "task-1") (Some 4001%Z) s1) in
  queueInv Download.downloading s0
  /\ Download.scanWaiting s0 = (Download.Start "task-1", s0)
  /\ map (map (fun x : Download.task => x !! "status")) (written s2)
     = [ [Some (JStr "waiting"); Some (JStr "waiting")];
         [Some (JStr "waiting"); Some (JStr "downloading")];
         [Some (JStr "downloading"); Some (JStr "downloading")] ]
  /\ ~ queueInv Download.downloading s2.
Proof.
  intros first s0 s1 s2.
  split.
  { split; [|constructor].
    change (atMostOne Download.downloading [first]).
    intros i j x y Hi Hj _ _. apply lookup_lt_Some in Hi, Hj.
    cbn [length] in Hi, Hj. lia. }
  split; [reflexivity|].
  split; [reflexivity|].
  intros [Hc _].
  set (a := Download.markDownloading 4001 first).
  set (b := Download.markDownloading 4002
              (Download.initialProgress "task-2" "magnet:?xt=urn:btih:02" "b.torrent"
                 "2024-05-01T10:05:00Z" ["b.mkv"])).
  assert (Hs2 : content s2 = Stored [a; b]) by reflexivity.
  assert (Ha : Download.downloading a = true) by (vm_compute; reflexivity).
  assert (Hb : Download.downloading b = true) by (vm_compute; reflexivity).
  rewrite Hs2 in Hc.
  pose proof (Hc 0%nat 1%nat a b eq_refl eq_refl Ha Hb) as H. discriminate H.
Qed.

(** * Further properties of the orchestration code *)

(** ** startup *)

Lemma startupDownloads_stops parseTime nowText launch (s : fs Download.task) :
  (forall l, content s <> Stored l)
  \/ (writable s = false
      /\ exists l, content s = Stored l /\ existsb Download.downloading l = true) ->
  fst (Download.startupDownloads parseTime nowText launch s) = false.
Proof.
  unfold Download.startupDownloads, Download.recoverDownloads.
  destruct s as [c w log]. run_fs. intros [Hc|(Hw & l & Hc & Hex)].
  - destruct c as [| | |l]; try reflexivity.
    + now destruct w.
    + now destruct (Hc l).
  - subst c w. rewrite download_demoteLoop_spec, Hex. reflexivity.
Qed.

(** X1. startup returns from its download half, and never reaches the
    transcode half, when download_progress.json is missing, unreadable
    or not parseable, and when the demoted download list cannot be
    written: the transcode file system is then left exactly as it was,
    orphaned "transcoding" tasks included. *)
Theorem startup_skips_transcodes
    (parseTime : string -> option Z) (nowText : string) (now : Z)
    (launchDownload launchTranscode : option Z)
    (d : fs Download.task) (t : fs Transcode.TranscodeTask) :
  (forall l, content d <> Stored l)
  \/ (writable d = false
      /\ exists l, content d = Stored l /\ existsb Download.downloading l = true) ->
  snd (startup parseTime nowText now launchDownload launchTranscode (d, t)) = t.
Proof.
  intros H. unfold startup. simpl fst. simpl snd.
  pose proof (startupDownloads_stops parseTime nowText launchDownload d H) as Hs.
  destruct (Download.startupDownloads parseTime nowText launchDownload d) as [goOn d'].
  simpl in Hs. now subst goOn.
Qed.

Lemma startup_skips_transcodes_witness :
  let orphan := Samples.transcode "transcode-1" "transcoding" 100 4242 "" in
  snd (startup (fun _ => None) "2024-05-01T10:00:00Z" 500 (Some 1%Z) (Some 2%Z)
         (onDisk Missing true, onDisk (Stored [orphan]) true))
  = onDisk (Stored [orphan]) true.
Proof.
  intros orphan.
  apply (startup_skips_transcodes (fun _ => None) "2024-05-01T10:00:00Z" 500 (Some 1%Z)
           (Some 2%Z) (onDisk Missing true) (onDisk (Stored [orphan]) true)).
  left. intros l H. discriminate H.
Defined.

Lemma startDownload_from_idle taskId launch (s : fs Download.task) :
  idle Download.downloading (content s) ->
  atMostOneStored Download.downloading (content (snd (Download.startDownload taskId launch s))).
Proof.
  intros Hidle. unfold Download.startDownload.
  assert (H0 : atMostOneStored Download.downloading (content s)).
  { destruct (content s); simpl in *; auto. now apply atMostOne_none. }
  destruct launch as [pid|]; [|exact H0].
  destruct s as [c w log]. run_fs.
  destruct c as [| | |l]; simpl; try exact I.
  destruct w; simpl; [|exact H0]. now apply atMostOne_updateFirst.
Qed.

Lemma startTranscode_from_idle taskID launch now (s : fs Transcode.TranscodeTask) :
  idle Transcode.transcoding (content s) ->
  atMostOneStored Transcode.transcoding
    (content (snd (Transcode.startTranscode taskID launch now s))).
Proof.
  intros Hidle. unfold Transcode.startTranscode.
  assert (H0 : atMostOneStored Transcode.transcoding (content s)).
  { destruct (content s); simpl in *; auto. now apply atMostOne_none. }
  destruct s as [c w log]. run_fs.
  destruct c as [| | |l]; simpl; try exact I.
  destruct (firstMatch _ l) as [[i x]|]; [|exact H0].
  destruct launch as [pid|]; [|exact H0].
  simpl. destruct w; simpl; [|exact H0]. now apply atMostOne_insert.
Qed.

Lemma recoverDownloads_writable now (s : fs Download.task) :
  writable s = true ->
  idle Download.downloading (content (snd (Download.recoverDownloads now s)))
  /\ forall l, fst (Download.recoverDownloads now s) = Some l ->
               content (snd (Download.recoverDownloads now s)) = Stored l.
Proof.
  unfold Download.recoverDownloads. destruct s as [c w log]. run_fs. intros ->.
  destruct c as [| | |l]; simpl; try (split; [exact I|discriminate]).
  - split; [reflexivity|discriminate].
  - rewrite download_demoteLoop_spec.
    pose proof (pass_idle Download.downloading _ (download_demoted_not_downloading now) l)
      as Hidle.
    destruct (existsb Download.downloading l) eqn:Hex; simpl.
    + split; [exact Hidle|]. intros l' H. now injection H as <-.
    + split; [exact Hex|]. intros l' H. injection H as <-. f_equal.
      clear Hidle. induction l as [|x l IH]; [reflexivity|].
      simpl in Hex. apply orb_false_iff in Hex as [Hx Hl]. simpl. now rewrite Hx, <- IH.
Qed.

Lemma recoverTranscodes_writable now (s : fs Transcode.TranscodeTask) :
  writable s = true ->
  idle Transcode.transcoding (content (snd (Transcode.recoverTranscodes now s)))
  /\ forall l, fst (Transcode.recoverTranscodes now s) = Some l ->
               content (snd (Transcode.recoverTranscodes now s)) = Stored l.
Proof.
  assert (Hd : forall t, Transcode.transcoding (Transcode.backToWaiting now t) = false)
    by reflexivity.
  unfold Transcode.recoverTranscodes. destruct s as [c w log]. run_fs. intros ->.
  destruct c as [| | |l]; simpl; try (split; [exact I|discriminate]).
  - split; [reflexivity|discriminate].
  - rewrite transcode_demoteLoop_spec.
    pose proof (pass_idle Transcode.transcoding _ Hd l) as Hidle.
    destruct (existsb Transcode.transcoding l) eqn:Hex; simpl.
    + split; [exact Hidle|]. intros l' H. now injection H as <-.
    + split; [exact Hex|]. intros l' H. injection H as <-. f_equal.
      clear Hidle. induction l as [|x l IH]; [reflexivity|].
      simpl in Hex. apply orb_false_iff in Hex as [Hx Hl]. simpl. now rewrite Hx, <- IH.
Qed.

(** X2. Whatever the progress files hold when the program starts, any
    number of tasks left active included, each half of startup leaves at
    most one active task in its file, provided the file can be written. *)
Theorem startup_restores_single_active
    (parseTime : string -> option Z) (nowText : string) (now : Z) (launch : option Z)
    (d : fs Download.task) (t : fs Transcode.TranscodeTask) :
  writable d = true ->
  writable t = true ->
  atMostOneStored Download.downloading
    (content (snd (Download.startupDownloads parseTime nowText launch d)))
  /\ atMostOneStored Transcode.transcoding
       (content (snd (Transcode.startupTranscodes now launch t))).
Proof.
  intros Hd Ht. split.
  - unfold Download.startupDownloads. unfold bind at 1.
    destruct (recoverDownloads_writable nowText d Hd) as [Hidle _].
    assert (H0 : atMostOneStored Download.downloading
                   (content (snd (Download.recoverDownloads nowText d)))).
    { destruct (content _); simpl in *; auto. now apply atMostOne_none. }
    destruct (Download.recoverDownloads nowText d) as [[progressList|] d1]; simpl in *;
      [|exact H0].
    destruct (Download.earliestWaiting parseTime progressList) as [[task k]|]; [|exact H0].
    destruct (Download.mustString "taskId" task); [|exact H0].
    destruct (Download.mustString "magnetLink" task); [|exact H0].
    destruct (Download.mustString "outputDir" task); [|exact H0].
    rewrite snd_bind_ret. now apply startDownload_from_idle.
  - unfold Transcode.startupTranscodes. unfold bind at 1.
    destruct (recoverTranscodes_writable now t Ht) as [Hidle _].
    assert (H0 : atMostOneStored Transcode.transcoding
                   (content (snd (Transcode.recoverTranscodes now t)))).
    { destruct (content _); simpl in *; auto. now apply atMostOne_none. }
    destruct (Transcode.recoverTranscodes now t) as [[transcodeTasks|] t1]; simpl in *;
      [|exact H0].
    destruct (Transcode.earliestWaiting transcodeTasks) as [task|]; [|exact H0].
    rewrite snd_bind_ret. now apply startTranscode_from_idle.
Qed.

Lemma startup_restores_single_active_witness :
  let a := Samples.transcode "transcode-1" "transcoding" 100 4242 "" in
  let b := Samples.transcode "transcode-2" "transcoding" 200 4343 "" in
  let p := Samples.download "task-1" "downloading" "2024-05-01T10:00:00Z" (Some (JNum 1)) in
  let q := Samples.download "task-2" "downloading" "2024-05-01T10:05:00Z" (Some (JNum 2)) in
  atMostOneStored Download.downloading
    (content (snd (Download.startupDownloads (fun _ => Some 0%Z) "2024-05-02T08:00:00Z"
                     (Some 7%Z) (onDisk (Stored [p; q]) true))))
  /\ atMostOneStored Transcode.transcoding
       (content (snd (Transcode.startupTranscodes 900 (Some 7%Z)
                        (onDisk (Stored [a; b]) true)))).
Proof.
  intros a b p q.
  exact (startup_restores_single_active (fun _ => Some 0%Z) "2024-05-02T08:00:00Z" 900
           (Some 7%Z) (onDisk (Stored [p; q]) true) (onDisk (Stored [a; b]) true)
           eq_refl eq_refl).
Defined.

Lemma transcode_earliestWaiting_some l :
  existsb Transcode.waiting l = true -> exists t, Transcode.earliestWaiting l = Some t.
Proof.
  intros Hex. destruct (Transcode.earliestWaiting l) as [t|] eqn:He; [eauto|].
  unfold Transcode.earliestWaiting in He. rewrite transcode_earliestLoop_by in He.
  simpl in He. pose proof (earliestBy_spec transcodeStart l None) as Hs.
  destruct (earliestBy transcodeStart l None) as [[t k]|]; [discriminate|].
  destruct Hs as [_ Hnone]. apply existsb_exists in Hex as (x & Hin & Hx).
  apply list_elem_of_In, list_elem_of_lookup in Hin as [j Hj].
  specialize (Hnone j x Hj). unfold transcodeStart in Hnone. rewrite Hx in Hnone.
  discriminate.
Qed.

Lemma demoted_has_waiting now l :
  existsb (fun t => Transcode.transcoding t || Transcode.waiting t) l = true ->
  existsb Transcode.waiting
    (map (fun t => if Transcode.transcoding t then Transcode.backToWaiting now t else t) l)
  = true.
Proof.
  induction l as [|t l IH]; [discriminate|].
  simpl. intros H. apply orb_true_iff in H as [H|H].
  - destruct (Transcode.transcoding t); [reflexivity|]. simpl in H. now rewrite H.
  - rewrite (IH H). apply orb_true_r.
Qed.

(** X3. When transcode_progress.json can be loaded and written, holds a
    task that is transcoding or waiting, and ffmpeg can be launched, the
    transcode half of startup ends with exactly one task transcoding. *)
Theorem startup_resumes_transcode
    (now pid : Z) (l : list Transcode.TranscodeTask)
    (log : list (list Transcode.TranscodeTask)) :
  existsb (fun t => Transcode.transcoding t || Transcode.waiting t) l = true ->
  exists l',
    content (snd (Transcode.startupTranscodes now (Some pid) (mkFs (Stored l) true log)))
    = Stored l'
    /\ existsb Transcode.transcoding l' = true
    /\ atMostOne Transcode.transcoding l'.
Proof.
  intros Hex.
  pose proof (demoted_has_waiting now l Hex) as Hwait.
  assert (Hidle : existsb Transcode.transcoding
                    (map (fun t => if Transcode.transcoding t
                                   then Transcode.backToWaiting now t else t) l) = false).
  { apply pass_idle. reflexivity. }
  set (demoted := map _ l) in *.
  destruct (transcode_earliestWaiting_some demoted Hwait) as [t Ht].
  destruct (transcode_earliestWaiting_first demoted t Ht) as (i & Hi & _).
  destruct (firstMatch_exists (fun q => Transcode.idIs q (Transcode.TaskID t)) demoted i t Hi)
    as (i' & x & Hf).
  { unfold Transcode.idIs. apply String.eqb_refl. }
  pose proof Hf as Hf'. apply firstMatch_Some in Hf' as (Hx & _).
  exists (<[i' := Transcode.markTranscoding pid now x]> demoted).
  split; [|split].
  - unfold Transcode.startupTranscodes, Transcode.recoverTranscodes. run_fs.
    rewrite transcode_demoteLoop_spec. fold demoted.
    destruct (existsb Transcode.transcoding l) eqn:Hact; simpl.
    + rewrite Ht. unfold Transcode.startTranscode. run_fs. now rewrite Hf.
    + assert (Hd : demoted = l) by (now apply map_unless_active).
      rewrite Ht. clearbody demoted. subst demoted.
      unfold Transcode.startTranscode. run_fs. now rewrite Hf.
  - now apply existsb_insert_active with (x := x).
  - now apply atMostOne_insert.
Qed.

Lemma startup_resumes_transcode_witness :
  let a := Samples.transcode "transcode-1" "transcoding" 100 4242 "" in
  let b := Samples.transcode "transcode-2" "waiting" 50 0 "" in
  exists l',
    content (snd (Transcode.startupTranscodes 900 (Some 7%Z) (mkFs (Stored [a; b]) true [])))
    = Stored l'
    /\ existsb Transcode.transcoding l' = true
    /\ atMostOne Transcode.transcoding l'.
Proof.
  intros a b. exact (startup_resumes_transcode 900 7 [a; b] [] eq_refl).
Defined.

(** ** Enqueue *)

Lemma startDownload_marks taskId pid (l : list Download.task) log i x :
  firstMatch (fun t => Download.idIs t taskId) l = Some (i, x) ->
  Download.startDownload taskId (Some pid) (mkFs (Stored l) true log)
  = (None, mkFs (Stored (<[i := Download.markDownloading pid x]> l)) true
             (log ++ [<[i := Download.markDownloading pid x]> l])).
Proof.
  intros Hf. unfold Download.startDownload, updateFirst. run_fs. now rewrite Hf.
Qed.

Lemma initialProgress_id taskId magnetLink fileName now selectedFiles :
  Download.idIs (Download.initialProgress taskId magnetLink fileName now selectedFiles) taskId
  = true.
Proof.
  unfold Download.idIs, Download.fieldIs, Download.initialProgress.
  simpl. rewrite lookup_insert_eq. apply String.eqb_refl.
Qed.

(** X4. DownloadTorrentFiles on a store without a downloading task, with
    a task id that no stored task has and a tool that can be launched,
    starts the new task itself: the file ends as the old list followed
    by the new record marked "downloading" with the pid, whether or not
    older tasks are waiting in the list. *)
Theorem enqueue_download_starts_new_task
    (l : list Download.task) (log : list (list Download.task))
    (magnetLink taskId fileName now : string) (selectedFiles : list string) (pid : Z) :
  existsb Download.downloading l = false ->
  existsb (fun t => Download.idIs t taskId) l = false ->
  let new := Download.initialProgress taskId magnetLink fileName now selectedFiles in
  Download.DownloadTorrentFiles (Some magnetLink) taskId fileName now selectedFiles (Some pid)
    (mkFs (Stored l) true log)
  = (Download.Success taskId,
     mkFs (Stored (l ++ [Download.markDownloading pid new])) true
       (log ++ [l ++ [new]; l ++ [Download.markDownloading pid new]])).
Proof.
  intros Hidle Hfresh new.
  unfold Download.DownloadTorrentFiles. fold new.
  cbv [bind readStore writeStore ret content writable written]. rewrite Hidle.
  rewrite (startDownload_marks taskId pid (l ++ [new]) _ (length l) new).
  - rewrite insert_app_r_alt by lia. rewrite Nat.sub_diag. simpl.
    now rewrite <- app_assoc.
  - apply firstMatch_snoc_fresh; [exact Hfresh|apply initialProgress_id].
Qed.

Lemma enqueue_download_starts_new_task_witness :
  let old := Samples.download "task-1" "waiting" "2024-05-01T10:00:00Z" None in
  let new := Download.initialProgress "task-2" "magnet:?xt=urn:btih:02" "b.torrent"
               "2024-05-01T10:05:00Z" ["b.mkv"] in
  Download.DownloadTorrentFiles (Some "magnet:?xt=urn:btih:02") "task-2" "b.torrent"
    "2024-05-01T10:05:00Z" ["b.mkv"] (Some 4002%Z) (mkFs (Stored [old]) true [])
  = (Download.Success "task-2",
     mkFs (Stored ([old] ++ [Download.markDownloading 4002 new])) true
       ([] ++ [[old] ++ [new]; [old] ++ [Download.markDownloading 4002 new]])).
Proof.
  intros old new.
  exact (enqueue_download_starts_new_task [old] [] "magnet:?xt=urn:btih:02" "task-2"
           "b.torrent" "2024-05-01T10:05:00Z" ["b.mkv"] 4002 eq_refl eq_refl).
Defined.

(** X5. AddTranscodeTaskWithParams on a store without a transcoding
    task starts the first waiting task of the list, not the new one:
    when an older task is waiting, that task is marked "transcoding" and
    the new record stays "waiting" at the end of the list. *)
Theorem enqueue_transcode_starts_oldest_waiting
    (l : list Transcode.TranscodeTask) (log : list (list Transcode.TranscodeTask))
    (i : nat) (t : Transcode.TranscodeTask)
    (taskID inputFile outputFile ffmpegCommand videoCodec audioCodec resolution bitrate : string)
    (pid now : Z) :
  existsb Transcode.transcoding l = false ->
  firstMatch Transcode.waiting l = Some (i, t) ->
  firstMatch (fun q => Transcode.idIs q (Transcode.TaskID t)) l = Some (i, t) ->
  Transcode.TaskID t <> "" ->
  let new := Transcode.newTask taskID inputFile outputFile ffmpegCommand videoCodec
               audioCodec resolution bitrate now in
  Transcode.AddTranscodeTaskWithParams true taskID inputFile outputFile ffmpegCommand
    videoCodec audioCodec resolution bitrate (Some pid) now (mkFs (Stored l) true log)
  = (Transcode.Success taskID,
     mkFs (Stored (<[i := Transcode.markTranscoding pid now t]> l ++ [new])) true
       (log ++ [l ++ [new]; <[i := Transcode.markTranscoding pid now t]> l ++ [new]])).
Proof.
  intros Hidle Hw Hid Hne new.
  unfold Transcode.AddTranscodeTaskWithParams. fold new.
  cbv [bind readStore writeStore ret content writable written]. rewrite Hidle.
  rewrite (startNextTranscodeTask_first (l ++ [new]) i t true (log ++ [l ++ [new]])
             (Some pid) now).
  - unfold Transcode.startTranscode. run_fs.
    rewrite (firstMatch_app_l _ l [new] i t Hid). simpl.
    apply firstMatch_Some in Hid as (Hi & _).
    rewrite insert_app_l by (now apply lookup_lt_Some in Hi).
    rewrite <- app_assoc. reflexivity.
  - now apply firstMatch_app_l.
  - rewrite existsb_snoc, Hidle. reflexivity.
  - exact Hne.
Qed.

Lemma enqueue_transcode_starts_oldest_waiting_witness :
  let old := Samples.transcode "transcode-1" "waiting" 100 0 "" in
  let new := Transcode.newTask "transcode-2" "b.mkv" "b.mp4" "ffmpeg -i b.mkv b.mp4"
               "" "" "" "" 200 in
  Transcode.AddTranscodeTaskWithParams true "transcode-2" "b.mkv" "b.mp4"
    "ffmpeg -i b.mkv b.mp4" "" "" "" "" (Some 5002%Z) 200 (mkFs (Stored [old]) true [])
  = (Transcode.Success "transcode-2",
     mkFs (Stored (<[0%nat := Transcode.markTranscoding 5002 200 old]> [old] ++ [new])) true
       ([] ++ [[old] ++ [new];
               <[0%nat := Transcode.markTranscoding 5002 200 old]> [old] ++ [new]])).
Proof.
  intros old new.
  apply (enqueue_transcode_starts_oldest_waiting [old] [] 0 old "transcode-2" "b.mkv" "b.mp4"
           "ffmpeg -i b.mkv b.mp4" "" "" "" "" 5002 200); try reflexivity.
  discriminate.
Defined.

(** ** StartWaitingTask *)

(** X6. StartWaitingTask is refused, and nothing is written, when a
    task is downloading (whatever the task asked for) and when no task
    with the id is waiting. *)
Theorem StartWaitingTask_refused
    (taskId : string) (launch : option Z)
    (l : list Download.task) (w : bool) (log : list (list Download.task)) :
  existsb Download.downloading l = true
  \/ existsb (fun t => Download.idIs t taskId && Download.waiting t) l = false ->
  Download.StartWaitingTask taskId launch (mkFs (Stored l) w log)
  = (Download.Failure (if existsb Download.downloading l then ErrBusy
                       else ErrNotFound taskId),
     mkFs (Stored l) w log).
Proof.
  intros H. unfold Download.StartWaitingTask. run_fs.
  destruct (existsb Download.downloading l) eqn:Hbusy; [reflexivity|].
  destruct H as [H|H]; [discriminate|].
  rewrite find_firstMatch, (firstMatch_absent _ _ H). reflexivity.
Qed.

Lemma StartWaitingTask_refused_witness :
  let p := Samples.download "task-1" "downloading" "2024-05-01T10:00:00Z" (Some (JNum 1)) in
  let q := Samples.download "task-2" "waiting" "2024-05-01T10:05:00Z" None in
  Download.StartWaitingTask "task-2" (Some 9%Z) (mkFs (Stored [p; q]) true [])
  = (Download.Failure ErrBusy, mkFs (Stored [p; q]) true []).
Proof.
  intros p q.
  exact (StartWaitingTask_refused "task-2" (Some 9%Z) [p; q] true [] (or_introl eq_refl)).
Defined.

(** X7. When no task is downloading, StartWaitingTask starts the
    waiting task with the given id wherever it stands in the list, ahead
    of older waiting tasks: the record is marked "downloading" with the
    pid of the new process. *)
Theorem StartWaitingTask_starts_chosen_task
    (taskId magnetLink dir : string) (pid : Z)
    (l : list Download.task) (log : list (list Download.task))
    (i : nat) (t : Download.task) :
  existsb Download.downloading l = false ->
  firstMatch (fun q => Download.idIs q taskId) l = Some (i, t) ->
  Download.waiting t = true ->
  Download.mustString "magnetLink" t = Some magnetLink ->
  Download.mustString "outputDir" t = Some dir ->
  Download.StartWaitingTask taskId (Some pid) (mkFs (Stored l) true log)
  = (Download.Success taskId,
     mkFs (Stored (<[i := Download.markDownloading pid t]> l)) true
       (log ++ [<[i := Download.markDownloading pid t]> l])).
Proof.
  intros Hidle Hf Hw Hm Hd. unfold Download.StartWaitingTask.
  cbv [bind readStore ret content]. rewrite Hidle.
  rewrite find_firstMatch, (firstMatch_weaken _ Download.waiting l i t Hf Hw).
  change (snd <$> Some (i, t)) with (Some t). cbv iota.
  rewrite Hm, Hd. now rewrite (startDownload_marks taskId pid l log i t Hf).
Qed.

Lemma StartWaitingTask_starts_chosen_task_witness :
  let p := Samples.download "task-1" "waiting" "2024-05-01T10:00:00Z" None in
  let q := Samples.download "task-2" "waiting" "2024-05-01T10:05:00Z" None in
  Download.StartWaitingTask "task-2" (Some 9%Z) (mkFs (Stored [p; q]) true [])
  = (Download.Success "task-2",
     mkFs (Stored (<[1%nat := Download.markDownloading 9 q]> [p; q])) true
       ([] ++ [<[1%nat := Download.markDownloading 9 q]> [p; q]])).
Proof.
  intros p q.
  exact (StartWaitingTask_starts_chosen_task "task-2" _ _ 9 [p; q] [] 1 q
           eq_refl eq_refl eq_refl eq_refl eq_refl).
Defined.

(** ** Cancel of a task that is running *)

Lemma cancelLoop_first_number taskId now l j p v :
  firstMatch (fun t => Download.idIs t taskId) l = Some (j, p) ->
  p !! "pid" = Some (JNum v) ->
  Download.cancelLoop taskId now l
  = (true, if Download.statusIs p "downloading" then [int_of_float v] else [],
     <[j := Download.markCancelled now p]> l).
Proof.
  rewrite firstMatch_Some. revert j.
  induction l as [|t rest IH]; intros j (Hj & Hid & Hfirst) Hpid.
  - rewrite lookup_nil in Hj. discriminate.
  - destruct j as [|j]; simpl in Hj.
    + injection Hj as ->. simpl. rewrite Hid. unfold Download.hasPid. rewrite Hpid.
      destruct (Download.statusIs p "downloading"); reflexivity.
    + assert (Ht : Download.idIs t taskId = false).
      { apply (Hfirst 0%nat t); [reflexivity|lia]. }
      simpl. rewrite Ht. rewrite (IH j); [reflexivity| |exact Hpid].
      split; [exact Hj|]. split; [exact Hid|].
      intros k y Hk Hkj. apply (Hfirst (S k) y); [exact Hk|lia].
Qed.

Lemma download_markCancelled_protected now p :
  Download.protected (Download.markCancelled now p) = true.
Proof.
  unfold Download.protected, Download.statusIs, Download.fieldIs, Download.markCancelled.
  now simplify_map_eq.
Qed.

Lemma download_markCancelled_id now p taskId :
  Download.idIs (Download.markCancelled now p) taskId = Download.idIs p taskId.
Proof.
  unfold Download.idIs, Download.fieldIs, Download.markCancelled. now simplify_map_eq.
Qed.

Lemma monitorExit_parts taskId waitFailed now launch (s : fs Download.task) :
  Download.monitorExit taskId waitFailed now launch s
  = (let* d := Download.exitScan taskId waitFailed now in Download.exitWrite d launch) s
  /\ snd (Download.exitScan taskId waitFailed now s) = s.
Proof.
  unfold Download.monitorExit, Download.exitScan, Download.exitWrite.
  cbv [bind readStore ret].
  destruct (content s) as [| | |l]; split; reflexivity.
Qed.

Lemma CancelDownload_parts taskId now (s : fs Download.task) :
  Download.CancelDownload taskId now s
  = (let* c := Download.cancelScan taskId now in Download.cancelWrite taskId c) s
  /\ snd (Download.cancelScan taskId now s) = s.
Proof.
  unfold Download.CancelDownload, Download.cancelScan, Download.cancelWrite.
  cbv [bind readStore ret].
  destruct (content s) as [| | |l]; try (split; reflexivity).
  destruct (Download.cancelLoop taskId now l) as [[taskFound kills] updated].
  split; reflexivity.
Qed.

Lemma startNextWaitingTask_writable launch (s : fs Download.task) :
  writable (snd (Download.startNextWaitingTask launch s)) = writable s.
Proof.
  unfold Download.startNextWaitingTask, Download.startDownload.
  destruct s as [c w log]. run_fs.
  destruct c as [| | |l]; simpl; try reflexivity.
  destruct (existsb Download.downloading l); simpl; [reflexivity|].
  destruct (find Download.waiting l) as [nextTask|]; simpl; [|reflexivity].
  destruct (Download.mustString "taskId" nextTask); simpl; [|reflexivity].
  destruct (Download.mustString "magnetLink" nextTask); simpl; [|reflexivity].
  destruct (Download.mustString "outputDir" nextTask); simpl; [|reflexivity].
  destruct launch; simpl; [|reflexivity].
  destruct w; reflexivity.
Qed.

Lemma cancelLoop_first_any taskId now l i p :
  firstMatch (fun t => Download.idIs t taskId) l = Some (i, p) ->
  (Download.statusIs p "downloading" && Download.hasPid p = false
   \/ exists v, p !! "pid" = Some (JNum v)) ->
  exists kills,
    Download.cancelLoop taskId now l = (true, kills, <[i := Download.markCancelled now p]> l).
Proof.
  intros Hf [Hq|[v Hv]].
  - rewrite (cancelLoop_first _ _ _ _ _ Hf Hq). eauto.
  - rewrite (cancelLoop_first_number _ _ _ _ _ _ Hf Hv). eauto.
Qed.

(** X8. What becomes of a download that is cancelled while its process
    ends depends on the order in which CancelDownload and the
    monitoring goroutine reach the file, and nothing fixes that order.
    When the goroutine reads the file after CancelDownload has written
    it, it finds the task cancelled, writes nothing of its own and goes
    on to startNextWaitingTask. When it has read the file before that
    write and writes after it, its snapshot replaces the cancelled
    record by the exit transition of the record it read ("waiting" after
    a failed [Wait], which startNextWaitingTask may start again). When
    it runs between the read of CancelDownload, where the process is
    killed, and its write, CancelDownload then stores the list it read
    with the task cancelled, over whatever the goroutine wrote. *)
Theorem download_cancel_races_with_exit
    (taskId now later : string) (waitFailed : bool) (launch : option Z)
    (l : list Download.task) (log : list (list Download.task))
    (i : nat) (p : Download.task) :
  firstMatch (fun t => Download.idIs t taskId) l = Some (i, p) ->
  (Download.statusIs p "downloading" && Download.hasPid p = false
   \/ exists v, p !! "pid" = Some (JNum v)) ->
  Download.protected p = false ->
  let s := mkFs (Stored l) true log in
  let cancelled := <[i := Download.markCancelled now p]> l in
  let ended := <[i := Download.exitUpdate waitFailed later p]> l in
  (* the goroutine reads after the write of the cancel *)
  (let s1 := snd (Download.CancelDownload taskId now s) in
   s1 = mkFs (Stored cancelled) true (log ++ [cancelled])
   /\ Download.monitorExit taskId waitFailed later launch s1
      = Download.startNextWaitingTask launch s1)
  (* the goroutine reads before the write of the cancel and writes after it *)
  /\ (let d := fst (Download.exitScan taskId waitFailed later s) in
      let s1 := snd (Download.CancelDownload taskId now s) in
      exists more,
        written (snd (Download.exitWrite d launch s1)) = log ++ [cancelled; ended] ++ more)
  (* the goroutine runs between the read and the write of the cancel *)
  /\ (let c := fst (Download.cancelScan taskId now s) in
      let s1 := snd (Download.monitorExit taskId waitFailed later launch s) in
      exists more,
        written s1 = log ++ [ended] ++ more
        /\ snd (Download.cancelWrite taskId c s1)
           = mkFs (Stored cancelled) true (written s1 ++ [cancelled])).
Proof.
  intros Hf Hpid Hprot s cancelled ended.
  destruct (cancelLoop_first_any taskId now l i p Hf Hpid) as [kills Hloop].
  assert (Hcancel : snd (Download.CancelDownload taskId now s)
                    = mkFs (Stored cancelled) true (log ++ [cancelled])).
  { unfold Download.CancelDownload, s. run_fs. now rewrite Hloop. }
  assert (Hexit : Download.exitTransition taskId waitFailed later l = Some ended).
  { unfold Download.exitTransition. now rewrite Hf, Hprot. }
  split; [|split].
  - cbv zeta. rewrite Hcancel. split; [reflexivity|].
    unfold Download.monitorExit. cbv [bind readStore content].
    unfold Download.exitTransition, cancelled.
    rewrite (firstMatch_insert _ l i p (Download.markCancelled now p) Hf).
    + now rewrite download_markCancelled_protected.
    + rewrite download_markCancelled_id. now apply firstMatch_Some in Hf as (_ & Hid & _).
  - cbv zeta. rewrite Hcancel.
    unfold Download.exitScan, s. cbv [bind readStore ret content fst]. rewrite Hexit.
    change (snd (Download.exitWrite (Download.ExitLoaded (Some ended)) launch
                   (mkFs (Stored cancelled) true (log ++ [cancelled]))))
      with (snd (Download.startNextWaitingTask launch
                   (mkFs (Stored ended) true ((log ++ [cancelled]) ++ [ended])))).
    destruct (startNextWaitingTask_log launch
                (mkFs (Stored ended) true ((log ++ [cancelled]) ++ [ended]))) as [more Hmore].
    exists more. rewrite Hmore. cbv [written]. now rewrite <- !app_assoc.
  - cbv zeta.
    assert (Hrun : snd (Download.monitorExit taskId waitFailed later launch s)
                   = snd (Download.startNextWaitingTask launch
                            (mkFs (Stored ended) true (log ++ [ended])))).
    { unfold Download.monitorExit, s. cbv [bind readStore content].
      rewrite Hexit. reflexivity. }
    rewrite Hrun.
    destruct (startNextWaitingTask_log launch (mkFs (Stored ended) true (log ++ [ended])))
      as [more Hmore].
    pose proof (startNextWaitingTask_writable launch
                  (mkFs (Stored ended) true (log ++ [ended]))) as Hw.
    exists more. split; [rewrite Hmore; cbv [written]; now rewrite <- app_assoc|].
    unfold Download.cancelScan, s. cbv [bind readStore ret content fst]. rewrite Hloop.
    unfold Download.cancelWrite. cbv [bind writeStore ret].
    rewrite Hw. reflexivity.
Qed.

Lemma download_cancel_races_with_exit_witness :
  let p := Samples.download "task-1" "downloading" "2024-05-01T10:00:00Z"
             (Some (JNum 4242)) in
  let s := mkFs (Stored [p]) true [] in
  let status := map (map (fun x : Download.task => x !! "status")) in
  (* cancel, then the goroutine *)
  status (written (snd (Download.monitorExit "task-1" true "2024-05-01T10:06:01Z" (Some 4300%Z)
                          (snd (Download.CancelDownload "task-1" "2024-05-01T10:06:00Z" s)))))
  = [[Some (JStr "cancelled")]]
  (* the goroutine reads, the cancel writes, the goroutine writes *)
  /\ status (written (snd (Download.exitWrite
                             (fst (Download.exitScan "task-1" true "2024-05-01T10:06:01Z" s))
                             (Some 4300%Z)
                             (snd (Download.CancelDownload "task-1" "2024-05-01T10:06:00Z" s)))))
     = [[Some (JStr "cancelled")]; [Some (JStr "waiting")]; [Some (JStr "downloading")]]
  (* the cancel reads, the goroutine runs, the cancel writes *)
  /\ status (written (snd (Download.cancelWrite "task-1"
                             (fst (Download.cancelScan "task-1" "2024-05-01T10:06:00Z" s))
                             (snd (Download.monitorExit "task-1" true "2024-05-01T10:06:01Z"
                                     (Some 4300%Z) s)))))
     = [[Some (JStr "waiting")]; [Some (JStr "downloading")]; [Some (JStr "cancelled")]].
Proof.
  intros p s status.
  assert (Hpid : Download.statusIs p "downloading" && Download.hasPid p = false
                 \/ exists v, p !! "pid" = Some (JNum v)).
  { right. exists 4242%float. reflexivity. }
  destruct (download_cancel_races_with_exit "task-1" "2024-05-01T10:06:00Z"
              "2024-05-01T10:06:01Z" true (Some 4300%Z) [p] [] 0 p eq_refl Hpid eq_refl)
    as ((H1 & H2) & _ & _).
  split; [|split; reflexivity].
  fold s in H1, H2. rewrite H2, H1. reflexivity.
Defined.

(** X9. Cancel of a running task asks for the termination of exactly
    one process, the one whose pid the record holds, and marks the task
    "cancelled"; the record keeps its pid. *)
Theorem cancel_running_task_kills_its_process
    (taskId nowText : string) (now : Z) (v : float)
    (dl : list Download.task) (logd : list (list Download.task))
    (j : nat) (p : Download.task)
    (tl : list Transcode.TranscodeTask) (logt : list (list Transcode.TranscodeTask))
    (i : nat) (t : Transcode.TranscodeTask) :
  firstMatch (fun x => Download.idIs x taskId) dl = Some (j, p) ->
  Download.downloading p = true ->
  p !! "pid" = Some (JNum v) ->
  firstMatch (fun x => Transcode.idIs x taskId) tl = Some (i, t) ->
  Transcode.transcoding t = true ->
  Transcode.PID t <> 0%Z ->
  let dl' := <[j := Download.markCancelled nowText p]> dl in
  let tl' := <[i := Transcode.markCancelled now t]> tl in
  Download.CancelDownload taskId nowText (mkFs (Stored dl) true logd)
    = ((Download.Success taskId, [int_of_float v]), mkFs (Stored dl') true (logd ++ [dl']))
  /\ Transcode.CancelTranscode taskId now (mkFs (Stored tl) true logt)
     = ((Transcode.Success taskId, [Transcode.PID t]), mkFs (Stored tl') true (logt ++ [tl']))
  /\ Download.markCancelled nowText p !! "pid" = Some (JNum v)
  /\ Download.markCancelled nowText p !! "status" = Some (JStr "cancelled")
  /\ Transcode.PID (Transcode.markCancelled now t) = Transcode.PID t
  /\ Transcode.Status (Transcode.markCancelled now t) = "cancelled".
Proof.
  intros Hp Hact Hpid Ht Htr Hne dl' tl'.
  split.
  { unfold Download.CancelDownload. run_fs.
    rewrite (cancelLoop_first_number _ _ _ _ _ _ Hp Hpid).
    unfold Download.downloading in Hact. now rewrite Hact. }
  split.
  { unfold Transcode.CancelTranscode. run_fs. rewrite Ht. simpl.
    unfold Transcode.killsOf. unfold Transcode.transcoding in Htr. rewrite Htr.
    destruct (Z.eqb_spec (Transcode.PID t) 0); [contradiction|reflexivity]. }
  unfold Download.markCancelled.
  split; [now simplify_map_eq|]. split; [now simplify_map_eq|].
  split; reflexivity.
Qed.

Lemma cancel_running_task_kills_its_process_witness :
  let p := Samples.download "task-1" "downloading" "2024-05-01T10:00:00Z"
             (Some (JNum 4242)) in
  let t := Samples.transcode "task-1" "transcoding" 100 4343 "" in
  fst (Download.CancelDownload "task-1" "2024-05-01T10:06:00Z" (mkFs (Stored [p]) true []))
  = (Download.Success "task-1", [4242%Z])
  /\ fst (Transcode.CancelTranscode "task-1" 500 (mkFs (Stored [t]) true []))
     = (Transcode.Success "task-1", [4343%Z]).
Proof.
  intros p t.
  destruct (cancel_running_task_kills_its_process "task-1" "2024-05-01T10:06:00Z" 500
              4242%float [p] [] 0 p [t] [] 0 t eq_refl eq_refl eq_refl eq_refl eq_refl)
    as (H1 & H2 & _); [discriminate|].
  rewrite H1, H2. split; reflexivity.
Defined.

Lemma cancelLoop_skipped taskId now l j p :
  firstMatch (fun t => Download.idIs t taskId) l = Some (j, p) ->
  Download.statusIs p "downloading" && Download.hasPid p = true ->
  (forall v, p !! "pid" <> Some (JNum v)) ->
  (forall k y, l !! k = Some y -> Download.idIs y taskId = true -> k = j) ->
  Download.cancelLoop taskId now l = (true, [], l).
Proof.
  rewrite firstMatch_Some. revert j.
  induction l as [|t rest IH]; intros j (Hj & Hid & Hfirst) Hrun Hnum Huniq.
  - rewrite lookup_nil in Hj. discriminate.
  - destruct j as [|j]; simpl in Hj.
    + injection Hj as ->. simpl. rewrite Hid, Hrun.
      assert (Hrest : existsb (fun t => Download.idIs t taskId) rest = false).
      { destruct (existsb _ rest) eqn:Hex; [|reflexivity].
        apply existsb_exists in Hex as (y & Hin & Hy).
        apply list_elem_of_In, list_elem_of_lookup in Hin as [k Hk].
        specialize (Huniq (S k) y Hk Hy). discriminate. }
      rewrite (cancelLoop_absent _ _ _ Hrest).
      destruct (p !! "pid") as [[| |x| | |]|] eqn:Hp; try reflexivity.
      now destruct (Hnum x).
    + assert (Ht : Download.idIs t taskId = false).
      { apply (Hfirst 0%nat t); [reflexivity|lia]. }
      simpl. rewrite Ht. rewrite (IH j); [reflexivity| |exact Hrun|exact Hnum|].
      * split; [exact Hj|]. split; [exact Hid|].
        intros k y Hk Hkj. apply (Hfirst (S k) y); [exact Hk|lia].
      * intros k y Hk Hy. specialize (Huniq (S k) y Hk Hy). lia.
Qed.

(** X10. A downloading task whose pid field is present but is not a
    number is skipped by CancelDownload: when no other task has the id,
    the call returns success, kills nothing, and rewrites the file with
    the task still "downloading". *)
Theorem cancel_skips_task_with_odd_pid
    (taskId now : string) (l : list Download.task) (log : list (list Download.task))
    (i : nat) (p : Download.task) :
  firstMatch (fun t => Download.idIs t taskId) l = Some (i, p) ->
  Download.statusIs p "downloading" && Download.hasPid p = true ->
  (forall v, p !! "pid" <> Some (JNum v)) ->
  (forall k y, l !! k = Some y -> Download.idIs y taskId = true -> k = i) ->
  Download.CancelDownload taskId now (mkFs (Stored l) true log)
  = ((Download.Success taskId, []), mkFs (Stored l) true (log ++ [l])).
Proof.
  intros Hf Hrun Hnum Huniq. unfold Download.CancelDownload. run_fs.
  now rewrite (cancelLoop_skipped _ _ _ _ _ Hf Hrun Hnum Huniq).
Qed.

Lemma cancel_skips_task_with_odd_pid_witness :
  let p := Samples.download "task-1" "downloading" "2024-05-01T10:00:00Z"
             (Some (JStr "4242")) in
  Download.CancelDownload "task-1" "2024-05-01T10:06:00Z" (mkFs (Stored [p]) true [])
  = ((Download.Success "task-1", []), mkFs (Stored [p]) true ([] ++ [[p]])).
Proof.
  intros p.
  apply (cancel_skips_task_with_odd_pid "task-1" "2024-05-01T10:06:00Z" [p] [] 0 p);
    [reflexivity|reflexivity|intros v H; discriminate H|].
  intros [|k] y Hk _; [reflexivity|]. simpl in Hk. rewrite lookup_nil in Hk. discriminate.
Defined.

(** ** A download whose process fails *)

Lemma existsb_false_intro {A} (P : A -> bool) (l : list A) :
  (forall j y, l !! j = Some y -> P y = false) -> existsb P l = false.
Proof.
  intros H. destruct (existsb P l) eqn:Hex; [|reflexivity].
  apply existsb_exists in Hex as (y & Hin & Hy).
  apply list_elem_of_In, list_elem_of_lookup in Hin as [j Hj].
  rewrite (H j y Hj) in Hy. discriminate.
Qed.

Lemma download_backToWaiting_fields now p :
  Download.waiting (Download.backToWaiting now p) = true
  /\ (forall taskId, Download.idIs (Download.backToWaiting now p) taskId
                     = Download.idIs p taskId)
  /\ (forall key, key <> "status" -> key <> "endTime" -> key <> "pid" ->
        Download.mustString key (Download.backToWaiting now p) = Download.mustString key p).
Proof.
  unfold Download.waiting, Download.statusIs, Download.idIs, Download.fieldIs,
    Download.mustString, Download.backToWaiting.
  split; [now simplify_map_eq|]. split; [intros; now simplify_map_eq|].
  intros key H1 H2 H3. now simplify_map_eq.
Qed.

Lemma idIs_mustString p taskId :
  Download.idIs p taskId = true -> Download.mustString "taskId" p = Some taskId.
Proof.
  unfold Download.idIs, Download.fieldIs, Download.mustString.
  destruct (p !! "taskId") as [[| | |s| |]|]; try discriminate.
  intros H. apply String.eqb_eq in H. now subst.
Qed.

(** X11. A download whose [Wait] reports an error is launched again at
    once when the tool can be launched, no other task is downloading and
    no task stands waiting before it in the list: the exit transition
    puts it back to "waiting" and the promote-next scan that follows
    marks the same record "downloading" with the new pid. *)
Theorem failed_download_is_relaunched
    (taskId now magnetLink dir : string) (pid : Z)
    (l : list Download.task) (log : list (list Download.task))
    (i : nat) (p : Download.task) :
  firstMatch (fun t => Download.idIs t taskId) l = Some (i, p) ->
  Download.protected p = false ->
  (forall j y, l !! j = Some y -> j <> i -> Download.downloading y = false) ->
  (forall j y, l !! j = Some y -> (j < i)%nat -> Download.waiting y = false) ->
  Download.mustString "magnetLink" p = Some magnetLink ->
  Download.mustString "outputDir" p = Some dir ->
  let back := <[i := Download.backToWaiting now p]> l in
  let again := <[i := Download.markDownloading pid (Download.backToWaiting now p)]> l in
  Download.monitorExit taskId true now (Some pid) (mkFs (Stored l) true log)
  = (None, mkFs (Stored again) true (log ++ [back; again])).
Proof.
  intros Hf Hprot Hothers Hbefore Hm Hd back again.
  destruct (download_backToWaiting_fields now p) as (Hw & Hid & Hkeep).
  pose proof Hf as Hf'. apply firstMatch_Some in Hf' as (Hi & Hpid & Hfirst).
  assert (Hilt : (i < length l)%nat) by (now apply lookup_lt_Some in Hi).
  assert (Hidle : existsb Download.downloading back = false).
  { apply existsb_false_intro. intros j y Hj. unfold back in Hj.
    destruct (decide (j = i)) as [->|Hne].
    - rewrite list_lookup_insert_eq in Hj by exact Hilt. injection Hj as <-.
      apply download_demoted_not_downloading.
    - rewrite list_lookup_insert_ne in Hj by congruence. now apply (Hothers j y). }
  assert (Hnext : firstMatch Download.waiting back = Some (i, Download.backToWaiting now p)).
  { apply firstMatch_Some. split; [|split; [exact Hw|]].
    - unfold back. now apply list_lookup_insert_eq.
    - intros j y Hj Hji. unfold back in Hj.
      rewrite list_lookup_insert_ne in Hj by lia. now apply (Hbefore j y). }
  assert (Hsame : firstMatch (fun t => Download.idIs t taskId) back
                  = Some (i, Download.backToWaiting now p)).
  { unfold back. apply (firstMatch_insert _ l i p _ Hf). now rewrite Hid. }
  unfold Download.monitorExit, Download.exitTransition.
  cbv [bind readStore writeStore ret content writable written]. rewrite Hf, Hprot.
  cbv [Download.exitUpdate]. fold back.
  rewrite (startNextWaitingTask_first back i (Download.backToWaiting now p) taskId
             magnetLink dir true (log ++ [back]) (Some pid) Hnext Hidle).
  - rewrite (startDownload_marks taskId pid back _ i _ Hsame).
    unfold back. rewrite list_insert_insert_eq. fold again.
    now rewrite <- app_assoc.
  - apply idIs_mustString. now rewrite Hid.
  - rewrite Hkeep by discriminate. exact Hm.
  - rewrite Hkeep by discriminate. exact Hd.
Qed.

Lemma failed_download_is_relaunched_witness :
  let p := Samples.download "task-1" "downloading" "2024-05-01T10:00:00Z"
             (Some (JNum 4242)) in
  let l := [p] in
  fst (Download.monitorExit "task-1" true "2024-05-01T10:06:00Z" (Some 4243%Z)
         (mkFs (Stored l) true [])) = None
  /\ content (snd (Download.monitorExit "task-1" true "2024-05-01T10:06:00Z" (Some 4243%Z)
                     (mkFs (Stored l) true [])))
     = Stored (<[0%nat := Download.markDownloading 4243
                             (Download.backToWaiting "2024-05-01T10:06:00Z" p)]> l).
Proof.
  intros p l.
  rewrite (failed_download_is_relaunched "task-1" "2024-05-01T10:06:00Z"
             "magnet:?xt=urn:btih:c12fe1c06bba254a9dc9f519b335aa7c1367a88a"
             Download.outputDir 4243 l [] 0 p eq_refl eq_refl).
  - split; reflexivity.
  - intros [|j] y Hj Hne; [congruence|]. simpl in Hj. rewrite lookup_nil in Hj. discriminate.
  - intros j y _ Hlt. lia.
  - reflexivity.
  - reflexivity.
Defined.

(** ** The readers of monitorTranscodeProgress *)

Section ReaderFacts.

Variable ParseFloat : string -> float * bool.

Lemma stdoutLine_duration m line :
  Progress.totalDuration (fst (Progress.stdoutLine ParseFloat m line)) = Progress.totalDuration m
  /\ Progress.hasTotalDuration (fst (Progress.stdoutLine ParseFloat m line))
     = Progress.hasTotalDuration m.
Proof.
  unfold Progress.stdoutLine.
  destruct (Text.splitFirst "=" line) as [[key value]|]; [|split; reflexivity].
  assert (Hk : Progress.totalDuration (fst (Progress.readKey ParseFloat m key value))
               = Progress.totalDuration m
               /\ Progress.hasTotalDuration (fst (Progress.readKey ParseFloat m key value))
                  = Progress.hasTotalDuration m).
  { unfold Progress.readKey.
    destruct (String.eqb key "out_time").
    { destruct (Text.split _ value) as [|? [|? [|? [|? ?]]]]; split; reflexivity. }
    destruct (String.eqb key "frame"); [destruct (Text.ParseInt value); split; reflexivity|].
    destruct (String.eqb key "speed"); [split; reflexivity|].
    destruct (String.eqb key "progress"); [|split; reflexivity].
    destruct (String.eqb value "end"); split; reflexivity. }
  destruct (Progress.readKey ParseFloat m key value) as [m1 a1]. simpl in Hk.
  assert (Hc : Progress.totalDuration (fst (Progress.calculate m1)) = Progress.totalDuration m1
               /\ Progress.hasTotalDuration (fst (Progress.calculate m1))
                  = Progress.hasTotalDuration m1).
  { unfold Progress.calculate. destruct (Progress.tierOf m1); try (split; reflexivity).
    simpl. destruct (fgt _ _); split; reflexivity. }
  destruct (Progress.calculate m1) as [m2 c]. simpl in Hc.
  unfold Progress.commit. destruct (_ || _); simpl; destruct Hk, Hc; split; congruence.
Qed.

Lemma step_keeps_duration m e :
  Progress.hasTotalDuration m = true ->
  Progress.totalDuration (fst (Progress.step ParseFloat m e)) = Progress.totalDuration m
  /\ Progress.hasTotalDuration (fst (Progress.step ParseFloat m e)) = true.
Proof.
  intros Hm. destruct e as [line|line]; simpl.
  - destruct (stdoutLine_duration m line) as [H1 H2]. split; congruence.
  - unfold Progress.stderrLine. destruct (_ || _); [auto|]. rewrite Hm. auto.
Qed.

End ReaderFacts.

(** X12. Once the total duration is known, no later line of either
    stream, in any interleaving, changes it: a second [Duration:] line
    is ignored. *)
Theorem total_duration_is_set_once
    (ParseFloat : string -> float * bool) (m : Progress.monitor)
    (events : list Progress.event) :
  Progress.hasTotalDuration m = true ->
  Progress.totalDuration (fst (Progress.run ParseFloat m events)) = Progress.totalDuration m
  /\ Progress.hasTotalDuration (fst (Progress.run ParseFloat m events)) = true.
Proof.
  revert m. induction events as [|e rest IH]; intros m Hm; [auto|].
  simpl. destruct (step_keeps_duration ParseFloat m e Hm) as [H1 H2].
  destruct (Progress.step ParseFloat m e) as [m1 a1]. simpl in H1, H2.
  specialize (IH m1 H2). destruct (Progress.run ParseFloat m1 rest) as [m2 a2].
  simpl in *. destruct IH. split; congruence.
Qed.

Lemma total_duration_is_set_once_witness :
  let events :=
    [ Progress.Stderr "  Duration: 00:00:10.00, start: 0.000000, bitrate: 128 kb/s" ] in
  let m := fst (Progress.run Text.decimalParseFloat Progress.initial events) in
  let later :=
    [ Progress.Stdout "out_time=00:00:04.000000";
      Progress.Stderr "  Duration: 00:01:00.00, start: 0.000000, bitrate: 128 kb/s" ] in
  Progress.totalDuration m = 10%float
  /\ Progress.totalDuration (fst (Progress.run Text.decimalParseFloat m later)) = 10%float.
Proof.
  intros events m later.
  assert (Hm : Progress.totalDuration m = 10%float) by reflexivity.
  split; [exact Hm|].
  destruct (total_duration_is_set_once Text.decimalParseFloat m later eq_refl) as [H _].
  now rewrite H.
Defined.

(** X13. A line of stderr that contains "Error" or "error" leaves the
    variables of the monitor as they are and is recorded as the error of
    the task: in the store only the first task with the id changes, its
    error becomes the line, its progress becomes the fraction last
    committed by the monitor (when that is not negative), and its
    status, pid and times are kept. *)
Theorem stderr_error_line_is_recorded
    (ParseFloat : string -> float * bool) (m : Progress.monitor) (line taskID : string)
    (l : list Transcode.TranscodeTask) (log : list (list Transcode.TranscodeTask))
    (i : nat) (t : Transcode.TranscodeTask) :
  Text.contains "Error" line || Text.contains "error" line = true ->
  firstMatch (fun q => Transcode.idIs q taskID) l = Some (i, t) ->
  let t' := Transcode.applyProgress (Progress.currentProgress m) line t in
  fst (Progress.stderrLine ParseFloat m line) = m
  /\ applyActions taskID (snd (Progress.stderrLine ParseFloat m line))
       (mkFs (Stored l) true log)
     = mkFs (Stored (<[i := t']> l)) true (log ++ [<[i := t']> l])
  /\ Transcode.Error t' = line
  /\ Transcode.Status t' = Transcode.Status t
  /\ Transcode.PID t' = Transcode.PID t
  /\ Transcode.StartTime t' = Transcode.StartTime t
  /\ Transcode.EndTime t' = Transcode.EndTime t
  /\ Transcode.Progress t'
     = (if fge (Progress.currentProgress m) 0 then Progress.currentProgress m
        else Transcode.Progress t).
Proof.
  intros Herr Hf t'.
  assert (Hline : String.eqb line "" = false).
  { destruct line; [discriminate Herr|reflexivity]. }
  unfold Progress.stderrLine. rewrite Herr. simpl fst. simpl snd.
  split; [reflexivity|]. split.
  { simpl. unfold Transcode.updateTranscodeProgress, updateFirst. run_fs. now rewrite Hf. }
  subst t'. unfold Transcode.applyProgress. rewrite Hline. simpl.
  destruct (fge (Progress.currentProgress m) 0); repeat split; reflexivity.
Qed.

Lemma stderr_error_line_is_recorded_witness :
  let t := Samples.transcode "transcode-1" "transcoding" 100 4242 "" in
  let line := "out.mp4: Error opening output file" in
  applyActions "transcode-1"
    (snd (Progress.stderrLine Text.decimalParseFloat Progress.initial line))
    (mkFs (Stored [t]) true [])
  = mkFs (Stored (<[0%nat := Transcode.applyProgress 0 line t]> [t])) true
      ([] ++ [<[0%nat := Transcode.applyProgress 0 line t]> [t]]).
Proof.
  intros t line.
  destruct (stderr_error_line_is_recorded Text.decimalParseFloat Progress.initial line
              "transcode-1" [t] [] 0 t eq_refl eq_refl) as (_ & H & _).
  exact H.
Defined.

(** ** parseFileSize *)

Lemma removeSpaces_app a b :
  Text.removeSpaces (String.append a b)
  = String.append (Text.removeSpaces a) (Text.removeSpaces b).
Proof.
  induction a as [|c a IH]; [reflexivity|].
  simpl. destruct (Ascii.eqb c " "); [exact IH|]. simpl. now rewrite IH.
Qed.

(** X14. parseFileSize ignores spaces wherever they stand: a size text
    and the same text with a space inserted anywhere, inside the number
    included, give the same result. *)
Theorem parseFileSize_ignores_spaces
    (ParseFloat : string -> float * bool) (a b : string) :
  Progress.parseFileSize ParseFloat (String.append a (String " " b))
  = Progress.parseFileSize ParseFloat (String.append a b).
Proof.
  unfold Progress.parseFileSize.
  rewrite !removeSpaces_app. reflexivity.
Qed.

(** X15. The switch of parseFileSize agrees with the table of units on
    every unit its pattern accepts: the factor applied to the number is
    1 for no unit and for B, 1024 for K, 1024^2 for M, 1024^3 for G,
    1024^4 for T and 1024^5 for P, whatever the case of the letters and
    with or without the final B. *)
Theorem accepted_unit_is_power_of_1024 (s number unit : string) :
  Text.sizeMatch s = Some (number, unit) ->
  Progress.multiplier (Progress.unitOf unit) = float_of_Z (1024 ^ Progress.unitPower unit)
  /\ int_of_float (Progress.multiplier (Progress.unitOf unit))
     = (1024 ^ Progress.unitPower unit)%Z.
Proof.
  intros H. pose proof (accepted_unit_factor s number unit H) as Hf.
  split; [exact Hf|]. rewrite Hf.
  pose proof (unitPower_range (unit)) as Hr.
  assert (Hk : Progress.unitPower unit = 0%Z \/ Progress.unitPower unit = 1%Z
               \/ Progress.unitPower unit = 2%Z \/ Progress.unitPower unit = 3%Z
               \/ Progress.unitPower unit = 4%Z \/ Progress.unitPower unit = 5%Z) by lia.
  destruct Hk as [->|[->|[->|[->|[->| ->]]]]]; vm_compute; reflexivity.
Qed.

Lemma accepted_unit_is_power_of_1024_witness :
  Progress.multiplier (Progress.unitOf "gb") = float_of_Z (1024 ^ 3)
  /\ int_of_float (Progress.multiplier (Progress.unitOf "gb")) = (1024 ^ 3)%Z.
Proof.
  exact (accepted_unit_is_power_of_1024 "12.5gb" "12.5" "gb" eq_refl).
Defined.

(** ** The argument vector of ffmpeg *)

Lemma text_append_assoc (a b c : string) :
  String.append (String.append a b) c = String.append a (String.append b c).
Proof.
  induction a as [|x a IH]; [reflexivity|].
  change (String x (String.append (String.append a b) c)
          = String x (String.append a (String.append b c))).
  now rewrite IH.
Qed.

Lemma text_append_nil_r (a : string) : String.append a "" = a.
Proof.
  induction a as [|x a IH]; [reflexivity|].
  change (String x (String.append a "") = String x a). now rewrite IH.
Qed.

Lemma prefix_append p r : String.prefix p (String.append p r) = true.
Proof.
  induction p as [|a p IH]; [destruct r; reflexivity|].
  change (String.append (String a p) r) with (String a (String.append p r)).
  simpl. destruct (ascii_dec a a); [exact IH|congruence].
Qed.

Lemma prefix_split p s :
  String.prefix p s = true -> exists r, s = String.append p r.
Proof.
  revert s. induction p as [|a p IH]; intros s H; [exists s; reflexivity|].
  destruct s as [|b s]; [discriminate|]. simpl in H.
  destruct (ascii_dec a b) as [->|]; [|discriminate].
  destruct (IH s H) as [r ->]. exists r. reflexivity.
Qed.

Lemma contains_unfold sub s :
  Text.contains sub s
  = if String.prefix sub s then true
    else match s with
         | EmptyString => false
         | String _ rest => Text.contains sub rest
         end.
Proof. destruct s; reflexivity. Qed.

Lemma contains_intro sub a b :
  Text.contains sub (String.append a (String.append sub b)) = true.
Proof.
  induction a as [|c a IH].
  - change (String.append "" (String.append sub b)) with (String.append sub b).
    now rewrite contains_unfold, prefix_append.
  - change (String.append (String c a) (String.append sub b))
      with (String c (String.append a (String.append sub b))).
    rewrite contains_unfold. destruct (String.prefix _ _); [reflexivity|exact IH].
Qed.

Lemma contains_split sub s :
  Text.contains sub s = true ->
  exists a b, s = String.append a (String.append sub b).
Proof.
  induction s as [|c s IH]; rewrite contains_unfold; intros H.
  - destruct (String.prefix sub "") eqn:Hp; [|discriminate].
    apply prefix_split in Hp as [r Hr]. exists "", r. exact Hr.
  - destruct (String.prefix sub (String c s)) eqn:Hp.
    + apply prefix_split in Hp as [r Hr]. exists "", r. exact Hr.
    + destruct (IH H) as (a & b & ->). exists (String c a), b. reflexivity.
Qed.

Lemma contains_inside sub a x b :
  Text.contains sub x = true ->
  Text.contains sub (String.append a (String.append x b)) = true.
Proof.
  intros H. apply contains_split in H as (a' & b' & ->).
  replace (String.append a (String.append (String.append a' (String.append sub b')) b))
    with (String.append (String.append a a') (String.append sub (String.append b' b))).
  - apply contains_intro.
  - now rewrite !text_append_assoc.
Qed.

Lemma join_elem sep (l : list string) i x :
  l !! i = Some x ->
  exists a b, Encoder.join sep l = String.append a (String.append x b).
Proof.
  revert i. induction l as [|y rest IH]; intros i Hi.
  { rewrite lookup_nil in Hi. discriminate. }
  destruct rest as [|z rest].
  - destruct i as [|i]; [|rewrite lookup_cons, lookup_nil in Hi; discriminate].
    simpl in Hi. injection Hi as ->. exists "", "".
    change (x = String.append x ""). now rewrite text_append_nil_r.
  - change (Encoder.join sep (y :: z :: rest))
      with (String.append y (String.append sep (Encoder.join sep (z :: rest)))).
    destruct i as [|i]; simpl in Hi.
    + injection Hi as ->. exists "", (String.append sep (Encoder.join sep (z :: rest))).
      reflexivity.
    + destruct (IH i Hi) as (a & b & ->).
      exists (String.append y (String.append sep a)), b.
      now rewrite !text_append_assoc.
Qed.

Section EncoderFacts.

Import Encoder.

Variable ToLower : string -> string.

Lemma addUnlessPresent_extends flag value args :
  exists q, addUnlessPresent flag value args = args ++ q
            /\ (q = [] \/ q = [flag; value]).
Proof.
  unfold addUnlessPresent. destruct (negb _).
  - exists [flag; value]. auto.
  - exists []. rewrite app_nil_r. auto.
Qed.

Lemma addUnlessPresent_skip flag value args i x :
  args !! i = Some x -> Text.contains flag x = true ->
  addUnlessPresent flag value args = args.
Proof.
  intros Hi Hx. unfold addUnlessPresent.
  destruct (join_elem " " args i x Hi) as (a & b & ->).
  now rewrite (contains_inside flag a x b Hx).
Qed.

Lemma encoderArgs_extends c args :
  exists extra, encoderArgs c args = args ++ extra.
Proof.
  unfold encoderArgs. destruct (useGPU c); [|eauto].
  destruct (Text.contains "nvenc" _); [eauto|].
  destruct (Text.contains "amf" _).
  { destruct (addUnlessPresent_extends "-quality" "balanced" args) as (q1 & -> & _).
    destruct (addUnlessPresent_extends "-rc" "cbr_hq" (args ++ q1)) as (q2 & -> & _).
    destruct (addUnlessPresent_extends "-g" "250" ((args ++ q1) ++ q2)) as (q3 & -> & _).
    exists (q1 ++ q2 ++ q3). now rewrite <- !app_assoc. }
  destruct (Text.contains "qsv" _); eauto.
Qed.

Lemma choose_hwaccel p ext requested :
  hwaccelType (choose ToLower p ext requested) = ""
  \/ In (hwaccelType (choose ToLower p ext requested)) ["cuda"; "d3d11va"; "qsv"].
Proof.
  unfold choose, d3dFallback.
  destruct (negb (hasGPU p && ffmpegSupportsGPU p)); [now left|].
  destruct (gpuType p), (cudaOk p), (d3dOk p), (qsvOk p), (hasH264AMF p), (hasHEVCAMF p);
    simpl; auto.
Qed.

End EncoderFacts.

(** X16. Without a GPU, or when CheckFFmpegGPU reports no support,
    startTranscode runs ffmpeg with exactly these arguments; the
    video codec is the default of the output format (libvpx-vp9 for
    webm, libx264 otherwise) even when the task names another one, while
    the audio codec, resolution and bitrate of the task are used. *)
Theorem cpu_mode_arguments
    (ToLower : string -> string) (p : Encoder.probes) (task : Transcode.TranscodeTask) :
  Encoder.hasGPU p && Encoder.ffmpegSupportsGPU p = false ->
  let ext := Encoder.outputExtOf (Transcode.OutputFile task) in
  Encoder.ffmpegArgs ToLower p task
  = ["-i"; Transcode.InputFile task; "-c:v"; Encoder.defaultVideo ext;
     "-preset"; "medium"; "-threads"; "4"]
    ++ Encoder.resolutionArgs (Transcode.Resolution task)
    ++ Encoder.bitrateArgs (Transcode.Bitrate task)
    ++ ["-c:a";
        if negb (String.eqb (Transcode.AudioCodec task) "") then Transcode.AudioCodec task
        else Encoder.defaultAudio ext;
        "-max_muxing_queue_size"; "1024"; "-filter_threads"; "2";
        "-y"; "-progress"; "pipe:1"; "-stats"; Transcode.OutputFile task].
Proof.
  intros H ext. unfold Encoder.ffmpegArgs, Encoder.choose. fold ext. rewrite H.
  cbn [negb Encoder.useGPU Encoder.hwaccelType Encoder.videoCodec andb].
  unfold Encoder.encoderArgs. cbn [Encoder.useGPU].
  rewrite <- !app_assoc. reflexivity.
Qed.

Lemma cpu_mode_arguments_witness :
  Encoder.ffmpegArgs Encoder.asciiToLower
    (Encoder.mkProbes true Encoder.GPUTypeNVIDIA false true true false false false)
    (Transcode.mkTask "transcode-1" "in.mkv" "out.mp4" "waiting" 100 0 0 "" ""
       "ffmpeg -i in.mkv -c:v libx265 out.mp4" 0 "" "libx265" "" "720p" "2000k")
  = ["-i"; "in.mkv"; "-c:v"; "libx264"; "-preset"; "medium"; "-threads"; "4";
     "-s"; "1280x720"; "-b:v"; "2000k"; "-c:a"; "aac";
     "-max_muxing_queue_size"; "1024"; "-filter_threads"; "2";
     "-y"; "-progress"; "pipe:1"; "-stats"; "out.mp4"].
Proof.
  exact (cpu_mode_arguments Encoder.asciiToLower
           (Encoder.mkProbes true Encoder.GPUTypeNVIDIA false true true false false false)
           (Transcode.mkTask "transcode-1" "in.mkv" "out.mp4" "waiting" 100 0 0 "" ""
              "ffmpeg -i in.mkv -c:v libx265 out.mp4" 0 "" "libx265" "" "720p" "2000k")
           eq_refl).
Defined.

(** X17. When a GPU is present and ffmpeg supports one, but the probe of
    the vendor and the probe with d3d11va both fail, startTranscode
    falls back to the CPU parameters and keeps the video codec that the
    task names: unlike the mode without GPU, it does not reset the codec
    to the default of the output format. *)
Theorem failed_probes_keep_requested_codec
    (ToLower : string -> string) (p : Encoder.probes) (task : Transcode.TranscodeTask) :
  Encoder.hasGPU p && Encoder.ffmpegSupportsGPU p = true ->
  match Encoder.gpuType p with
  | Encoder.GPUTypeNVIDIA => Encoder.cudaOk p
  | Encoder.GPUTypeAMD => Encoder.hasH264AMF p || Encoder.hasHEVCAMF p
  | Encoder.GPUTypeIntel => Encoder.qsvOk p
  | Encoder.GPUTypeOther => false
  end = false ->
  Encoder.d3dOk p = false ->
  let ext := Encoder.outputExtOf (Transcode.OutputFile task) in
  Encoder.ffmpegArgs ToLower p task
  = ["-i"; Transcode.InputFile task; "-c:v";
     if negb (String.eqb (Transcode.VideoCodec task) "") then Transcode.VideoCodec task
     else Encoder.defaultVideo ext;
     "-preset"; "medium"; "-threads"; "4"]
    ++ Encoder.resolutionArgs (Transcode.Resolution task)
    ++ Encoder.bitrateArgs (Transcode.Bitrate task)
    ++ ["-c:a";
        if negb (String.eqb (Transcode.AudioCodec task) "") then Transcode.AudioCodec task
        else Encoder.defaultAudio ext;
        "-max_muxing_queue_size"; "1024"; "-filter_threads"; "2";
        "-y"; "-progress"; "pipe:1"; "-stats"; Transcode.OutputFile task].
Proof.
  intros Hgpu Hvendor Hd3d ext.
  assert (Hc : Encoder.choose ToLower p ext (Transcode.VideoCodec task)
               = Encoder.mkChoice false "" ""
                   (if negb (String.eqb (Transcode.VideoCodec task) "")
                    then Transcode.VideoCodec task else Encoder.defaultVideo ext)).
  { unfold Encoder.choose, Encoder.d3dFallback. rewrite Hgpu, Hd3d.
    destruct (Encoder.gpuType p); cbn [negb]; rewrite ?Hvendor; reflexivity. }
  unfold Encoder.ffmpegArgs. fold ext. rewrite Hc.
  cbn [negb Encoder.useGPU Encoder.hwaccelType Encoder.videoCodec andb].
  unfold Encoder.encoderArgs. cbn [Encoder.useGPU].
  rewrite <- !app_assoc. reflexivity.
Qed.

Lemma failed_probes_keep_requested_codec_witness :
  Encoder.ffmpegArgs Encoder.asciiToLower
    (Encoder.mkProbes true Encoder.GPUTypeNVIDIA true false false false false false)
    (Transcode.mkTask "transcode-1" "in.mkv" "out.mp4" "waiting" 100 0 0 "" ""
       "ffmpeg -i in.mkv -c:v libx265 out.mp4" 0 "" "libx265" "" "720p" "2000k")
  = ["-i"; "in.mkv"; "-c:v"; "libx265"; "-preset"; "medium"; "-threads"; "4";
     "-s"; "1280x720"; "-b:v"; "2000k"; "-c:a"; "aac";
     "-max_muxing_queue_size"; "1024"; "-filter_threads"; "2";
     "-y"; "-progress"; "pipe:1"; "-stats"; "out.mp4"].
Proof.
  exact (failed_probes_keep_requested_codec Encoder.asciiToLower
           (Encoder.mkProbes true Encoder.GPUTypeNVIDIA true false false false false false)
           (Transcode.mkTask "transcode-1" "in.mkv" "out.mp4" "waiting" 100 0 0 "" ""
              "ffmpeg -i in.mkv -c:v libx265 out.mp4" 0 "" "libx265" "" "720p" "2000k")
           eq_refl eq_refl eq_refl).
Defined.

(** X18. Whatever the probes report, the arguments of ffmpeg have one
    shape: an optional [-hwaccel] with cuda, d3d11va or qsv, then
    [-i] and the input file, [-c:v] and a codec, and at the end
    [-y -progress pipe:1 -stats] followed by the output file, so the
    progress reader always has its stream and the output file is always
    overwritten. *)
Theorem ffmpeg_arguments_shape
    (ToLower : string -> string) (p : Encoder.probes) (task : Transcode.TranscodeTask) :
  exists pre codec mid,
    Encoder.ffmpegArgs ToLower p task
    = pre ++ ["-i"; Transcode.InputFile task; "-c:v"; codec] ++ mid
      ++ ["-y"; "-progress"; "pipe:1"; "-stats"; Transcode.OutputFile task]
    /\ (pre = []
        \/ exists h, pre = ["-hwaccel"; h] /\ In h ["cuda"; "d3d11va"; "qsv"]).
Proof.
  unfold Encoder.ffmpegArgs.
  set (ext := Encoder.outputExtOf (Transcode.OutputFile task)).
  pose proof (choose_hwaccel ToLower p ext (Transcode.VideoCodec task)) as Hh.
  set (c := Encoder.choose ToLower p ext (Transcode.VideoCodec task)) in *.
  set (pre := if Encoder.useGPU c && negb (String.eqb (Encoder.hwaccelType c) "")
              then ["-hwaccel"; Encoder.hwaccelType c] else []).
  destruct (encoderArgs_extends c
              ((pre ++ ["-i"; Transcode.InputFile task])
               ++ ["-c:v"; Encoder.videoCodec c])) as [extra ->].
  set (audio := if negb (String.eqb (Transcode.AudioCodec task) "")
                then Transcode.AudioCodec task else Encoder.defaultAudio ext).
  exists pre, (Encoder.videoCodec c),
    (extra ++ Encoder.resolutionArgs (Transcode.Resolution task)
       ++ Encoder.bitrateArgs (Transcode.Bitrate task)
       ++ ["-c:a"; audio; "-max_muxing_queue_size"; "1024"]
       ++ (if negb (Encoder.useGPU c) then ["-filter_threads"; "2"] else [])).
  split.
  - destruct (negb (Encoder.useGPU c)); rewrite <- !app_assoc; reflexivity.
  - subst pre. destruct (Encoder.useGPU c && negb (String.eqb (Encoder.hwaccelType c) ""))
      eqn:E; [|now left].
    right. exists (Encoder.hwaccelType c). split; [reflexivity|].
    destruct Hh as [H0|H]; [|exact H].
    rewrite H0 in E. rewrite andb_comm in E. discriminate.
Qed.

(** X19. On an AMD GPU with the AMF encoder the flag [-g 250] is left
    out whenever the path of the input file contains the text "-g": the
    test that is meant to see whether the flag is already present
    searches the joined arguments, and the input path is one of them. *)
Theorem amf_gop_flag_depends_on_input_path
    (ToLower : string -> string) (p : Encoder.probes) (task : Transcode.TranscodeTask) :
  Encoder.hasGPU p = true ->
  Encoder.ffmpegSupportsGPU p = true ->
  Encoder.gpuType p = Encoder.GPUTypeAMD ->
  Encoder.hasH264AMF p = true ->
  Encoder.isMp4OrMkv (Encoder.outputExtOf (Transcode.OutputFile task)) = true ->
  Text.contains "-g" (Transcode.InputFile task) = true ->
  exists q,
    ~ In "-g" q
    /\ Encoder.ffmpegArgs ToLower p task
       = ["-hwaccel"; "d3d11va"; "-i"; Transcode.InputFile task; "-c:v"; "h264_amf"]
         ++ q
         ++ Encoder.resolutionArgs (Transcode.Resolution task)
         ++ Encoder.bitrateArgs (Transcode.Bitrate task)
         ++ ["-c:a";
             if negb (String.eqb (Transcode.AudioCodec task) "")
             then Transcode.AudioCodec task
             else Encoder.defaultAudio (Encoder.outputExtOf (Transcode.OutputFile task));
             "-max_muxing_queue_size"; "1024";
             "-y"; "-progress"; "pipe:1"; "-stats"; Transcode.OutputFile task].
Proof.
  intros Hg Hs Ht Hamf Hext Hin.
  set (ext := Encoder.outputExtOf (Transcode.OutputFile task)) in *.
  assert (Hc : Encoder.choose ToLower p ext (Transcode.VideoCodec task)
               = Encoder.mkChoice true "d3d11va" "balanced" "h264_amf").
  { unfold Encoder.choose. rewrite Hg, Hs, Ht, Hamf, Hext. reflexivity. }
  unfold Encoder.ffmpegArgs. fold ext. rewrite Hc.
  cbn [Encoder.useGPU Encoder.hwaccelType Encoder.videoCodec Encoder.gpuPreset].
  change (true && negb (String.eqb "d3d11va" "")) with true.
  change (negb true) with false. cbv iota.
  unfold Encoder.encoderArgs.
  cbn [Encoder.useGPU Encoder.hwaccelType Encoder.videoCodec Encoder.gpuPreset].
  change (Text.contains "nvenc" "h264_amf") with false.
  change (Text.contains "amf" "h264_amf") with true. cbv iota.
  set (A0 := (["-hwaccel"; "d3d11va"] ++ ["-i"; Transcode.InputFile task])
             ++ ["-c:v"; "h264_amf"]).
  destruct (addUnlessPresent_extends "-quality" "balanced" A0) as (q1 & -> & Hq1).
  destruct (addUnlessPresent_extends "-rc" "cbr_hq" (A0 ++ q1)) as (q2 & -> & Hq2).
  rewrite (addUnlessPresent_skip "-g" "250" ((A0 ++ q1) ++ q2) 3 (Transcode.InputFile task));
    [|reflexivity|exact Hin].
  exists (q1 ++ q2). split.
  - intros HIn. apply in_app_or in HIn.
    destruct Hq1 as [->| ->], Hq2 as [->| ->]; simpl in HIn; intuition discriminate.
  - subst A0. rewrite <- !app_assoc. reflexivity.
Qed.

Lemma amf_gop_flag_depends_on_input_path_witness :
  let p := Encoder.mkProbes true Encoder.GPUTypeAMD true false true false true false in
  let task path :=
    Transcode.mkTask "transcode-1" path "out.mp4" "waiting" 100 0 0 "" "" "" 0 ""
      "" "" "" "" in
  (exists q,
     ~ In "-g" q
     /\ Encoder.ffmpegArgs Encoder.asciiToLower p (task "D:\videos\my-game.mkv")
        = ["-hwaccel"; "d3d11va"; "-i"; "D:\videos\my-game.mkv"; "-c:v"; "h264_amf"]
          ++ q
          ++ Encoder.resolutionArgs ""
          ++ Encoder.bitrateArgs ""
          ++ ["-c:a"; "aac"; "-max_muxing_queue_size"; "1024";
              "-y"; "-progress"; "pipe:1"; "-stats"; "out.mp4"])
  /\ Encoder.ffmpegArgs Encoder.asciiToLower p (task "D:\videos\film.mkv")
     = ["-hwaccel"; "d3d11va"; "-i"; "D:\videos\film.mkv"; "-c:v"; "h264_amf";
        "-quality"; "balanced"; "-rc"; "cbr_hq"; "-g"; "250";
        "-c:a"; "aac"; "-max_muxing_queue_size"; "1024";
        "-y"; "-progress"; "pipe:1"; "-stats"; "out.mp4"].
Proof.
  intros p task. split.
  - exact (amf_gop_flag_depends_on_input_path Encoder.asciiToLower p
             (task "D:\videos\my-game.mkv") eq_refl eq_refl eq_refl eq_refl eq_refl eq_refl).
  - vm_compute. reflexivity.
Defined.

(** ** ParseTorrentFile *)

Lemma wrap64_add (a b : Z) :
  Torrent.wrap64 (Torrent.wrap64 a + b) = Torrent.wrap64 (a + b).
Proof.
  unfold Torrent.wrap64.
  replace ((a + 2 ^ 63) mod 2 ^ 64 - 2 ^ 63 + b + 2 ^ 63)%Z
    with ((a + 2 ^ 63) mod 2 ^ 64 + b)%Z by lia.
  rewrite Zplus_mod_idemp_l. do 2 f_equal. lia.
Qed.

Lemma collect_spec (files : list Torrent.entry) (acc : list Torrent.FileInfo) (t0 : Z) :
  Forall (fun f => Torrent.Path f <> []) files ->
  exists infos,
    Torrent.collect files acc (Torrent.wrap64 t0)
    = Some (acc ++ infos,
            Torrent.wrap64 (t0 + fold_right Z.add 0%Z (map Torrent.Length files)))
    /\ Forall2 (fun f fi => last (Torrent.Path f) = Some (Torrent.FileName fi)
                            /\ Torrent.Size fi = Torrent.Length f) files infos.
Proof.
  intros Hall. revert acc t0.
  induction Hall as [|f rest Hf Hrest IH]; intros acc t0.
  - exists []. simpl. rewrite app_nil_r, Z.add_0_r. split; [reflexivity|constructor].
  - simpl. destruct (last (Torrent.Path f)) as [fileName|] eqn:Hl.
    + rewrite wrap64_add.
      destruct (IH (acc ++ [Torrent.mkFileInfo fileName (Torrent.Length f)])
                  (t0 + Torrent.Length f)%Z) as (infos & -> & Hinfos).
      exists (Torrent.mkFileInfo fileName (Torrent.Length f) :: infos).
      split.
      * rewrite <- app_assoc. simpl. do 3 f_equal. lia.
      * constructor; [split; [exact Hl|reflexivity]|exact Hinfos].
    + apply last_None in Hl. contradiction.
Qed.

Lemma collect_None (files : list Torrent.entry) (acc : list Torrent.FileInfo) (t : Z) :
  Torrent.collect files acc t = None <-> Exists (fun f => Torrent.Path f = []) files.
Proof.
  revert acc t. induction files as [|f rest IH]; intros acc t; simpl.
  - split; [discriminate|]. intros H. inversion H.
  - destruct (last (Torrent.Path f)) as [fileName|] eqn:Hl.
    + rewrite IH. split.
      * intros H. now apply Exists_cons_tl.
      * intros H. apply Exists_cons in H as [H|H]; [|exact H].
        rewrite H in Hl. discriminate.
    + apply last_None in Hl. split; [|reflexivity]. intros _. now apply Exists_cons_hd.
Qed.

(** X20. For a torrent with several files whose paths are all non-empty,
    ParseTorrentFile lists the files in the order of the metainfo, each
    under the last element of its path and with its own length, and
    reports as total size the sum of the lengths in 64-bit two's
    complement arithmetic. *)
Theorem torrent_directory_summary (i : Torrent.info) (requestName : string) :
  Forall (fun f => Torrent.Path f <> []) (Torrent.Files i) ->
  exists r,
    Torrent.summary true i requestName = Some r
    /\ Torrent.TotalSize r
       = Torrent.wrap64 (fold_right Z.add 0%Z (map Torrent.Length (Torrent.Files i)))
    /\ Forall2 (fun f fi => last (Torrent.Path f) = Some (Torrent.FileName fi)
                            /\ Torrent.Size fi = Torrent.Length f)
         (Torrent.Files i) (Torrent.FileInfos r)
    /\ Torrent.RequestName r = requestName.
Proof.
  intros Hall. unfold Torrent.summary.
  destruct (collect_spec (Torrent.Files i) [] 0 Hall) as (infos & Hc & Hinfos).
  change (Torrent.wrap64 0) with 0%Z in Hc. rewrite Hc.
  eexists. split; [reflexivity|]. simpl. auto.
Qed.

Lemma torrent_directory_summary_witness :
  let i := Torrent.mkInfo "season"  0
             [ Torrent.mkEntry ["season"; "e01.mkv"] 700;
               Torrent.mkEntry ["season"; "extras"; "e02.mkv"] (2 ^ 63 - 1) ] in
  exists r,
    Torrent.summary true i "season.torrent" = Some r
    /\ Torrent.TotalSize r = (699 - 2 ^ 63)%Z
    /\ map Torrent.FileName (Torrent.FileInfos r) = ["e01.mkv"; "e02.mkv"].
Proof.
  intros i.
  destruct (torrent_directory_summary i "season.torrent") as (r & Hr & Ht & _).
  - repeat constructor; discriminate.
  - exists r. split; [exact Hr|]. split; [rewrite Ht; reflexivity|].
    vm_compute in Hr. injection Hr as <-. reflexivity.
Defined.

(** X21. ParseTorrentFile on a torrent with several files panics exactly
    when one of the file entries has an empty path; in every other case
    it returns a summary. *)
Theorem torrent_directory_panics_on_empty_path (i : Torrent.info) (requestName : string) :
  Torrent.summary true i requestName = None
  <-> Exists (fun f => Torrent.Path f = []) (Torrent.Files i).
Proof.
  unfold Torrent.summary. rewrite <- (collect_None (Torrent.Files i) [] 0).
  destruct (Torrent.collect (Torrent.Files i) [] 0) as [[fileInfos totalSize]|].
  - split; discriminate.
  - split; reflexivity.
Qed.

(** ** GetDownloadStatus *)

(** X22. GetDownloadStatus never writes the progress file, and, every
    stored task being serialisable, it returns an error exactly when the
    file exists and cannot be read or cannot be parsed; a missing file
    is no error. *)
Theorem GetDownloadStatus_errors
    (marshalable : Download.task -> bool) (taskId : string) (s : fs Download.task) :
  (forall t, marshalable t = true) ->
  snd (Queries.GetDownloadStatus marshalable taskId s) = s
  /\ ((exists e, fst (Queries.GetDownloadStatus marshalable taskId s) = Queries.Failed e)
      <-> content s = Unreadable \/ content s = Corrupt).
Proof.
  intros Hm. unfold Queries.GetDownloadStatus.
  cbv [bind readStore ret]. destruct (content s) as [| | |l] eqn:Hc; simpl.
  - split; [reflexivity|]. split; [intros [e He]; discriminate|intros [H|H]; discriminate].
  - split; [reflexivity|]. split; [auto|eauto].
  - split; [reflexivity|]. split; [auto|eauto].
  - assert (Hall : forallb marshalable l = true).
    { apply forallb_forall. intros t _. apply Hm. }
    rewrite Hall. destruct (String.eqb taskId ""); simpl.
    + split; [reflexivity|]. split; [intros [e He]; discriminate|intros [H|H]; discriminate].
    + destruct (find _ l) as [task|]; [rewrite Hm|]; simpl;
        (split; [reflexivity|]);
        (split; [intros [e He]; discriminate|intros [H|H]; discriminate]).
Qed.

Lemma GetDownloadStatus_errors_witness :
  snd (Queries.GetDownloadStatus (fun _ => true) "task-1" (onDisk Corrupt true))
  = onDisk Corrupt true
  /\ exists e,
       fst (Queries.GetDownloadStatus (fun _ => true) "task-1" (onDisk Corrupt true))
       = Queries.Failed e.
Proof.
  destruct (GetDownloadStatus_errors (fun _ => true) "task-1" (onDisk Corrupt true)
              (fun _ => eq_refl)) as [Hs [_ He]].
  split; [exact Hs|]. apply He. right. reflexivity.
Defined.

(** X23. Asked for one task, GetDownloadStatus answers with the empty
    object exactly when no stored task has the id; an unknown id is not
    an error. *)
Theorem GetDownloadStatus_unknown_id
    (marshalable : Download.task -> bool) (taskId : string)
    (l : list Download.task) (w : bool) (log : list (list Download.task)) :
  taskId <> "" ->
  fst (Queries.GetDownloadStatus marshalable taskId (mkFs (Stored l) w log))
  = Queries.Answer Queries.EmptyObject
  <-> existsb (fun t => Download.idIs t taskId) l = false.
Proof.
  intros Hne. apply String.eqb_neq in Hne.
  unfold Queries.GetDownloadStatus. cbv [bind readStore ret content]. rewrite Hne.
  destruct (find (fun t => Download.idIs t taskId) l) as [task|] eqn:Hf.
  - apply find_some in Hf as [Hin Hid].
    assert (Hex : existsb (fun t => Download.idIs t taskId) l = true).
    { apply existsb_exists. eauto. }
    rewrite Hex. destruct (marshalable task); simpl; split; discriminate.
  - simpl. split; [|reflexivity]. intros _.
    destruct (existsb _ l) eqn:Hex; [|reflexivity].
    apply existsb_exists in Hex as (x & Hin & Hx).
    rewrite (find_none _ l Hf x Hin) in Hx. discriminate.
Qed.

Lemma GetDownloadStatus_unknown_id_witness :
  fst (Queries.GetDownloadStatus (fun _ => true) "task-9"
         (mkFs (Stored [Samples.download "task-1" "waiting" "2024-05-01T10:00:00Z" None])
            true []))
  = Queries.Answer Queries.EmptyObject.
Proof.
  apply (GetDownloadStatus_unknown_id (fun _ => true) "task-9").
  - discriminate.
  - reflexivity.
Defined.

(** ** An error line of ffmpeg and the end of the transcode *)

Lemma error_line_store ParseFloat m line taskID
    (l : list Transcode.TranscodeTask) (log : list (list Transcode.TranscodeTask)) i t :
  Text.contains "Error" line || Text.contains "error" line = true ->
  firstMatch (fun q => Transcode.idIs q taskID) l = Some (i, t) ->
  applyActions taskID (snd (Progress.stderrLine ParseFloat m line)) (mkFs (Stored l) true log)
  = mkFs (Stored (<[i := Transcode.applyProgress (Progress.currentProgress m) line t]> l)) true
      (log ++ [<[i := Transcode.applyProgress (Progress.currentProgress m) line t]> l]).
Proof.
  intros Herr Hf. unfold Progress.stderrLine. rewrite Herr. simpl.
  unfold Transcode.updateTranscodeProgress, updateFirst. run_fs. now rewrite Hf.
Qed.

Lemma applyProgress_error progress line t :
  String.eqb line "" = false ->
  Transcode.Error (Transcode.applyProgress progress line t) = line
  /\ Transcode.TaskID (Transcode.applyProgress progress line t) = Transcode.TaskID t.
Proof.
  intros Hline. unfold Transcode.applyProgress. rewrite Hline. simpl.
  destruct (fge progress 0); split; reflexivity.
Qed.

(** X24. A line of stderr that contains "error" is kept as the error of
    the task even when ffmpeg then ends without error: the snapshot
    written after [Wait] holds the task as "completed", with progress 1
    and with that line as its error. *)
Theorem completed_transcode_keeps_error_line
    (ParseFloat : string -> float * bool) (m : Progress.monitor) (line taskID : string)
    (l : list Transcode.TranscodeTask) (log : list (list Transcode.TranscodeTask))
    (i : nat) (t : Transcode.TranscodeTask) (now : Z) (launch : option Z) :
  Text.contains "Error" line || Text.contains "error" line = true ->
  firstMatch (fun q => Transcode.idIs q taskID) l = Some (i, t) ->
  let recorded := <[i := Transcode.applyProgress (Progress.currentProgress m) line t]> l in
  exists t1 more,
    written (snd (Transcode.monitorExit taskID None now launch
                    (applyActions taskID (snd (Progress.stderrLine ParseFloat m line))
                       (mkFs (Stored l) true log))))
    = log ++ [recorded; <[i := t1]> recorded] ++ more
    /\ Transcode.Status t1 = "completed"
    /\ Transcode.Progress t1 = 1%float
    /\ Transcode.Error t1 = line.
Proof.
  intros Herr Hf recorded.
  assert (Hline : String.eqb line "" = false).
  { destruct line; [discriminate Herr|reflexivity]. }
  rewrite (error_line_store ParseFloat m line taskID l log i t Herr Hf). fold recorded.
  set (t' := Transcode.applyProgress (Progress.currentProgress m) line t) in *.
  destruct (applyProgress_error (Progress.currentProgress m) line t Hline) as [He Hid].
  fold t' in He, Hid.
  assert (Hf' : firstMatch (fun q => Transcode.idIs q taskID) recorded = Some (i, t')).
  { unfold recorded. apply (firstMatch_insert _ l i t t' Hf).
    apply firstMatch_Some in Hf as (_ & Ht & _).
    unfold Transcode.idIs in *. now rewrite Hid. }
  set (t1 := Transcode.exitUpdate None now t').
  destruct (startNextTranscodeTask_log launch now
              (mkFs (Stored (<[i := t1]> recorded)) true
                 ((log ++ [recorded]) ++ [<[i := t1]> recorded]))) as [more Hmore].
  exists t1, more. split; [|split; [reflexivity|split; [reflexivity|exact He]]].
  unfold Transcode.monitorExit.
  cbv [bind readStore writeStore ret content writable written].
  rewrite (transcode_exit_any_status taskID None now recorded i t' Hf'). fold t1.
  cbv [written] in Hmore. rewrite Hmore. rewrite <- !app_assoc. reflexivity.
Qed.

Lemma completed_transcode_keeps_error_line_witness :
  let t := Samples.transcode "transcode-1" "transcoding" 100 4242 "" in
  let line := "[h264 @ 0x55d] error while decoding MB 12 7, bytestream -5" in
  let recorded := <[0%nat := Transcode.applyProgress
                               (Progress.currentProgress Progress.initial) line t]> [t] in
  exists t1 more,
    written (snd (Transcode.monitorExit "transcode-1" None 500 None
                    (applyActions "transcode-1"
                       (snd (Progress.stderrLine Text.decimalParseFloat Progress.initial line))
                       (mkFs (Stored [t]) true []))))
    = [] ++ [recorded; <[0%nat := t1]> recorded] ++ more
    /\ Transcode.Status t1 = "completed"
    /\ Transcode.Progress t1 = 1%float
    /\ Transcode.Error t1 = line.
Proof.
  intros t line.
  exact (completed_transcode_keeps_error_line Text.decimalParseFloat Progress.initial line
           "transcode-1" [t] [] 0 t 500 None eq_refl eq_refl).
Defined.

(** ** shutdown *)

Lemma shutdownLoop_cons t rest :
  shutdownLoop (t :: rest)
  = (if Download.downloading t
     then match t !! "pid" with
          | Some (JNum v) => [int_of_float v]
          | _ => []
          end
     else []) ++ shutdownLoop rest.
Proof.
  unfold Download.downloading. simpl.
  destruct (Download.statusIs t "downloading"); [|reflexivity].
  destruct (t !! "pid") as [[| |v| | |]|]; reflexivity.
Qed.

Lemma shutdownLoop_In l pid :
  In pid (shutdownLoop l)
  <-> exists i t v, l !! i = Some t /\ Download.downloading t = true
                    /\ t !! "pid" = Some (JNum v) /\ pid = int_of_float v.
Proof.
  induction l as [|t rest IH].
  - simpl. split; [contradiction|]. intros (i & t & v & Hi & _).
    rewrite lookup_nil in Hi. discriminate.
  - rewrite shutdownLoop_cons, in_app_iff, IH. split.
    + intros [H|(i & t' & v & Hi & Hrest)].
      * destruct (Download.downloading t) eqn:Hd; [|contradiction].
        destruct (t !! "pid") as [[| |v| | |]|] eqn:Hp; try contradiction.
        destruct H as [<-|[]]. exists 0%nat, t, v. auto.
      * exists (S i), t', v. auto.
    + intros ([|i] & t' & v & Hi & Hd & Hp & ->).
      * simpl in Hi. injection Hi as ->. left. rewrite Hd, Hp. now left.
      * right. exists i, t', v. auto.
Qed.

Lemma shutdownLoop_idle l :
  existsb Download.downloading l = false -> shutdownLoop l = [].
Proof.
  induction l as [|t rest IH]; [reflexivity|].
  simpl existsb. intros H. apply orb_false_iff in H as [Ht Hrest].
  now rewrite shutdownLoop_cons, Ht, IH.
Qed.

Lemma atMostOne_tail {A} (P : A -> bool) x l : atMostOne P (x :: l) -> atMostOne P l.
Proof.
  intros H i j a b Hi Hj Pa Pb.
  specialize (H (S i) (S j) a b Hi Hj Pa Pb). congruence.
Qed.

Lemma atMostOne_head_idle {A} (P : A -> bool) x l :
  atMostOne P (x :: l) -> P x = true -> existsb P l = false.
Proof.
  intros H Px. apply existsb_false_intro. intros j y Hj.
  destruct (P y) eqn:Py; [|reflexivity].
  specialize (H 0%nat (S j) x y eq_refl Hj Px Py). discriminate.
Qed.

Lemma shutdownLoop_length l :
  atMostOne Download.downloading l -> (length (shutdownLoop l) <= 1)%nat.
Proof.
  induction l as [|t rest IH]; intros H; [simpl; lia|].
  rewrite shutdownLoop_cons. destruct (Download.downloading t) eqn:Hd.
  - rewrite (shutdownLoop_idle rest (atMostOne_head_idle _ t rest H Hd)).
    destruct (t !! "pid") as [[| |v| | |]|]; simpl; lia.
  - simpl. apply IH. now apply atMostOne_tail in H.
Qed.

(** X25. shutdown never writes download_progress.json, so the tasks
    it stops stay "downloading" on disk, and the processes it kills are
    exactly those of the stored tasks that are "downloading" with a
    number as pid. *)
Theorem shutdown_kills_downloading_tasks (s : fs Download.task) (pid : Z) :
  snd (shutdown s) = s
  /\ (In pid (fst (shutdown s))
      <-> exists l i t v,
            content s = Stored l /\ l !! i = Some t /\ Download.downloading t = true
            /\ t !! "pid" = Some (JNum v) /\ pid = int_of_float v).
Proof.
  unfold shutdown. cbv [bind readStore ret].
  destruct (content s) as [| | |l] eqn:Hc; simpl; (split; [reflexivity|]).
  1-3: split; [contradiction|intros (l & i & t & v & H & _); discriminate].
  rewrite shutdownLoop_In. split.
  - intros (i & t & v & H). exists l, i, t, v. auto.
  - intros (l' & i & t & v & Hl & H). injection Hl as <-. exists i, t, v. exact H.
Qed.

(** X26. When at most one stored task is downloading, shutdown kills
    at most one process. *)
Theorem shutdown_kills_at_most_one_process (s : fs Download.task) :
  atMostOneStored Download.downloading (content s) ->
  (length (fst (shutdown s)) <= 1)%nat.
Proof.
  intros H. unfold shutdown. cbv [bind readStore ret].
  destruct (content s) as [| | |l]; simpl; try lia.
  now apply shutdownLoop_length.
Qed.

Lemma shutdown_kills_at_most_one_process_witness :
  let a := Samples.download "task-1" "downloading" "2024-05-01T10:00:00Z"
             (Some (JNum 4242)) in
  let b := Samples.download "task-2" "waiting" "2024-05-01T10:05:00Z" None in
  fst (shutdown (onDisk (Stored [a; b]) true)) = [4242%Z]
  /\ (length (fst (shutdown (onDisk (Stored [a; b]) true))) <= 1)%nat.
Proof.
  intros a b. split; [vm_compute; reflexivity|].
  apply (shutdown_kills_at_most_one_process (onDisk (Stored [a; b]) true)).
  intros [|[|[|i]]] [|[|[|j]]] x y Hi Hj Hx Hy; simpl in Hi, Hj;
    try reflexivity; try discriminate;
    try (injection Hi as <-); try (injection Hj as <-);
    try (vm_compute in Hx; discriminate); try (vm_compute in Hy; discriminate).
Defined.
